(** * HPC Connector: a shallow embedding of the job control plane

    The development follows the JavaScript sources of the extension:
    - [JsString]        the string primitives the sources rely on
                        ([includes], [startsWith], [trim], [padStart], ...);
    - [PosixPath]       Node's [path.posix] functions used by the sources;
    - [ConfigManager]   [getClusterInfo];
    - [SafetyManager]   [validatePath], [validateDelete];
    - [Executors]       the execution recipes and their factory;
    - [ScriptBuilder]   the batch script generator;
    - [ConnectionManager] [connectWithRetry] and its error classification;
    - [JsDate]          the time values behind [new Date()];
    - [JsObject]        JSON values and the objects of the ledger;
    - [StorageManager]  the ledger file;
    - [ClusterManager]  [generateJobId], [submitJob], [getJobStatus],
                        [cleanRemoteJob].

    JavaScript exceptions are values of [outcome]; remote commands and
    transfers are calls to an abstract remote, threaded as explicit state.
    [Notions] holds the vocabulary of the statements, [CleanupScenario] and
    [Samples] concrete workspaces; the properties follow. *)

From Stdlib Require Import ZArith Lia List Bool Ascii String.
From stdpp Require Import base option list strings gmap.

Import ListNotations.
Open Scope string_scope.

(** ** Exceptions *)

(** A JavaScript call either returns a value or throws an [Error] whose
    [message] is the carried string. *)
Inductive outcome (A : Type) : Type :=
| Ok (a : A)
| Throw (message : string).
Arguments Ok {A} a.
Arguments Throw {A} message.

Definition obind {A B : Type} (m : outcome A) (k : A -> outcome B) : outcome B :=
  match m with
  | Ok a => k a
  | Throw e => Throw e
  end.

Definition is_ok {A : Type} (m : outcome A) : bool :=
  match m with Ok _ => true | Throw _ => false end.

(** ** JavaScript strings *)

Module JsString.

(** [s.startsWith(p)] *)
Definition startsWith (s p : string) : bool := String.prefix p s.

(** [s.includes(sub)] *)
Fixpoint includes (s sub : string) : bool :=
  startsWith s sub ||
  match s with
  | EmptyString => false
  | String _ s' => includes s' sub
  end.

(** White space removed by [trim]: TAB, LF, VT, FF, CR and SPACE (the
    white space and line terminators of the ASCII range). *)
Definition isWhiteSpace (c : ascii) : bool :=
  let n := nat_of_ascii c in
  ((9 <=? n)%nat && (n <=? 13)%nat) || (n =? 32)%nat.

Fixpoint trimStart (s : string) : string :=
  match s with
  | EmptyString => EmptyString
  | String c s' => if isWhiteSpace c then trimStart s' else s
  end.

(** [trimEnd] drops the white space suffix: a character is kept when it
    is not white space or when something is kept after it. *)
Fixpoint trimEnd (s : string) : string :=
  match s with
  | EmptyString => EmptyString
  | String c s' =>
      match trimEnd s' with
      | EmptyString => if isWhiteSpace c then EmptyString else String c EmptyString
      | r => String c r
      end
  end.

(** [s.trim()] *)
Definition trim (s : string) : string := trimEnd (trimStart s).

(** Truthiness of a string: only the empty string is falsy. *)
Definition truthy (s : string) : bool :=
  match s with EmptyString => false | _ => true end.

(** [a || b] on strings. *)
Definition or_else (a b : string) : string := if truthy a then a else b.

(** [parts.join(sep)] *)
Fixpoint join (sep : string) (parts : list string) : string :=
  match parts with
  | [] => ""
  | [p] => p
  | p :: rest => p ++ sep ++ join sep rest
  end.

(** [s.split(c)] for a one-character separator. *)
Fixpoint split (c : ascii) (s : string) : list string :=
  match s with
  | EmptyString => [EmptyString]
  | String a s' =>
      if Ascii.eqb a c then EmptyString :: split c s'
      else match split c s' with
           | [] => [String a EmptyString]
           | p :: ps => String a p :: ps
           end
  end.

(** [s.replace(/c/g, r)] for a one-character pattern. *)
Fixpoint replaceAllChar (c : ascii) (r : string) (s : string) : string :=
  match s with
  | EmptyString => EmptyString
  | String a s' =>
      if Ascii.eqb a c then r ++ replaceAllChar c r s'
      else String a (replaceAllChar c r s')
  end.

(** The character of a decimal digit. *)
Definition digit (d : Z) : ascii := ascii_of_nat (48 + Z.to_nat d).

(** Decimal digits of a non-negative integer, most significant first;
    [fuel] bounds the number of digits. *)
Fixpoint digits_fuel (fuel : nat) (n : Z) (acc : string) : string :=
  match fuel with
  | O => acc
  | S f =>
      let acc' := String (digit (n mod 10)) acc in
      if (n / 10 =? 0)%Z then acc' else digits_fuel f (n / 10) acc'
  end.

(** [n.toString()] for a non-negative integer: it has no more decimal
    digits than binary ones. *)
Definition natToString (n : Z) : string :=
  digits_fuel (S (Z.to_nat (Z.log2 n))) n "".

(** [`${z}`] for an integer. *)
Definition numToString (z : Z) : string :=
  if (z <? 0)%Z then "-" ++ natToString (- z) else natToString z.

Fixpoint repeatChar (c : ascii) (n : nat) : string :=
  match n with
  | O => EmptyString
  | S k => String c (repeatChar c k)
  end.

(** [s.padStart(width, c)] for a one-character filler. *)
Definition padStart (width : nat) (c : ascii) (s : string) : string :=
  repeatChar c (width - String.length s) ++ s.

(** Lexicographic comparison of strings by character code, the order of
    [<] on JavaScript strings and of [Array.prototype.sort]. *)
Fixpoint ltb (a b : string) : bool :=
  match a, b with
  | _, EmptyString => false
  | EmptyString, String _ _ => true
  | String x a', String y b' =>
      if (nat_of_ascii x <? nat_of_ascii y)%nat then true
      else if (nat_of_ascii y <? nat_of_ascii x)%nat then false
      else ltb a' b'
  end.

End JsString.

(** ** Node's [path.posix] *)

Module PosixPath.
Import JsString.

Definition slash : ascii := "/"%char.
Definition dot : ascii := "."%char.

(** Modelled from Node's [normalizeString]: the segments between slashes
    are pushed on a stack; empty segments and [.] are skipped; [..] pops
    the last segment unless the stack is empty or ends in [..], in which
    case it is kept (relative paths) or dropped (absolute paths). The stack
    is kept in reverse. *)
Fixpoint normalizeSegments (allowAboveRoot : bool) (segs : list string)
         (res : list string) : list string :=
  match segs with
  | [] => res
  | seg :: rest =>
      if String.eqb seg "" || String.eqb seg "." then
        normalizeSegments allowAboveRoot rest res
      else if String.eqb seg ".." then
        match res with
        | top :: res' =>
            if String.eqb top ".." then
              normalizeSegments allowAboveRoot rest
                (if allowAboveRoot then ".." :: res else res)
            else normalizeSegments allowAboveRoot rest res'
        | [] =>
            normalizeSegments allowAboveRoot rest
              (if allowAboveRoot then [".."] else [])
        end
      else normalizeSegments allowAboveRoot rest (seg :: res)
  end.

Definition endsWithSlash (p : string) : bool :=
  match rev (list_ascii_of_string p) with
  | c :: _ => Ascii.eqb c slash
  | [] => false
  end.

(** [path.posix.normalize(p)] *)
Definition normalize (p : string) : string :=
  match p with
  | EmptyString => "."
  | String c _ =>
      let isAbsolute := Ascii.eqb c slash in
      let trailingSeparator := endsWithSlash p in
      let body :=
        join "/" (rev (normalizeSegments (negb isAbsolute) (split slash p) [])) in
      match body with
      | EmptyString =>
          if isAbsolute then "/"
          else if trailingSeparator then "./" else "."
      | _ =>
          let body' := if trailingSeparator then body ++ "/" else body in
          if isAbsolute then "/" ++ body' else body'
      end
  end.

(** The last non-empty segment of a path, if any: trailing slashes are
    ignored, as [basename] and [extname] do. *)
Definition lastSegment (p : string) : string :=
  match filter (fun s => truthy s = true) (rev (split slash p)) with
  | s :: _ => s
  | [] => ""
  end.

(** [path.posix.basename(p)] (no suffix argument). *)
Definition basename (p : string) : string := lastSegment p.

(** Index-free reading of Node's [extname] scan over one path segment,
    given in reverse: [ext] collects the characters after the last dot;
    the result is empty when there is no dot, when the last dot is the
    first character of the segment, or when the segment is [..]. *)
Fixpoint splitAtLastDot (revseg : list ascii) (ext : list ascii)
  : option (list ascii * list ascii) :=
  match revseg with
  | [] => None
  | c :: before =>
      if Ascii.eqb c dot then Some (before, dot :: ext)
      else splitAtLastDot before (c :: ext)
  end.

(** [path.posix.extname(p)] *)
Definition extname (p : string) : string :=
  let seg := lastSegment p in
  match splitAtLastDot (rev (list_ascii_of_string seg)) [] with
  | None => ""
  | Some (before, ext) =>
      match before with
      | [] => ""
      | _ => if String.eqb seg ".." then "" else string_of_list_ascii ext
      end
  end.

End PosixPath.

(** ** ConfigManager *)

Module ConfigManager.
Import JsString.

Record ClusterInfo : Type := mkClusterInfo {
  host : string;
  port : Z;
  username : string;
  clusterUsername : string;
  scratchBase : string;
  scratchDir : string;
  jobsDir : string;
  venvsDir : string
}.

Definition SCRATCH_BASE : string := "/scratch.hpc".

(** [username.split('@')[0]] when the user name has an [@]. *)
Definition clusterUsernameOf (user : string) : string :=
  if includes user "@" then
    match split "@"%char user with
    | u :: _ => u
    | [] => user
    end
  else user.

(** [getClusterInfo()], from the three settings it reads. *)
Definition getClusterInfo (clusterHost : string) (sshPort : Z) (user : string)
  : ClusterInfo :=
  let cu := clusterUsernameOf user in
  {| host := clusterHost;
     port := sshPort;
     username := user;
     clusterUsername := cu;
     scratchBase := SCRATCH_BASE;
     scratchDir := SCRATCH_BASE ++ "/" ++ cu;
     jobsDir := SCRATCH_BASE ++ "/" ++ cu ++ "/hpc_jobs";
     venvsDir := SCRATCH_BASE ++ "/" ++ cu ++ "/python_venvs" |}.

End ConfigManager.

(** ** SafetyManager *)

Module SafetyManager.
Import JsString ConfigManager.

(** [validatePath(remotePath)]: [Ok true] or a thrown security error. *)
Definition validatePath (clusterInfo : ClusterInfo) (remotePath : string)
  : outcome bool :=
  let normalizedPath := PosixPath.normalize remotePath in
  if negb (startsWith normalizedPath (scratchDir clusterInfo)) then
    Throw ("SECURITY: Path outside scratch directory: " ++ remotePath
           ++ " (must be in " ++ scratchDir clusterInfo ++ ")")
  else if includes remotePath ".." then
    Throw ("SECURITY: Path traversal not allowed: " ++ remotePath)
  else if String.eqb normalizedPath "/"
          || String.eqb normalizedPath (scratchBase clusterInfo) then
    Throw ("SECURITY: Cannot access base directories: " ++ remotePath)
  else Ok true.

(** [validateDelete(remotePath)] *)
Definition validateDelete (clusterInfo : ClusterInfo) (remotePath : string)
  : outcome bool :=
  obind (validatePath clusterInfo remotePath) (fun _ =>
    if negb (startsWith remotePath (jobsDir clusterInfo ++ "/")) then
      Throw ("SECURITY: Can only delete inside " ++ jobsDir clusterInfo)
    else if String.eqb remotePath (jobsDir clusterInfo) then
      Throw "SECURITY: Cannot delete jobs directory itself"
    else Ok true).

(** [getSafeJobPath(jobId)] *)
Definition getSafeJobPath (clusterInfo : ClusterInfo) (jobId : string)
  : outcome string :=
  if includes jobId ".." || includes jobId "/" then
    Throw ("SECURITY: Invalid job ID: " ++ jobId)
  else
    let jobPath := jobsDir clusterInfo ++ "/" ++ jobId in
    obind (validatePath clusterInfo jobPath) (fun _ => Ok jobPath).

(** [getSafeVenvPath(venvName)] *)
Definition getSafeVenvPath (clusterInfo : ClusterInfo) (venvName : string)
  : outcome string :=
  if includes venvName ".." || includes venvName "/" then
    Throw ("SECURITY: Invalid venv name: " ++ venvName)
  else
    let venvPath := venvsDir clusterInfo ++ "/" ++ venvName in
    obind (validatePath clusterInfo venvPath) (fun _ => Ok venvPath).

End SafetyManager.

(** ** Job configuration *)

(** The double quote character as a string. *)
Definition dq : string := String "034"%char EmptyString.

(** The object [jobConfig] that travels from the dialogs to the script
    builder. A property that may be [undefined] is an [option]. *)
Record JobConfig : Type := mkJobConfig {
  id : string;
  name : string;
  fileName : string;
  submitted : string;
  inputFiles : list string;
  partition : string;
  gpus : Z;
  cpus : Z;
  memory : string;
  time : string;
  pythonEnv : option string;
  optimizationLevel : option string;
  extraFlags : option string;
  includeFlags : option string;
  compileCommand : option string;
  executeCommand : option string;
  cmakeConfigureCommand : option string;
  cmakeBuildCommand : option string
}.

(** [o || d] where [o] may be [undefined]. *)
Definition opt_or (o : option string) (d : string) : string :=
  match o with
  | Some s => JsString.or_else s d
  | None => d
  end.

(** [`${o}`] where [o] may be [undefined]. *)
Definition optToString (o : option string) : string :=
  match o with
  | Some s => s
  | None => "undefined"
  end.

(** ** Execution recipes *)

Module Executors.
Import JsString ConfigManager.

Inductive Executor : Type :=
| PythonExecutor
| CppExecutor
| CudaExecutor
| CMakeExecutor.

(** [ExecutorFactory.createExecutor(filePath, jobConfig, clusterInfo)];
    the recipe keeps [jobConfig] and [clusterInfo], passed again below. *)
Definition createExecutor (filePath : string) : outcome Executor :=
  let fileName := PosixPath.basename filePath in
  let fileExt := PosixPath.extname filePath in
  if String.eqb fileName "CMakeLists.txt" then Ok CMakeExecutor
  else if String.eqb fileExt ".py" || String.eqb fileExt ".ipynb" then Ok PythonExecutor
  else if String.eqb fileExt ".c" || String.eqb fileExt ".cpp" then Ok CppExecutor
  else if String.eqb fileExt ".cu" then Ok CudaExecutor
  else Throw ("Unsupported file type: " ++ fileExt).

(** [fileName.replace(/\.[^.]+$/, '.out')]: the text from the last dot on
    is replaced when at least one character follows that dot. *)
Definition replaceExtension (fileName : string) : string :=
  match PosixPath.splitAtLastDot (rev (list_ascii_of_string fileName)) [] with
  | Some (before, _ :: _ :: _) => string_of_list_ascii (rev before) ++ ".out"
  | _ => fileName
  end.

(** [fileName.replace(/\.cu$/, '.out')] *)
Definition replaceCuSuffix (fileName : string) : string :=
  match rev (list_ascii_of_string fileName) with
  | "u"%char :: "c"%char :: "."%char :: before =>
      string_of_list_ascii (rev before) ++ ".out"
  | _ => fileName
  end.

Definition cudaEnvironment (comment : string) : string :=
  join (String "010"%char "")
    [ comment;
      "module load cuda";
      "echo " ++ dq ++ "CUDA Version: $(nvcc --version | grep release)" ++ dq;
      "echo " ++ dq ++ "GPU Info:" ++ dq;
      "nvidia-smi --query-gpu=name,driver_version,memory.total --format=csv,noheader" ].

(** [executor.buildExecutionCommand(jobDir, fileName)] *)
Definition buildExecutionCommand (e : Executor) (jobConfig : JobConfig)
           (jobDir fileName : string) : string :=
  let nl := String "010"%char "" in
  match e with
  | PythonExecutor =>
      if String.eqb (PosixPath.extname fileName) ".ipynb" then
        "jupyter nbconvert --to notebook --execute --inplace " ++ fileName
        ++ " --ExecutePreprocessor.timeout=-1"
      else "python " ++ fileName
  | CppExecutor =>
      let fileExt := PosixPath.extname fileName in
      let executable := replaceExtension fileName in
      let compiler := if String.eqb fileExt ".c" then "gcc" else "g++" in
      let optimization := opt_or (optimizationLevel jobConfig) "-O3" in
      let extra := opt_or (extraFlags jobConfig) "" in
      let include := opt_or (includeFlags jobConfig) "" in
      let compileCmd :=
        compiler ++ " " ++ fileName ++ " -o " ++ executable ++ " "
        ++ optimization ++ " -march=native " ++ extra ++ " " ++ include in
      let executeCmd := "./" ++ executable in
      compileCmd ++ nl ++ executeCmd
  | CudaExecutor =>
      let executable := replaceCuSuffix fileName in
      let compileCmd :=
        opt_or (compileCommand jobConfig)
               ("nvcc " ++ fileName ++ " -o " ++ executable ++ " -O3 -arch=sm_75") in
      let executeCmd := opt_or (executeCommand jobConfig) ("./" ++ executable) in
      compileCmd ++ nl ++ executeCmd
  | CMakeExecutor =>
      let configureCmd :=
        opt_or (cmakeConfigureCommand jobConfig)
               "cmake -S . -B build -DCMAKE_BUILD_TYPE=Release" in
      let buildCmd :=
        opt_or (cmakeBuildCommand jobConfig)
               "cmake --build build -j $SLURM_CPUS_PER_TASK" in
      let executeCmd := opt_or (executeCommand jobConfig) "./build/main" in
      join nl [ "# CMake configuration"; configureCmd; "";
                "# Build"; buildCmd; "";
                "# Execute"; executeCmd ]
  end.

(** [executor.getEnvironmentSetup()] *)
Definition getEnvironmentSetup (e : Executor) (jobConfig : JobConfig)
           (clusterInfo : ClusterInfo) : string :=
  match e with
  | PythonExecutor =>
      "source " ++ venvsDir clusterInfo ++ "/" ++ optToString (pythonEnv jobConfig)
      ++ "/bin/activate"
  | CppExecutor => "# No Python environment needed for C/C++"
  | CudaExecutor => cudaEnvironment "# Load CUDA module"
  | CMakeExecutor =>
      if (gpus jobConfig >? 0)%Z then
        cudaEnvironment "# Load CUDA module for CMake CUDA support"
      else "# CMake project (no CUDA)"
  end.

Definition isEmptyCommand (o : option string) : bool :=
  match o with
  | Some s => String.eqb s ""
  | None => false
  end.

(** [executor.validate()] *)
Definition validate (e : Executor) (jobConfig : JobConfig) : outcome unit :=
  match e with
  | PythonExecutor =>
      match pythonEnv jobConfig with
      | Some s => if truthy s then Ok tt else Throw "Python environment not specified"
      | None => Throw "Python environment not specified"
      end
  | CppExecutor =>
      match optimizationLevel jobConfig with
      | Some o =>
          if existsb (String.eqb o) ["-O0"; "-O1"; "-O2"; "-O3"] then Ok tt
          else Throw ("Invalid optimization level: " ++ o)
      | None => Throw "Invalid optimization level: undefined"
      end
  | CudaExecutor =>
      if isEmptyCommand (compileCommand jobConfig) then
        Throw "Compilation command cannot be empty"
      else if isEmptyCommand (executeCommand jobConfig) then
        Throw "Execution command cannot be empty"
      else if (gpus jobConfig <=? 0)%Z then
        Throw "CUDA execution requires at least 1 GPU"
      else Ok tt
  | CMakeExecutor =>
      if isEmptyCommand (cmakeConfigureCommand jobConfig) then
        Throw "CMake configure command cannot be empty"
      else if isEmptyCommand (cmakeBuildCommand jobConfig) then
        Throw "CMake build command cannot be empty"
      else if isEmptyCommand (executeCommand jobConfig) then
        Throw "Execution command cannot be empty"
      else Ok tt
  end.

End Executors.

(** ** ScriptBuilder *)

Module ScriptBuilder.
Import JsString ConfigManager Executors.

Definition nl : string := String "010"%char "".
Definition bs : string := String "092"%char "".
Definition echo (text : string) : string := "echo " ++ dq ++ text ++ dq.
Definition banner : string := echo "==========================================".

(** The array [lines] of [_buildHeader] just before it is joined. *)
Definition headerLines (jobConfig : JobConfig) (jobDir : string) : list string :=
  [ "#!/bin/bash";
    "#SBATCH --job-name=" ++ name jobConfig;
    "#SBATCH --output=" ++ jobDir ++ "/slurm-%j.out";
    "#SBATCH --error=" ++ jobDir ++ "/slurm-%j.err";
    "#SBATCH --partition=" ++ partition jobConfig;
    "#SBATCH --nodes=1";
    "#SBATCH --ntasks=1";
    "#SBATCH --cpus-per-task=" ++ numToString (cpus jobConfig) ]
  ++ (if (gpus jobConfig >? 0)%Z
      then [ "#SBATCH --gres=gpu:" ++ numToString (gpus jobConfig) ]
      else [])
  ++ [ "#SBATCH --mem=" ++ memory jobConfig;
       "#SBATCH --time=" ++ time jobConfig;
       "";
       banner;
       echo "Job ID: $SLURM_JOB_ID";
       echo ("Job Name: " ++ name jobConfig);
       echo "Running on: $(hostname)";
       echo "Starting at: $(date +%s)";
       banner ].

Definition _buildHeader (jobConfig : JobConfig) (jobDir : string) : string :=
  join nl (headerLines jobConfig jobDir).

Definition _buildEnvironment (envSetup jobDir : string) : string :=
  join nl
    [ "# Environment setup";
      "export OMP_NUM_THREADS=$SLURM_CPUS_PER_TASK";
      echo "OMP_NUM_THREADS: $OMP_NUM_THREADS";
      "";
      envSetup;
      "cd " ++ jobDir ].

(** The array [lines] of [_buildExecution] just before it is joined. *)
Definition executionLines (jobConfig : JobConfig) (jobDir executionCommand : string)
  : list string :=
  [ "# Execution";
    "START_TIME=$(date +%s)";
    "";
    echo ("Executing: " ++ fileName jobConfig);
    "";
    "# Capture stdout and stderr separately";
    "(" ++ executionCommand ++ ") > execution_log.txt 2> execution_errors.txt";
    "";
    "EXIT_CODE=$?";
    "END_TIME=$(date +%s)";
    "DURATION=$((END_TIME - START_TIME))" ].

Definition _buildExecution (jobConfig : JobConfig) (jobDir executionCommand : string)
  : string :=
  join nl (executionLines jobConfig jobDir executionCommand).

Definition _buildStatusCapture (jobConfig : JobConfig) (jobDir : string) : string :=
  let inputNames := map PosixPath.basename (inputFiles jobConfig) in
  let inputFilesList := join ", " (map (fun f => dq ++ f ++ dq) inputNames) in
  join nl
    [ "# Capture metadata";
      "OUTPUT_FILES=$(ls -1 " ++ jobDir ++ " 2>/dev/null | grep -v -e " ++ dq
      ++ "job.sbatch" ++ dq ++ " -e " ++ dq ++ "slurm-" ++ dq ++ " -e " ++ dq
      ++ "status.json" ++ dq ++ " -e " ++ dq ++ "execution_" ++ dq ++ " -e " ++ dq
      ++ fileName jobConfig ++ dq ++ " $(for f in " ++ join " " inputNames
      ++ "; do echo " ++ dq ++ "-e " ++ bs ++ dq ++ "$f" ++ bs ++ dq ++ dq
      ++ "; done) || echo " ++ dq ++ dq ++ ")";
      "";
      "if [ $EXIT_CODE -eq 0 ]; then";
      "    JOB_STATUS=" ++ dq ++ "COMPLETED" ++ dq;
      "else";
      "    JOB_STATUS=" ++ dq ++ "FAILED" ++ dq;
      "fi";
      "";
      "HOSTNAME=$(hostname)";
      "";
      "# Format timestamps";
      "if date --version >/dev/null 2>&1; then";
      "    START_ISO=$(date -d @$START_TIME -Iseconds)";
      "    END_ISO=$(date -d @$END_TIME -Iseconds)";
      "else";
      "    START_ISO=$(date -u -r $START_TIME +" ++ dq ++ "%Y-%m-%dT%H:%M:%S+00:00" ++ dq ++ ")";
      "    END_ISO=$(date -u -r $END_TIME +" ++ dq ++ "%Y-%m-%dT%H:%M:%S+00:00" ++ dq ++ ")";
      "fi";
      "";
      "# Format output files as JSON array (without jq)";
      "OUTPUT_JSON=" ++ dq ++ "[" ++ dq;
      "FIRST=true";
      "while IFS= read -r file; do";
      "    if [ -n " ++ dq ++ "$file" ++ dq ++ " ]; then";
      "        if [ " ++ dq ++ "$FIRST" ++ dq ++ " = true ]; then";
      "            OUTPUT_JSON=" ++ dq ++ "${OUTPUT_JSON}" ++ bs ++ dq ++ "${file}"
      ++ bs ++ dq ++ dq;
      "            FIRST=false";
      "        else";
      "            OUTPUT_JSON=" ++ dq ++ "${OUTPUT_JSON}, " ++ bs ++ dq ++ "${file}"
      ++ bs ++ dq ++ dq;
      "        fi";
      "    fi";
      "done <<< " ++ dq ++ "$OUTPUT_FILES" ++ dq;
      "OUTPUT_JSON=" ++ dq ++ "${OUTPUT_JSON}]" ++ dq;
      "";
      "# Write status.json";
      "cat > " ++ jobDir ++ "/status.json << EOFSTATUS";
      "{";
      "  " ++ dq ++ "jobId" ++ dq ++ ": " ++ dq ++ id jobConfig ++ dq ++ ",";
      "  " ++ dq ++ "slurmId" ++ dq ++ ": " ++ dq ++ "$SLURM_JOB_ID" ++ dq ++ ",";
      "  " ++ dq ++ "status" ++ dq ++ ": " ++ dq ++ "$JOB_STATUS" ++ dq ++ ",";
      "  " ++ dq ++ "submitted" ++ dq ++ ": " ++ dq ++ submitted jobConfig ++ dq ++ ",";
      "  " ++ dq ++ "started" ++ dq ++ ": " ++ dq ++ "$START_ISO" ++ dq ++ ",";
      "  " ++ dq ++ "completed" ++ dq ++ ": " ++ dq ++ "$END_ISO" ++ dq ++ ",";
      "  " ++ dq ++ "duration" ++ dq ++ ": $DURATION,";
      "  " ++ dq ++ "exitCode" ++ dq ++ ": $EXIT_CODE,";
      "  " ++ dq ++ "resources" ++ dq ++ ": {";
      "    " ++ dq ++ "partition" ++ dq ++ ": " ++ dq ++ partition jobConfig ++ dq ++ ",";
      "    " ++ dq ++ "gpus" ++ dq ++ ": " ++ numToString (gpus jobConfig) ++ ",";
      "    " ++ dq ++ "cpus" ++ dq ++ ": " ++ numToString (cpus jobConfig) ++ ",";
      "    " ++ dq ++ "memory" ++ dq ++ ": " ++ dq ++ memory jobConfig ++ dq ++ ",";
      "    " ++ dq ++ "timeLimit" ++ dq ++ ": " ++ dq ++ time jobConfig ++ dq;
      "  },";
      "  " ++ dq ++ "files" ++ dq ++ ": {";
      "    " ++ dq ++ "script" ++ dq ++ ": " ++ dq ++ fileName jobConfig ++ dq ++ ",";
      "    " ++ dq ++ "inputs" ++ dq ++ ": [" ++ inputFilesList ++ "],";
      "    " ++ dq ++ "outputs" ++ dq ++ ": $OUTPUT_JSON";
      "  },";
      "  " ++ dq ++ "pythonEnv" ++ dq ++ ": " ++ dq ++ opt_or (pythonEnv jobConfig) "N/A"
      ++ dq ++ ",";
      "  " ++ dq ++ "node" ++ dq ++ ": " ++ dq ++ "$HOSTNAME" ++ dq ++ ",";
      "  " ++ dq ++ "errors" ++ dq ++ ": []";
      "}";
      "EOFSTATUS" ].

Definition _buildFooter : string :=
  join nl
    [ "# Final status";
      "if [ $EXIT_CODE -eq 0 ]; then";
      "    " ++ echo "Job completed successfully";
      "else";
      "    " ++ echo "Job failed with exit code $EXIT_CODE";
      "fi";
      "";
      banner;
      echo "Finished at: $(date)";
      echo "Duration: $DURATION seconds";
      banner;
      "";
      echo "Output files: execution_log.txt, execution_errors.txt" ].

(** The five sections of [buildScript] once recipe and validation passed. *)
Definition scriptSections (e : Executor) (jobConfig : JobConfig)
           (clusterInfo : ClusterInfo) : list string :=
  let jobDir := jobsDir clusterInfo ++ "/" ++ id jobConfig in
  let executionCommand := buildExecutionCommand e jobConfig jobDir (fileName jobConfig) in
  let envSetup := getEnvironmentSetup e jobConfig clusterInfo in
  [ _buildHeader jobConfig jobDir;
    _buildEnvironment envSetup jobDir;
    _buildExecution jobConfig jobDir executionCommand;
    _buildStatusCapture jobConfig jobDir;
    _buildFooter ].

(** [buildScript(jobConfig, clusterInfo)] *)
Definition buildScript (jobConfig : JobConfig) (clusterInfo : ClusterInfo)
  : outcome string :=
  obind (createExecutor (fileName jobConfig)) (fun executor =>
  obind (validate executor jobConfig) (fun _ =>
  Ok (join (nl ++ nl) (scriptSections executor jobConfig clusterInfo)))).

End ScriptBuilder.

(** ** ConnectionManager: connection acquisition *)

Module ConnectionManager.
Import JsString.

(** The constructor's constants. *)
Definition maxRetries : nat := 3.
Definition baseRetryDelay : Z := 2000.

(** What an acquisition does that can be observed from outside: handshakes
    ([establishConnection]) and pauses ([sleep]) between them. The pause
    records the delay before jitter, [baseRetryDelay * 2 ^ attempt]. *)
Inductive Event : Type :=
| Handshake (attempt : nat)
| Backoff (attempt : nat) (delay : Z).

Definition isHandshake (e : Event) : bool :=
  match e with Handshake _ => true | Backoff _ _ => false end.

(** [isAuthenticationError(error)], on the error's message. *)
Definition isAuthenticationError (message : string) : bool :=
  existsb (fun msg => truthy message && includes message msg)
    [ "All configured authentication methods failed";
      "NO_SSH_KEY";
      "Authentication failed";
      "Permission denied" ].

(** The light bulb sign of the suggestions header, in UTF-8. *)
Definition bulb : string :=
  String "240"%char (String "159"%char (String "146"%char (String "161"%char ""))).

Fixpoint numbered (i : nat) (suggestions : list string) : list string :=
  match suggestions with
  | [] => []
  | s :: rest => (natToString (Z.of_nat (i + 1)) ++ ". " ++ s) :: numbered (S i) rest
  end.

(** [enrichError(error)]: the message of the error that is thrown in the
    end. [None] is the [null] that [lastError] starts with; [clusterHost]
    and [sshPort] are the two settings printed in the suggestions. *)
Definition enrichError (clusterHost sshPort : string) (error : option string)
  : string :=
  match error with
  | None => "Unknown connection error"
  | Some message =>
      let nl := String "010"%char "" in
      let suggestions :=
        if truthy message && includes message "NO_SSH_KEY" then
          [ "Create SSH key: ssh-keygen -t ed25519 -f ~/.ssh/id_ed25519";
            "Copy key to server: ssh-copy-id user@host" ]
        else if truthy message && includes message "SSH_TIMEOUT" then
          [ "Check network connection";
            "Verify VPN is connected (if required)";
            "Check firewall settings" ]
        else if truthy message && includes message "ECONNREFUSED" then
          [ "Verify host address: " ++ clusterHost;
            "Verify SSH port: " ++ sshPort;
            "Check if SSH service is running on cluster" ]
        else if truthy message && includes message "ENOTFOUND" then
          [ "Check host name spelling";
            "Verify DNS resolution" ]
        else [] in
      let enrichedMessage := or_else message "Connection failed" in
      match suggestions with
      | [] => enrichedMessage
      | _ => enrichedMessage ++ nl ++ nl ++ bulb ++ " Suggestions:" ++ nl
             ++ join nl (numbered 0 suggestions)
      end
  end.

Section Acquisition.
(** The live session object. *)
Context {Conn : Type}.

(** The manager's fields, and the events of the acquisition so far. *)
Record State : Type := mkState {
  connection : option Conn;
  isConnecting : bool;
  connectionAttempts : nat;
  events : list Event
}.

(** The outcome of the handshake of each attempt of one acquisition:
    the session, or the message of the error it rejects with. *)
Variable establishConnection : nat -> outcome Conn.
Variables clusterHost sshPort : string.

(** The [for] loop of [connectWithRetry], from iteration [attempt] on,
    with [remaining = maxRetries - attempt] iterations to go. *)
Fixpoint retryLoop (remaining attempt : nat) (st : State)
         (lastError : option string) : State * outcome Conn :=
  match remaining with
  | O =>
      ({| connection := connection st; isConnecting := false;
          connectionAttempts := connectionAttempts st;
          events := events st |},
       Throw (enrichError clusterHost sshPort lastError))
  | S remaining' =>
      let log := (events st ++ [Handshake attempt])%list in
      match establishConnection attempt with
      | Ok conn =>
          ({| connection := Some conn; isConnecting := false;
              connectionAttempts := 0; events := log |},
           Ok conn)
      | Throw message =>
          if isAuthenticationError message then
            ({| connection := connection st; isConnecting := false;
                connectionAttempts := attempt + 1; events := log |},
             Throw (enrichError clusterHost sshPort (Some message)))
          else
            let log' :=
              if (attempt <? maxRetries - 1)%nat
              then (log ++ [Backoff attempt (baseRetryDelay * 2 ^ Z.of_nat attempt)])%list
              else log in
            retryLoop remaining' (attempt + 1)
              {| connection := connection st; isConnecting := true;
                 connectionAttempts := attempt + 1; events := log' |}
              (Some message)
      end
  end.

(** [connectWithRetry()] *)
Definition connectWithRetry (st : State) : State * outcome Conn :=
  retryLoop maxRetries 0
    {| connection := connection st; isConnecting := true;
       connectionAttempts := connectionAttempts st; events := events st |}
    None.

(** Number of handshakes an acquisition adds to the log. *)
Definition handshakesOf (before after : State) : nat :=
  length (List.filter isHandshake (events after))
  - length (List.filter isHandshake (events before)).

End Acquisition.

(** The wrappers that run an operation on the connection and run it again
    when it fails. *)
Module Retrying.

(** What a wrapper does that can be observed: the attempts, each with the
    message of its error if it threw, and the pauses between them. *)
Inductive Step : Type :=
| Try (attempt : nat) (error : option string)
| Sleep (ms : Z).

(** [value || fallback] for an optional number: absent and zero are
    falsy. *)
Definition orDefault (value : option Z) (fallback : Z) : Z :=
  match value with
  | Some n => if (n =? 0)%Z then fallback else n
  | None => fallback
  end.

(** The test on the message of the error in [executeCommand]. *)
Definition connectionLost (message : string) : bool :=
  includes message "Connection" || includes message "ETIMEDOUT".

Section Wrappers.
Context {Conn Result : Type}.

(** One attempt: [getConnection()] and then the operation on the session;
    it may change the fields of the manager. *)
Variable runAttempt : nat -> @State Conn -> @State Conn * outcome Result.

(** [this.connection = null] *)
Definition forget (st : @State Conn) : @State Conn :=
  {| connection := None; isConnecting := isConnecting st;
     connectionAttempts := connectionAttempts st; events := events st |}.

(** The [for] loop of [executeCommand], from iteration [attempt] on;
    [None] is the [undefined] of a loop that ends without [return]. *)
Fixpoint commandLoop (remaining attempt : nat) (maxRetries : Z)
         (st : @State Conn) (log : list Step)
  : @State Conn * list Step * outcome (option Result) :=
  match remaining with
  | O => (st, log, Ok None)
  | S remaining' =>
      match runAttempt attempt st with
      | (st1, Ok result) =>
          (st1, (log ++ [Try attempt None])%list, Ok (Some result))
      | (st1, Throw message) =>
          let st2 := if connectionLost message then forget st1 else st1 in
          let log1 := (log ++ [Try attempt (Some message)])%list in
          if (Z.of_nat attempt =? maxRetries - 1)%Z then (st2, log1, Throw message)
          else commandLoop remaining' (attempt + 1) maxRetries st2
                           (log1 ++ [Sleep 1000])%list
      end
  end.

(** [executeCommand(command, options)]; [maxRetriesOption] is
    [options.maxRetries]. *)
Definition executeCommand (maxRetriesOption : option Z) (st : @State Conn)
  : @State Conn * list Step * outcome (option Result) :=
  let maxRetries := orDefault maxRetriesOption 2 in
  commandLoop (Z.to_nat maxRetries) 0 maxRetries st [].

(** The [for] loop of [uploadFile] and of [downloadFile], which are the
    same but for the operation; both return [undefined]. *)
Fixpoint transferLoop (remaining attempt : nat) (maxRetries : Z)
         (st : @State Conn) (log : list Step)
  : @State Conn * list Step * outcome unit :=
  match remaining with
  | O => (st, log, Ok tt)
  | S remaining' =>
      match runAttempt attempt st with
      | (st1, Ok _) => (st1, (log ++ [Try attempt None])%list, Ok tt)
      | (st1, Throw message) =>
          let log1 := (log ++ [Try attempt (Some message)])%list in
          if (Z.of_nat attempt =? maxRetries - 1)%Z then (st1, log1, Throw message)
          else transferLoop remaining' (attempt + 1) maxRetries (forget st1)
                            (log1 ++ [Sleep 1000])%list
      end
  end.

(** [uploadFile(localPath, remotePath, options)] *)
Definition uploadFile (maxRetriesOption : option Z) (st : @State Conn)
  : @State Conn * list Step * outcome unit :=
  let maxRetries := orDefault maxRetriesOption 2 in
  transferLoop (Z.to_nat maxRetries) 0 maxRetries st [].

(** [downloadFile(remotePath, localPath, options)] *)
Definition downloadFile (maxRetriesOption : option Z) (st : @State Conn)
  : @State Conn * list Step * outcome unit :=
  let maxRetries := orDefault maxRetriesOption 2 in
  transferLoop (Z.to_nat maxRetries) 0 maxRetries st [].

End Wrappers.

End Retrying.

End ConnectionManager.

(** ** JavaScript dates *)

(** Modelled from the ECMAScript specification of [Date]: a time value is a
    number of milliseconds since the epoch, broken down in UTC by the
    specification's [Day], [YearFromTime], [MonthFromTime], [DateFromTime],
    [HourFromTime], ... . *)
Module JsDate.
Import JsString.
Local Open Scope Z_scope.

Definition msPerDay : Z := 86400000.

Definition Day (t : Z) : Z := t / msPerDay.
Definition TimeWithinDay (t : Z) : Z := t mod msPerDay.

Definition DayFromYear (y : Z) : Z :=
  365 * (y - 1970) + (y - 1969) / 4 - (y - 1901) / 100 + (y - 1601) / 400.

Definition InLeapYear (y : Z) : Z :=
  if (y mod 4 =? 0) && (negb (y mod 100 =? 0) || (y mod 400 =? 0)) then 1 else 0.

(** The largest year [y] with [DayFromYear y <= day]: the estimate from the
    mean year length is off by at most one. *)
Definition YearFromDay (day : Z) : Z :=
  let c := 1970 + (day * 400) / 146097 in
  if DayFromYear (c + 1) <=? day then c + 1
  else if DayFromYear c <=? day then c
  else c - 1.

Definition YearFromTime (t : Z) : Z := YearFromDay (Day t).

Definition DayWithinYear (t : Z) : Z := Day t - DayFromYear (YearFromTime t).

(** [MonthFromTime], from the day within the year [d] and the leap day
    count [l]; months are numbered from 0. *)
Definition MonthFromDay (d l : Z) : Z :=
  if d <? 31 then 0
  else if d <? 59 + l then 1
  else if d <? 90 + l then 2
  else if d <? 120 + l then 3
  else if d <? 151 + l then 4
  else if d <? 181 + l then 5
  else if d <? 212 + l then 6
  else if d <? 243 + l then 7
  else if d <? 273 + l then 8
  else if d <? 304 + l then 9
  else if d <? 334 + l then 10
  else 11.

(** [DateFromTime]: the day of the month, from 1. *)
Definition DateFromDay (d l : Z) : Z :=
  match MonthFromDay d l with
  | 0 => d + 1
  | 1 => d - 30
  | 2 => d - 58 - l
  | 3 => d - 89 - l
  | 4 => d - 119 - l
  | 5 => d - 150 - l
  | 6 => d - 180 - l
  | 7 => d - 211 - l
  | 8 => d - 242 - l
  | 9 => d - 272 - l
  | 10 => d - 303 - l
  | _ => d - 333 - l
  end.

Definition MonthFromTime (t : Z) : Z :=
  MonthFromDay (DayWithinYear t) (InLeapYear (YearFromTime t)).
Definition DateFromTime (t : Z) : Z :=
  DateFromDay (DayWithinYear t) (InLeapYear (YearFromTime t)).
Definition HourFromTime (t : Z) : Z := (t / 3600000) mod 24.
Definition MinFromTime (t : Z) : Z := (t / 60000) mod 60.
Definition SecFromTime (t : Z) : Z := (t / 1000) mod 60.
Definition msFromTime (t : Z) : Z := t mod 1000.

(** A non-negative number in decimal, padded with zeros to [width]. *)
Definition padded (width : nat) (n : Z) : string :=
  padStart width "0"%char (natToString n).

(** The year of [toISOString]: four digits from 0 to 9999, and a sign with
    six digits outside. *)
Definition isoYear (y : Z) : string :=
  if (0 <=? y) && (y <=? 9999) then padded 4 y
  else if y <? 0 then "-" ++ padded 6 (- y)
  else "+" ++ padded 6 y.

(** [date.toISOString()] *)
Definition toISOString (t : Z) : string :=
  (isoYear (YearFromTime t) ++ "-" ++ padded 2 (MonthFromTime t + 1) ++ "-"
   ++ padded 2 (DateFromTime t) ++ "T" ++ padded 2 (HourFromTime t) ++ ":"
   ++ padded 2 (MinFromTime t) ++ ":" ++ padded 2 (SecFromTime t) ++ "."
   ++ padded 3 (msFromTime t) ++ "Z")%string.

(** [date.getMilliseconds()]: local time differs from UTC by whole
    seconds, so the milliseconds are those of UTC. *)
Definition getMilliseconds (t : Z) : Z := msFromTime t.

End JsDate.

(** ** JSON values and objects *)

#[local] Set Warnings "-register-all".
Inductive JSON : Type :=
| JNull
| JBool (b : bool)
| JNum (n : Z)
| JStr (s : string)
| JArr (items : list JSON)
| JObj (fields : list (string * JSON)).

(** A job record of the ledger: a JavaScript object, as its properties in
    insertion order. *)
Definition Job : Type := list (string * JSON).

Module JsObject.
Import JsString.

(** [o.key]; [None] is [undefined]. *)
Fixpoint getField (key : string) (o : list (string * JSON)) : option JSON :=
  match o with
  | [] => None
  | (k, v) :: rest => if String.eqb k key then Some v else getField key rest
  end.

(** [o.key = v]: an existing property keeps its place. *)
Fixpoint setField (key : string) (v : JSON) (o : list (string * JSON))
  : list (string * JSON) :=
  match o with
  | [] => [(key, v)]
  | (k, w) :: rest =>
      if String.eqb k key then (k, v) :: rest
      else (k, w) :: setField key v rest
  end.

(** Truthiness of a property value. *)
Definition truthyValue (v : option JSON) : bool :=
  match v with
  | None | Some JNull => false
  | Some (JBool b) => b
  | Some (JNum n) => negb (n =? 0)%Z
  | Some (JStr s) => truthy s
  | Some (JArr _) | Some (JObj _) => true
  end.

(** [v === s] for a string [s]. *)
Definition isString (v : option JSON) (s : string) : bool :=
  match v with
  | Some (JStr x) => String.eqb x s
  | _ => false
  end.

(** The string a value turns into inside a template literal. *)
Fixpoint valueToString (v : JSON) : string :=
  match v with
  | JNull => "null"
  | JBool true => "true"
  | JBool false => "false"
  | JNum n => numToString n
  | JStr s => s
  | JArr items =>
      join "," (map (fun x => match x with
                              | JNull => ""
                              | _ => valueToString x
                              end) items)
  | JObj _ => "[object Object]"
  end.

Definition toTemplate (v : option JSON) : string :=
  match v with
  | Some x => valueToString x
  | None => "undefined"
  end.

Definition optField (key : string) (o : option string) : list (string * JSON) :=
  match o with
  | Some s => [(key, JStr s)]
  | None => []
  end.

(** The object [jobConfig] as a value, for the [config] property of a job
    record; an [undefined] property is left out. *)
Definition ofJobConfig (c : JobConfig) : JSON :=
  JObj ([ ("name", JStr (name c));
          ("partition", JStr (partition c));
          ("gpus", JNum (gpus c));
          ("cpus", JNum (cpus c));
          ("memory", JStr (memory c));
          ("time", JStr (time c)) ]
        ++ optField "pythonEnv" (pythonEnv c)
        ++ optField "optimizationLevel" (optimizationLevel c)
        ++ optField "extraFlags" (extraFlags c)
        ++ optField "includeFlags" (includeFlags c)
        ++ optField "compileCommand" (compileCommand c)
        ++ optField "executeCommand" (executeCommand c)
        ++ optField "cmakeConfigureCommand" (cmakeConfigureCommand c)
        ++ optField "cmakeBuildCommand" (cmakeBuildCommand c)
        ++ [ ("id", JStr (id c));
             ("fileName", JStr (fileName c));
             ("submitted", JStr (submitted c));
             ("inputFiles", JArr (map JStr (inputFiles c))) ])%list.

End JsObject.

(** ** StorageManager: the ledger file *)

Module StorageManager.
Import JsString.

(** The fields of the storage manager. *)
Record Storage : Type := mkStorage {
  jobsFile : option string;
  storageDir : option string
}.

(** What the editor answers: the open workspace folders and the folder
    picked in the dialog ([None]: the dialog was dismissed). *)
Record Host : Type := mkHost {
  workspaceFolders : list string;
  showOpenDialog : option string;
  tmpdir : string
}.

(** The local files, by path; directories are not tracked. *)
Abbreviation Files := (gmap string string).

(** [path.join(...)] *)
Definition pathJoin (parts : list string) : string :=
  match filter (fun s => truthy s = true) parts with
  | [] => "."
  | ps => PosixPath.normalize (join "/" ps)
  end.

Section Ledger.
(** [JSON.parse] on a ledger file, an array of job objects ([None]: it
    throws), and [JSON.stringify(jobs, null, 2)]. *)
Variable parseLedger : string -> option (list Job).
Variable stringifyLedger : list Job -> string.

(** [initialize()] *)
Definition initialize (host : Host) (sm : Storage) (files : Files)
  : Storage * Files * outcome (option string) :=
  match jobsFile sm with
  | Some _ => (sm, files, Ok (storageDir sm))
  | None =>
      let chosen :=
        match workspaceFolders host with
        | workspaceRoot :: _ =>
            Ok (pathJoin [workspaceRoot; ".vscode"; ".hpc-connector"])
        | [] =>
            match showOpenDialog host with
            | Some folder => Ok (pathJoin [folder; ".hpc-connector"])
            | None =>
                Throw "No storage location selected. Please open a workspace or select a folder."
            end
        end in
      match chosen with
      | Throw e => (sm, files, Throw e)
      | Ok dir =>
          let file := pathJoin [dir; "jobs.json"] in
          let files' :=
            match files !! file with
            | Some _ => files
            | None => <[file := stringifyLedger []]> files
            end in
          ({| jobsFile := Some file; storageDir := Some dir |}, files', Ok (Some dir))
      end
  end.

(** [loadJobs()] *)
Definition loadJobs (sm : Storage) (files : Files) : outcome (list Job) :=
  match jobsFile sm with
  | None => Throw "Storage not initialized"
  | Some file =>
      match files !! file with
      | None => Ok []
      | Some content =>
          match parseLedger content with
          | Some jobs => Ok jobs
          | None => Ok []
          end
      end
  end.

(** [saveJobs(jobs)] *)
Definition saveJobs (sm : Storage) (files : Files) (jobs : list Job)
  : Files * outcome unit :=
  match jobsFile sm with
  | None => (files, Throw "Storage not initialized")
  | Some file => (<[file := stringifyLedger jobs]> files, Ok tt)
  end.

(** [getStorageDir()] *)
Definition getStorageDir (sm : Storage) : outcome string :=
  match storageDir sm with
  | Some dir =>
      if truthy dir then Ok dir
      else Throw "Storage not initialized. Call initialize() first."
  | None => Throw "Storage not initialized. Call initialize() first."
  end.

(** [getResultsDir(jobId)] *)
Definition getResultsDir (sm : Storage) (jobId : string) : outcome string :=
  obind (getStorageDir sm) (fun dir => Ok (pathJoin [dir; "results"; jobId])).

(** [j.id === jobId] *)
Definition hasId (jobId : string) (job : Job) : bool :=
  JsObject.isString (JsObject.getField "id" job) jobId.

(** [jobs.findIndex(j => j.id === jobId)]; [None] is [-1]. *)
Fixpoint findIndex (jobId : string) (jobs : list Job) : option nat :=
  match jobs with
  | [] => None
  | job :: rest =>
      if hasId jobId job then Some O
      else match findIndex jobId rest with
           | Some i => Some (S i)
           | None => None
           end
  end.

(** The spread [{ ...job, ...updates }]: the properties of [updates] are
    assigned one after the other to a copy of [job]. *)
Definition spread (job updates : Job) : Job :=
  fold_left (fun o kv => JsObject.setField (fst kv) (snd kv) o) updates job.

(** [getJob(jobId)]; [None] is [undefined]. *)
Definition getJob (sm : Storage) (files : Files) (jobId : string)
  : outcome (option Job) :=
  obind (loadJobs sm files) (fun jobs => Ok (List.find (hasId jobId) jobs)).

(** [updateJob(jobId, updates)] *)
Definition updateJob (sm : Storage) (files : Files) (jobId : string)
           (updates : Job) : Files * outcome Job :=
  match loadJobs sm files with
  | Throw e => (files, Throw e)
  | Ok jobs =>
      match findIndex jobId jobs with
      | None => (files, Throw ("Job " ++ jobId ++ " not found"))
      | Some index =>
          match jobs !! index with
          | None => (files, Throw ("Job " ++ jobId ++ " not found"))
          | Some job =>
              let updated := spread job updates in
              let (files', saved) := saveJobs sm files (<[index := updated]> jobs) in
              (files', obind saved (fun _ => Ok updated))
          end
      end
  end.

(** [deleteJob(jobId)] *)
Definition deleteJob (sm : Storage) (files : Files) (jobId : string)
  : Files * outcome unit :=
  match loadJobs sm files with
  | Throw e => (files, Throw e)
  | Ok jobs =>
      saveJobs sm files (List.filter (fun j => negb (hasId jobId j)) jobs)
  end.

End Ledger.

End StorageManager.

(** ** ClusterManager: the job orchestrator *)

Module ClusterManager.
Import JsString JsObject ConfigManager StorageManager.

(** [generateJobId()], from the time value of [new Date()]. The first
    replacement, of [T] by [T], changes nothing. [dropFromFirstDot] is
    [.replace(/\..+/, '')]: the first dot that has a character other than a
    line terminator after it goes, with all that follows up to the next line
    terminator. *)
Definition isLineTerminator (c : ascii) : bool :=
  Ascii.eqb c "010"%char || Ascii.eqb c "013"%char.

Fixpoint dropToLineEnd (s : string) : string :=
  match s with
  | EmptyString => EmptyString
  | String c s' => if isLineTerminator c then s else dropToLineEnd s'
  end.

Fixpoint dropFromFirstDot (s : string) : string :=
  match s with
  | EmptyString => EmptyString
  | String c s' =>
      match s' with
      | String c' _ =>
          if Ascii.eqb c "."%char && negb (isLineTerminator c')
          then dropToLineEnd s'
          else String c (dropFromFirstDot s')
      | EmptyString => s
      end
  end.

Definition generateJobId (now : Z) : string :=
  let timestamp :=
    replaceAllChar ":"%char "-" (dropFromFirstDot (JsDate.toISOString now)) in
  let ms := padStart 3 "0"%char (numToString (JsDate.getMilliseconds now)) in
  timestamp ++ "-" ++ ms.

(** The capture of [stdout.match(/Submitted batch job (\d+)/)]. *)
Definition isDigit (c : ascii) : bool :=
  let n := nat_of_ascii c in (48 <=? n)%nat && (n <=? 57)%nat.

Fixpoint takeDigits (s : string) : string :=
  match s with
  | String c s' => if isDigit c then String c (takeDigits s') else EmptyString
  | EmptyString => EmptyString
  end.

Fixpoint dropPrefix (p s : string) : option string :=
  match p, s with
  | EmptyString, _ => Some s
  | String a p', String b s' => if Ascii.eqb a b then dropPrefix p' s' else None
  | String _ _, EmptyString => None
  end.

Fixpoint matchSubmitted (stdout : string) : option string :=
  let here :=
    match dropPrefix "Submitted batch job " stdout with
    | Some rest => match takeDigits rest with
                   | EmptyString => None
                   | digits => Some digits
                   end
    | None => None
    end in
  match here with
  | Some digits => Some digits
  | None => match stdout with
            | String _ s' => matchSubmitted s'
            | EmptyString => None
            end
  end.

(** [jobConfig] after the assignments at the start of [submitJob]. *)
Definition stamped (jobConfig : JobConfig) (jobId file submittedAt : string)
           (inputs : list string) : JobConfig :=
  {| id := jobId; name := name jobConfig; fileName := file;
     submitted := submittedAt; inputFiles := inputs;
     partition := partition jobConfig; gpus := gpus jobConfig;
     cpus := cpus jobConfig; memory := memory jobConfig; time := time jobConfig;
     pythonEnv := pythonEnv jobConfig;
     optimizationLevel := optimizationLevel jobConfig;
     extraFlags := extraFlags jobConfig; includeFlags := includeFlags jobConfig;
     compileCommand := compileCommand jobConfig;
     executeCommand := executeCommand jobConfig;
     cmakeConfigureCommand := cmakeConfigureCommand jobConfig;
     cmakeBuildCommand := cmakeBuildCommand jobConfig |}.

(** A call on the remote side, as the connection layer receives it. *)
Inductive Call : Type :=
| Exec (command : string)
| Upload (localPath remotePath : string).

Section Orchestrator.
(** The cluster behind the connection layer. [executeCommand] and
    [uploadFile] of the connection manager answer with the standard output
    of the command, or throw once their own retries are used up. *)
Context {Remote : Type}.
Variable remoteExec : string -> Remote -> Remote * outcome string.
Variable remoteUpload : string -> string -> Remote -> Remote * outcome unit.
(** [JSON.parse] ([None]: it throws) and the ledger's serialisation. *)
Variable JSON_parse : string -> option JSON.
Variable parseLedger : string -> option (list Job).
Variable stringifyLedger : list Job -> string.
(** The editor and the settings. *)
Variable host : Host.
Variable clusterInfo : ClusterInfo.

(** Everything a call of the orchestrator can change. Two logs are kept
    besides: the remote calls issued so far, oldest first, each with whether
    it returned ([true]) or threw, and the ledgers handed to [saveJobs]. *)
Record World : Type := mkWorld {
  remote : Remote;
  storage : Storage;
  files : Files;
  calls : list (Call * bool);
  saves : list (list Job)
}.

(** A computation that reads and changes the world and may throw; what it
    changed before throwing stays changed. *)
Definition M (A : Type) : Type := World -> World * outcome A.

Definition ret {A : Type} (a : A) : M A := fun w => (w, Ok a).
Definition throw {A : Type} (message : string) : M A := fun w => (w, Throw message).
Definition bind {A B : Type} (m : M A) (k : A -> M B) : M B :=
  fun w => match m w with
           | (w', Ok a) => k a w'
           | (w', Throw e) => (w', Throw e)
           end.
Definition tryCatch {A : Type} (m : M A) (handler : string -> M A) : M A :=
  fun w => match m w with
           | (w', Ok a) => (w', Ok a)
           | (w', Throw e) => handler e w'
           end.
Definition lift {A : Type} (o : outcome A) : M A := fun w => (w, o).

Notation "x <- m ;; k" := (bind m (fun x => k))
  (at level 100, m at next level, right associativity).

(** [executeCommand(command)], returning [stdout]. *)
Definition executeCommand (command : string) : M string :=
  fun w =>
    let (r, o) := remoteExec command (remote w) in
    ({| remote := r; storage := storage w; files := files w;
        calls := (calls w ++ [(Exec command, is_ok o)])%list;
        saves := saves w |}, o).

(** [uploadFile(localPath, remotePath)] *)
Definition uploadFile (localPath remotePath : string) : M unit :=
  fun w =>
    let (r, o) := remoteUpload localPath remotePath (remote w) in
    ({| remote := r; storage := storage w; files := files w;
        calls := (calls w ++ [(Upload localPath remotePath, is_ok o)])%list;
        saves := saves w |}, o).

(** [ensureStorage()] *)
Definition ensureStorage : M unit :=
  fun w =>
    match initialize stringifyLedger host (storage w) (files w) with
    | (sm, fs, o) =>
        ({| remote := remote w; storage := sm; files := fs; calls := calls w;
            saves := saves w |},
         obind o (fun _ => Ok tt))
    end.

Definition loadJobs : M (list Job) :=
  fun w => (w, StorageManager.loadJobs parseLedger (storage w) (files w)).

Definition saveJobs (jobs : list Job) : M unit :=
  fun w =>
    let (fs, o) := StorageManager.saveJobs stringifyLedger (storage w) (files w) jobs in
    ({| remote := remote w; storage := storage w; files := fs; calls := calls w;
        saves := if is_ok o then (saves w ++ [jobs])%list else saves w |}, o).

(** [fs.writeFileSync(path, content)] and [fs.unlinkSync(path)] on the
    temporary script. *)
Definition writeFileSync (path content : string) : M unit :=
  fun w => ({| remote := remote w; storage := storage w;
               files := <[path := content]> (files w); calls := calls w;
               saves := saves w |}, Ok tt).
Definition unlinkSync (path : string) : M unit :=
  fun w => ({| remote := remote w; storage := storage w;
               files := delete path (files w); calls := calls w;
               saves := saves w |}, Ok tt).

(** The [for] loop over the input files of [submitJob]. *)
Fixpoint uploadInputs (remoteJobDir : string) (inputs : list string) : M unit :=
  match inputs with
  | [] => ret tt
  | inputFile :: rest =>
      _ <- uploadFile inputFile (remoteJobDir ++ "/" ++ PosixPath.basename inputFile) ;;
      uploadInputs remoteJobDir rest
  end.

(** The record that [submitJob] pushes on the ledger. *)
Definition newRecord (jobId : string) (slurmId : option string)
           (filePath : string) (inputs : option (list string))
           (remoteJobDir : string) (config : JobConfig) : Job :=
  [ ("id", JStr jobId);
    ("slurmId", match slurmId with Some s => JStr s | None => JNull end);
    ("name", JStr (name config));
    ("fileName", JStr (fileName config));
    ("filePath", JStr filePath);
    ("inputFiles", match inputs with
                   | Some l => JArr (map JStr l)
                   | None => JNull
                   end);
    ("remoteDir", JStr remoteJobDir);
    ("submitted", JStr (submitted config));
    ("status", JStr "PENDING");
    ("config", ofJobConfig config) ].

(** [submitJob(filePath, inputFiles, jobConfig)]; [now] and [submittedAt]
    are the two readings of the clock, for the job id and for the
    submission date. *)
Definition submitJob (filePath : string) (inputs : option (list string))
           (jobConfig : JobConfig) (now submittedAt : Z)
  : M (string * option string) :=
  _ <- ensureStorage ;;
  let file := PosixPath.basename filePath in
  let jobId := generateJobId now in
  let config :=
    stamped jobConfig jobId file (JsDate.toISOString submittedAt)
            (default [] inputs) in
  let remoteJobDir := jobsDir clusterInfo ++ "/" ++ jobId in
  _ <- executeCommand ("mkdir -p " ++ remoteJobDir) ;;
  _ <- uploadFile filePath (remoteJobDir ++ "/" ++ file) ;;
  _ <- uploadInputs remoteJobDir (default [] inputs) ;;
  slurmScript <- lift (ScriptBuilder.buildScript config clusterInfo) ;;
  let localScriptPath := pathJoin [tmpdir host; "job_" ++ jobId ++ ".sbatch"] in
  _ <- writeFileSync localScriptPath slurmScript ;;
  _ <- uploadFile localScriptPath (remoteJobDir ++ "/job.sbatch") ;;
  _ <- unlinkSync localScriptPath ;;
  stdout <- executeCommand ("cd " ++ remoteJobDir ++ " && sbatch job.sbatch") ;;
  let slurmId := matchSubmitted stdout in
  jobs <- loadJobs ;;
  _ <- saveJobs (jobs ++ [newRecord jobId slurmId filePath inputs remoteJobDir config])%list ;;
  ret (jobId, slurmId).

(** The test on [statusData.status] in [getJobStatus]. [None] is a thrown
    [TypeError]: [statusData] is [null], or the status is a truthy value
    without an [includes] method. *)
Definition statusOf (statusData : JSON) : option (option JSON) :=
  match statusData with
  | JNull => None
  | JObj fields => Some (getField "status" fields)
  | _ => Some None
  end.

Definition isLiteral (status : JSON) : option bool :=
  match status with
  | JStr s => Some (negb (includes s "$") && negb (includes s "["))
  | JArr items =>
      Some (negb (existsb (fun x => isString (Some x) "$") items)
            && negb (existsb (fun x => isString (Some x) "[") items))
  | _ => None
  end.

Definition setStatus (status : string) (job : Job) : Job :=
  setField "status" (JStr status) job.

(** The two commands of a poll: the queue listing and the metadata file. *)
Definition squeueCommand (job : Job) : string :=
  "squeue -j " ++ toTemplate (getField "slurmId" job) ++ " -o '%T' -h".
Definition catCommand (job : Job) : string :=
  "cat " ++ toTemplate (getField "remoteDir" job) ++ "/status.json 2>/dev/null".

(** The inner [try] block: the job left the queue, read [status.json]. *)
Definition readStatusFile (job : Job) : M Job :=
  stdout <- executeCommand (catCommand job) ;;
  if truthy stdout && truthy (trim stdout) then
    match JSON_parse stdout with
    | None => throw "Unexpected token in JSON"
    | Some statusData =>
        match statusOf statusData with
        | None => throw "Cannot read properties of null (reading 'status')"
        | Some status =>
            if truthyValue status then
              match status with
              | Some v =>
                  match isLiteral v with
                  | Some true =>
                      ret (setField "statusData" statusData (setField "status" v job))
                  | Some false => ret (setStatus "COMPLETED" job)
                  | None => throw "statusData.status.includes is not a function"
                  end
              | None => ret (setStatus "COMPLETED" job)
              end
            else ret (setStatus "COMPLETED" job)
        end
    end
  else ret (setStatus "UNKNOWN" job).

(** Whether the loop of [getJobStatus] looks at a job at all. *)
Definition isPolled (job : Job) : bool :=
  truthyValue (getField "slurmId" job)
  && negb (isString (getField "status" job) "COMPLETED")
  && negb (isString (getField "status" job) "FAILED").

(** The body of the loop of [getJobStatus] for one job. *)
Definition pollJob (job : Job) : M Job :=
  if isPolled job then
    tryCatch
      (stdout <- executeCommand (squeueCommand job) ;;
       if truthy (trim stdout) then ret (setStatus (trim stdout) job)
       else tryCatch (readStatusFile job)
                     (fun _ => ret (setStatus "UNKNOWN" job)))
      (fun _ => ret (setStatus "UNKNOWN" job))
  else ret job.

Fixpoint pollJobs (jobs : list Job) : M (list Job) :=
  match jobs with
  | [] => ret []
  | job :: rest =>
      job' <- pollJob job ;;
      rest' <- pollJobs rest ;;
      ret (job' :: rest')
  end.

Definition isActive (job : Job) : bool :=
  negb (isString (getField "status" job) "COMPLETED")
  && negb (isString (getField "status" job) "FAILED").

(** [getJobStatus()] *)
Definition getJobStatus : M (list Job) :=
  _ <- ensureStorage ;;
  jobs <- loadJobs ;;
  jobs' <- pollJobs jobs ;;
  _ <- saveJobs jobs' ;;
  ret (List.filter isActive jobs').

(** [jobs.find(j => j.id === jobId)] *)
Definition findJob (jobId : string) (jobs : list Job) : option Job :=
  List.find (fun j => isString (getField "id" j) jobId) jobs.

(** [cleanRemoteJob(jobId)] *)
Definition cleanRemoteJob (jobId : string) : M unit :=
  _ <- ensureStorage ;;
  jobs <- loadJobs ;;
  match findJob jobId jobs with
  | None => throw ("Job " ++ jobId ++ " not found")
  | Some job =>
      _ <- executeCommand ("rm -rf " ++ toTemplate (getField "remoteDir" job)) ;;
      ret tt
  end.

(** [getCompletedJobs()] *)
Definition getCompletedJobs : M (list Job) :=
  _ <- ensureStorage ;;
  _ <- getJobStatus ;;
  jobs <- loadJobs ;;
  ret (List.filter (fun j => isString (getField "status" j) "COMPLETED") jobs).

(** The command that reads the end of the scheduler's log. *)
Definition logsCommand (job : Job) : string :=
  "tail -n 50 " ++ toTemplate (getField "remoteDir" job)
  ++ "/slurm-*.out 2>/dev/null || echo " ++ dq ++ dq.

(** The first [try] block of [getJobDetails]: attach the metadata file. *)
Definition loadStatusData (job : Job) : M Job :=
  tryCatch
    (stdout <- executeCommand (catCommand job) ;;
     if truthy stdout && truthy (trim stdout) then
       match JSON_parse stdout with
       | Some statusData => ret (setField "statusData" statusData job)
       | None => throw "Unexpected token in JSON"
       end
     else ret job)
    (fun _ => ret job).

(** The second [try] block of [getJobDetails]: attach the log. *)
Definition loadLogs (job : Job) : M Job :=
  tryCatch
    (stdout <- executeCommand (logsCommand job) ;;
     if truthy (trim stdout) then ret (setField "logs" (JStr stdout) job)
     else ret (setField "logs" (JStr "No SLURM logs available.") job))
    (fun _ => ret (setField "logs" (JStr "Unable to fetch logs") job)).

(** [getJobDetails(jobId)] *)
Definition getJobDetails (jobId : string) : M Job :=
  _ <- ensureStorage ;;
  jobs <- loadJobs ;;
  match findJob jobId jobs with
  | None => throw ("Job " ++ jobId ++ " not found")
  | Some job =>
      job1 <- loadStatusData job ;;
      loadLogs job1
  end.

End Orchestrator.

(** *** Downloading a directory

    What a promise has come to: resolved, rejected, or left pending for
    ever, which is what happens to a promise whose [resolve] and [reject]
    are both out of reach. *)
Inductive Settled (A : Type) : Type :=
| Resolved (a : A)
| Rejected (message : string)
| Pending.
Arguments Resolved {A} a.
Arguments Rejected {A} message.
Arguments Pending {A}.

(** The answers of the server along the walk of a remote directory: an
    entry of a listing is a file, with the error of its [fastGet] if it
    fails, or a directory ([item.attrs.isDirectory()]), with the answer of
    its [readdir]: the entries, or the error. *)
Inductive Entry : Type :=
| RemoteFile (name : string) (transfer : option string)
| RemoteDir (name : string) (listing : outcome (list Entry)).

(** [item.filename] *)
Definition filename (item : Entry) : string :=
  match item with
  | RemoteFile name _ => name
  | RemoteDir name _ => name
  end.

(** The requests sent over the SFTP session, each with whether it went
    through. *)
Inductive Request : Type :=
| Readdir (remotePath : string)
| FastGet (remoteFile localFile : string).

(** The body of the loop of [_downloadDirRecursive] for one entry, once
    [remoteFile] and [localFile] are joined: the promise that is awaited.
    For a directory this is the call of [_downloadDirRecursive] on it: its
    promise is rejected when [readdir] fails, resolved at the end of the
    loop, and left pending when an awaited promise of the loop does not
    resolve, since that ends the callback before [resolve]. *)
Fixpoint transferEntry (remoteFile localFile : string) (item : Entry)
         (log : list (Request * bool)) {struct item}
  : list (Request * bool) * Settled unit :=
  match item with
  | RemoteFile _ transfer =>
      match transfer with
      | None => ((log ++ [(FastGet remoteFile localFile, true)])%list, Resolved tt)
      | Some e => ((log ++ [(FastGet remoteFile localFile, false)])%list, Rejected e)
      end
  | RemoteDir _ listing =>
      match listing with
      | Throw e => ((log ++ [(Readdir remoteFile, false)])%list, Rejected e)
      | Ok items =>
          (fix loop (items : list Entry) (log : list (Request * bool))
             : list (Request * bool) * Settled unit :=
             match items with
             | [] => (log, Resolved tt)
             | item :: rest =>
                 match transferEntry (pathJoin [remoteFile; filename item])
                                     (pathJoin [localFile; filename item])
                                     item log with
                 | (log', Resolved _) => loop rest log'
                 | (log', _) => (log', Pending)
                 end
             end) items (log ++ [(Readdir remoteFile, true)])%list
      end
  end.

(** [_downloadDirRecursive(sftp, remotePath, localPath)] on a directory
    whose [readdir] answers [listing]. The local directories that it makes
    are not tracked. *)
Definition _downloadDirRecursive (remotePath localPath : string)
           (listing : outcome (list Entry)) (log : list (Request * bool))
  : list (Request * bool) * Settled unit :=
  transferEntry remotePath localPath
                (RemoteDir (PosixPath.basename remotePath) listing) log.

(** The server as [downloadDirectory] meets it: the outcome of
    [this.connect()], the outcome of [conn.sftp], and the answers below
    the remote directory. *)
Record Server : Type := mkServer {
  connected : outcome unit;
  sftpOpened : outcome unit;
  tree : outcome (list Entry)
}.

(** [downloadDirectory(remotePath, localPath)] *)
Definition downloadDirectory (remotePath localPath : string) (server : Server)
  : list (Request * bool) * Settled unit :=
  match connected server with
  | Throw e => ([], Rejected e)
  | Ok _ =>
      match sftpOpened server with
      | Throw e => ([], Rejected e)
      | Ok _ =>
          match _downloadDirRecursive remotePath localPath (tree server) [] with
          | (log, Resolved _) => (log, Resolved tt)
          | (log, Rejected e) => (log, Rejected e)
          | (log, Pending) => (log, Pending)
          end
      end
  end.

End ClusterManager.

(** * Notions used in the statements *)

Module Notions.
Import JsString JsObject ConfigManager StorageManager.

(** A GPU directive is an entry of the header that starts with the
    [--gres] option of [#SBATCH]. *)
Definition isGpuDirective (line : string) : bool :=
  startsWith line "#SBATCH --gres".

Definition gpuDirectives (jobConfig : JobConfig) (jobDir : string) : list string :=
  List.filter isGpuDirective (ScriptBuilder.headerLines jobConfig jobDir).

(** Handshakes in a log of the connection manager. *)
Definition countHandshakes (log : list ConnectionManager.Event) : nat :=
  length (List.filter ConnectionManager.isHandshake log).

(** An attempt whose handshake fails, but not on authentication. *)
Definition failsWithoutAuth {Conn : Type} (establishConnection : nat -> outcome Conn)
           (attempt : nat) : Prop :=
  exists message, establishConnection attempt = Throw message
                  /\ ConnectionManager.isAuthenticationError message = false.

(** A record is terminal or has no scheduler id. *)
Definition isSettled (job : Job) : Prop :=
  getField "status" job = Some (JStr "COMPLETED")
  \/ getField "status" job = Some (JStr "FAILED")
  \/ getField "slurmId" job = Some JNull
  \/ getField "slurmId" job = None.

(** The query of a job fails: the queue listing throws, or it is empty and
    the metadata file cannot be read or parsed. *)
Definition queryFails {Remote : Type}
           (remoteExec : string -> Remote -> Remote * outcome string)
           (JSON_parse : string -> option JSON)
           (job : Job) (w : @ClusterManager.World Remote) : Prop :=
  let queue := remoteExec (ClusterManager.squeueCommand job) (ClusterManager.remote w) in
  let file := remoteExec (ClusterManager.catCommand job) (fst queue) in
  (exists e, snd queue = Throw e)
  \/ (exists stdout,
        snd queue = Ok stdout /\ trim stdout = ""
        /\ ((exists e, snd file = Throw e)
            \/ (exists content,
                  snd file = Ok content /\ trim content <> ""
                  /\ JSON_parse content = None))).

(** The remote calls of a submission that goes through. *)
Definition submissionCalls (filePath : string) (inputs : list string)
           (remoteJobDir localScriptPath : string)
  : list (ClusterManager.Call * bool) :=
  ([ (ClusterManager.Exec ("mkdir -p " ++ remoteJobDir), true);
     (ClusterManager.Upload filePath
        (remoteJobDir ++ "/" ++ PosixPath.basename filePath), true) ]
   ++ map (fun f => (ClusterManager.Upload f
                       (remoteJobDir ++ "/" ++ PosixPath.basename f), true)) inputs
   ++ [ (ClusterManager.Upload localScriptPath (remoteJobDir ++ "/job.sbatch"), true);
        (ClusterManager.Exec ("cd " ++ remoteJobDir ++ " && sbatch job.sbatch"), true) ])%list.

(** A step that did not go through: a remote call that threw. *)
Definition someCallFailed (added : list (ClusterManager.Call * bool)) : Prop :=
  exists c, In (c, false) added.

(** The broken-down time, most significant field first, and the
    lexicographic order on such lists. *)
Definition dateFields (t : Z) : list Z :=
  [ JsDate.YearFromTime t; (JsDate.MonthFromTime t + 1)%Z; JsDate.DateFromTime t;
    JsDate.HourFromTime t; JsDate.MinFromTime t; JsDate.SecFromTime t;
    JsDate.msFromTime t ].

Fixpoint lexLt (a b : list Z) : Prop :=
  match a, b with
  | x :: a', y :: b' => (x < y)%Z \/ (x = y /\ lexLt a' b')
  | _, _ => False
  end.

(** The first millisecond of year 0000 and the last one of year 9999. *)
Definition minTime : Z := -62167219200000.
Definition maxTime : Z := 253402300799999.

(** The integers from [start], [count] of them. *)
Fixpoint zrange (count : nat) (start : Z) : list Z :=
  match count with
  | O => []
  | S k => start :: zrange k (start + 1)
  end.

(** Fixed-width decimal numbers, digit by digit. *)
Definition d2 (n : Z) : string :=
  String (digit (n / 10)) (String (digit (n mod 10)) "").
Definition d3 (n : Z) : string :=
  String (digit (n / 100)) (d2 (n mod 100)).
Definition d4 (n : Z) : string :=
  String (digit (n / 1000)) (d3 (n mod 1000)).

(** The identifier of a broken-down time. *)
Definition formatId (f : list Z) : string :=
  match f with
  | [y; mo; d; h; mi; s; ms] =>
      d4 y ++ String "-" (d2 mo ++ String "-" (d2 d ++ String "T"
        (d2 h ++ String "-" (d2 mi ++ String "-" (d2 s ++ String "-" (d3 ms))))))
  | _ => ""
  end.

(** Two job records that differ in their status and in their snapshot at
    most. *)
Definition sameButStatus (job job' : Job) : Prop :=
  forall key, key <> "status" -> key <> "statusData" ->
              getField key job' = getField key job.

(** A command of a poll: the queue listing or the metadata file of [job]. *)
Definition isPollCommand (job : Job) (call : ClusterManager.Call * bool) : Prop :=
  fst call = ClusterManager.Exec (ClusterManager.squeueCommand job)
  \/ fst call = ClusterManager.Exec (ClusterManager.catCommand job).

(** A string of decimal digits. *)
Fixpoint allDigits (s : string) : bool :=
  match s with
  | EmptyString => true
  | String c s' => ClusterManager.isDigit c && allDigits s'
  end.

(** The first character of a string is not a digit. *)
Definition noLeadingDigit (s : string) : bool :=
  match s with
  | EmptyString => true
  | String c _ => negb (ClusterManager.isDigit c)
  end.

(** What [matchSubmitted] finds at the head of the output. *)
Definition submittedHere (stdout : string) : option string :=
  match ClusterManager.dropPrefix "Submitted batch job " stdout with
  | Some rest => match ClusterManager.takeDigits rest with
                 | EmptyString => None
                 | digits => Some digits
                 end
  | None => None
  end.

(** The calls of a submission that come before the script is built: the
    remote directory is made, then the program and the input files are
    uploaded; all of them returned. *)
Definition stagingCalls (filePath : string) (inputs : list string)
           (remoteJobDir : string) : list (ClusterManager.Call * bool) :=
  ([ (ClusterManager.Exec ("mkdir -p " ++ remoteJobDir), true);
     (ClusterManager.Upload filePath
        (remoteJobDir ++ "/" ++ PosixPath.basename filePath), true) ]
   ++ map (fun f => (ClusterManager.Upload f
                       (remoteJobDir ++ "/" ++ PosixPath.basename f), true)) inputs)%list.

(** A call that makes the remote directory or uploads a file. *)
Definition isStagingCall (remoteJobDir : string)
           (call : ClusterManager.Call * bool) : Prop :=
  match fst call with
  | ClusterManager.Exec command => command = "mkdir -p " ++ remoteJobDir
  | ClusterManager.Upload _ _ => True
  end.

(** The events of an acquisition all of whose three attempts are made:
    a pause of two seconds, then one of four, both before jitter, between
    the handshakes, and none after the last one. *)
Definition fullSchedule : list ConnectionManager.Event :=
  [ ConnectionManager.Handshake 0;
    ConnectionManager.Backoff 0 2000;
    ConnectionManager.Handshake 1;
    ConnectionManager.Backoff 1 4000;
    ConnectionManager.Handshake 2 ].

(** The characters of a job identifier: digits, the dash and the [T]. *)
Definition isIdChar (c : ascii) : bool :=
  ClusterManager.isDigit c || Ascii.eqb c "-"%char || Ascii.eqb c "T"%char.

Fixpoint allIdChars (s : string) : bool :=
  match s with
  | EmptyString => true
  | String c s' => isIdChar c && allIdChars s'
  end.

(** The steps of attempts that failed and were followed by another one:
    each is a failed try and the pause of one second after it. *)
Fixpoint retriedSteps (first : nat) (messages : list string)
  : list ConnectionManager.Retrying.Step :=
  match messages with
  | [] => []
  | message :: rest =>
      ConnectionManager.Retrying.Try first (Some message)
      :: ConnectionManager.Retrying.Sleep 1000
      :: retriedSteps (S first) rest
  end.

(** Everything below an entry answers: every listing and every transfer
    goes through. *)
Fixpoint complete (item : ClusterManager.Entry) : bool :=
  match item with
  | ClusterManager.RemoteFile _ transfer =>
      match transfer with None => true | Some _ => false end
  | ClusterManager.RemoteDir _ listing =>
      match listing with
      | Ok items => forallb complete items
      | Throw _ => false
      end
  end.

(** The requests of a walk that nothing stops, in order: a directory is
    listed, then its entries are walked one after the other. *)
Fixpoint fullWalk (remoteFile localFile : string) (item : ClusterManager.Entry)
  : list ClusterManager.Request :=
  match item with
  | ClusterManager.RemoteFile _ _ => [ClusterManager.FastGet remoteFile localFile]
  | ClusterManager.RemoteDir _ listing =>
      ClusterManager.Readdir remoteFile
      :: match listing with
         | Ok items =>
             flat_map (fun item =>
                         fullWalk
                           (StorageManager.pathJoin
                              [remoteFile; ClusterManager.filename item])
                           (StorageManager.pathJoin
                              [localFile; ClusterManager.filename item])
                           item) items
         | Throw _ => []
         end
  end.

(** Requests that went through. *)
Definition answered (requests : list ClusterManager.Request)
  : list (ClusterManager.Request * bool) :=
  map (fun request => (request, true)) requests.

(** The loop of [_downloadDirRecursive] over the entries of a listing. *)
Definition transferEntries (remoteFile localFile : string)
  : list ClusterManager.Entry -> list (ClusterManager.Request * bool)
    -> list (ClusterManager.Request * bool) * ClusterManager.Settled unit :=
  fix loop (items : list ClusterManager.Entry)
      (log : list (ClusterManager.Request * bool)) :=
    match items with
    | [] => (log, ClusterManager.Resolved tt)
    | item :: rest =>
        match ClusterManager.transferEntry
                (StorageManager.pathJoin [remoteFile; ClusterManager.filename item])
                (StorageManager.pathJoin [localFile; ClusterManager.filename item])
                item log with
        | (log', ClusterManager.Resolved _) => loop rest log'
        | (log', _) => (log', ClusterManager.Pending)
        end
    end.

(** The requests of the entries of a listing when nothing stops the walk. *)
Definition walkEntries (remoteFile localFile : string)
           (items : list ClusterManager.Entry) : list ClusterManager.Request :=
  flat_map (fun item =>
              fullWalk
                (StorageManager.pathJoin [remoteFile; ClusterManager.filename item])
                (StorageManager.pathJoin [localFile; ClusterManager.filename item])
                item) items.

(** A walk that stopped: the requests before the one that failed went
    through, in the order of the full walk, and nothing was asked after
    it. *)
Definition stoppedAt (full : list ClusterManager.Request)
           (log : list (ClusterManager.Request * bool)) : Prop :=
  exists before failed after,
    full = (before ++ failed :: after)%list
    /\ log = (answered before ++ [(failed, false)])%list.

(** What the awaited promise of one entry comes to, and what was asked
    for it: everything, and the promise is resolved, when everything below
    the entry answers; otherwise the walk stopped at the first failure and
    the promise is not resolved. *)
Definition entryOutcome (item : ClusterManager.Entry) : Prop :=
  forall (remoteFile localFile : string)
         (log : list (ClusterManager.Request * bool)),
    let result := ClusterManager.transferEntry remoteFile localFile item log in
    let full := fullWalk remoteFile localFile item in
    if complete item
    then result = ((log ++ answered full)%list, ClusterManager.Resolved tt)
    else (exists added, fst result = (log ++ added)%list /\ stoppedAt full added)
         /\ snd result <> ClusterManager.Resolved tt.

End Notions.

(** A ledger with one job whose remote directory leaves the jobs root. *)
Module CleanupScenario.
Import JsObject ConfigManager StorageManager ClusterManager.

Definition clusterInfo : ClusterInfo :=
  getClusterInfo "hpc.example.org" 22 "alice@example.org".

Definition remoteDir : string := "/scratch.hpc/alice/hpc_jobs/../../bob".

Definition job : Job :=
  [ ("id", JStr "2026-01-01T00-00-00-000");
    ("slurmId", JStr "4242");
    ("remoteDir", JStr remoteDir);
    ("status", JStr "COMPLETED") ].

Definition jobsPath : string := "/ws/.vscode/.hpc-connector/jobs.json".

Definition parseLedger (content : string) : option (list Job) :=
  if String.eqb content "ledger" then Some [job] else None.

Definition stringifyLedger (jobs : list Job) : string := "ledger".

Definition host : Host :=
  {| workspaceFolders := ["/ws"]; showOpenDialog := None; tmpdir := "/tmp" |}.

(** A remote that runs every command. *)
Definition remoteExec (command : string) (r : unit) : unit * outcome string :=
  (r, Ok "").

Definition world : @World unit :=
  {| remote := tt;
     storage := {| jobsFile := Some jobsPath;
                   storageDir := Some "/ws/.vscode/.hpc-connector" |};
     files := {[ jobsPath := "ledger" ]};
     calls := [];
     saves := [] |}.

End CleanupScenario.


(** A workspace with four jobs in its ledger, and a cluster that answers
    the commands about them. *)
Module Samples.
Import JsString JsObject ConfigManager StorageManager.

Definition clusterInfo : ClusterInfo :=
  getClusterInfo "hpc.example.org" 22 "alice@example.org".

Definition nativeJob : JobConfig :=
  {| id := "2026-01-01T00-00-00-000"; name := "demo"; fileName := "main.c";
     submitted := "2026-01-01T00:00:00.000Z"; inputFiles := [];
     partition := "l40"; gpus := 0; cpus := 4; memory := "16G";
     time := "02:00:00"; pythonEnv := Some "base_env";
     optimizationLevel := Some "-O3"; extraFlags := Some "-Wall";
     includeFlags := Some ""; compileCommand := None; executeCommand := None;
     cmakeConfigureCommand := None; cmakeBuildCommand := None |}.

Definition gpuJob : JobConfig :=
  {| id := "2026-01-01T00-00-00-001"; name := "train"; fileName := "train.py";
     submitted := "2026-01-01T00:00:00.001Z"; inputFiles := [];
     partition := "l40"; gpus := 2; cpus := 8; memory := "32G";
     time := "12:00:00"; pythonEnv := Some "torch_env";
     optimizationLevel := None; extraFlags := None; includeFlags := None;
     compileCommand := None; executeCommand := None;
     cmakeConfigureCommand := None; cmakeBuildCommand := None |}.

(** Handshakes: refused, then rejected on authentication. *)
Definition handshakes (attempt : nat) : outcome nat :=
  match attempt with
  | O => Throw "connect ECONNREFUSED 10.0.0.1:22"
  | S O => Throw "All configured authentication methods failed"
  | _ => Ok 7%nat
  end.

Definition idle : @ConnectionManager.State nat :=
  {| ConnectionManager.connection := None;
     ConnectionManager.isConnecting := false;
     ConnectionManager.connectionAttempts := 0;
     ConnectionManager.events := [] |}.

Definition jobRecord (jobId slurmId status : string) : Job :=
  [ ("id", JStr jobId);
    ("slurmId", JStr slurmId);
    ("remoteDir", JStr (jobsDir clusterInfo ++ "/" ++ jobId));
    ("status", JStr status) ].

Definition jobRunning : Job := jobRecord "2026-01-01T00-00-00-001" "101" "PENDING".
Definition jobLost : Job := jobRecord "2026-01-01T00-00-00-002" "102" "RUNNING".
Definition jobFinished : Job := jobRecord "2026-01-01T00-00-00-003" "103" "RUNNING".
Definition jobSettled : Job := jobRecord "2026-01-01T00-00-00-004" "104" "COMPLETED".

Definition ledger : list Job := [jobRunning; jobLost; jobFinished; jobSettled].

Definition statusFile : string :=
  "{" ++ dq ++ "status" ++ dq ++ ": " ++ dq ++ "COMPLETED" ++ dq ++ "}".

Definition snapshot : list (string * JSON) := [("status", JStr "COMPLETED")].

Definition JSON_parse (content : string) : option JSON :=
  if String.eqb content statusFile then Some (JObj snapshot) else None.

Definition jobsPath : string := "/ws/.vscode/.hpc-connector/jobs.json".

Definition stringifyLedger (jobs : list Job) : string :=
  "ledger of " ++ natToString (Z.of_nat (length jobs)) ++ " jobs".

Definition parseLedger (content : string) : option (list Job) :=
  if String.eqb content (stringifyLedger ledger) then Some ledger else None.

Definition host : Host :=
  {| workspaceFolders := ["/ws"]; showOpenDialog := None; tmpdir := "/tmp" |}.

Definition newline : string := String "010"%char "".

(** The cluster: the first job is running, the queue lookup of the second
    one times out, the third one left the queue and wrote its metadata. *)
Definition remoteExec (command : string) (r : unit) : unit * outcome string :=
  (r,
   if String.eqb command (ClusterManager.squeueCommand jobRunning) then Ok ("RUNNING" ++ newline)
   else if String.eqb command (ClusterManager.squeueCommand jobLost)
        then Throw "Command timeout after 60000ms"
   else if String.eqb command (ClusterManager.catCommand jobFinished) then Ok statusFile
   else if includes command "sbatch job.sbatch"
        then Ok ("Submitted batch job 4243" ++ newline)
   else Ok "").

Definition remoteUpload (localPath remotePath : string) (r : unit)
  : unit * outcome unit :=
  (r, Ok tt).

(** Uploads that are refused. *)
Definition refusedUpload (localPath remotePath : string) (r : unit)
  : unit * outcome unit :=
  (r, Throw "Permission denied").

Definition initialised : Storage :=
  {| jobsFile := Some jobsPath; storageDir := Some "/ws/.vscode/.hpc-connector" |}.

Definition world : @ClusterManager.World unit :=
  {| ClusterManager.remote := tt;
     ClusterManager.storage := initialised;
     ClusterManager.files := {[ jobsPath := stringifyLedger ledger ]};
     ClusterManager.calls := [];
     ClusterManager.saves := [] |}.

(** A ledger file that is not JSON. *)
Definition corrupted : Files := {[ jobsPath := "<<<<<<< HEAD" ]}.

(** A serialisation that tells the sample ledgers apart, and the parser
    that reads back the ledgers it knows. *)
Definition printJob (job : Job) : string :=
  join "," (map (fun kv => fst kv ++ "=" ++ valueToString (snd kv)) job).

Definition printLedger (jobs : list Job) : string :=
  join ";" (map printJob jobs).

Definition readLedger (known : list (list Job)) (content : string)
  : option (list Job) :=
  List.find (fun jobs => String.eqb (printLedger jobs) content) known.

(** The ledger once the second job is deleted, once it is updated, and
    once the jobs are polled. *)
Definition updates : Job :=
  [("status", JStr "CANCELLED"); ("note", JStr "stopped by hand")].

Definition deletedLedger : list Job := [jobRunning; jobFinished; jobSettled].

Definition updatedLedger : list Job :=
  [jobRunning; spread jobLost updates; jobFinished; jobSettled].

Definition polledLedger : list Job :=
  [ ClusterManager.setStatus "RUNNING" jobRunning;
    ClusterManager.setStatus "UNKNOWN" jobLost;
    setField "statusData" (JObj snapshot)
             (setField "status" (JStr "COMPLETED") jobFinished);
    jobSettled ].

Definition knownLedgers : list (list Job) :=
  [ledger; deletedLedger; updatedLedger; polledLedger].

Definition printedFiles : Files := {[ jobsPath := printLedger ledger ]}.

Definition printedWorld : @ClusterManager.World unit :=
  {| ClusterManager.remote := tt;
     ClusterManager.storage := initialised;
     ClusterManager.files := printedFiles;
     ClusterManager.calls := [];
     ClusterManager.saves := [] |}.

(** A world whose ledger file is not JSON. *)
Definition corruptedWorld : @ClusterManager.World unit :=
  {| ClusterManager.remote := tt;
     ClusterManager.storage := initialised;
     ClusterManager.files := corrupted;
     ClusterManager.calls := [];
     ClusterManager.saves := [] |}.

(** A storage manager before [initialize]. *)
Definition fresh : Storage := {| jobsFile := None; storageDir := None |}.

(** Uploads that go through but for the generated script. *)
Definition refusedScript (localPath remotePath : string) (r : unit)
  : unit * outcome unit :=
  (r, if String.eqb (PosixPath.basename remotePath) "job.sbatch"
      then Throw "Permission denied"
      else Ok tt).

(** A CUDA job without a GPU, and one with a GPU. *)
Definition cudaJob (count : Z) : JobConfig :=
  {| id := "2026-01-01T00-00-00-002"; name := "kernel"; fileName := "kernel.cu";
     submitted := "2026-01-01T00:00:00.002Z"; inputFiles := [];
     partition := "l40"; gpus := count; cpus := 4; memory := "16G";
     time := "01:00:00"; pythonEnv := None;
     optimizationLevel := None; extraFlags := None; includeFlags := None;
     compileCommand := None; executeCommand := None;
     cmakeConfigureCommand := None; cmakeBuildCommand := None |}.

(** A CMake project that asks for a GPU. *)
Definition cmakeJob : JobConfig :=
  {| id := "2026-01-01T00-00-00-005"; name := "solver";
     fileName := "/home/alice/solver/CMakeLists.txt";
     submitted := "2026-01-01T00:00:00.005Z"; inputFiles := [];
     partition := "l40"; gpus := 1; cpus := 8; memory := "32G";
     time := "04:00:00"; pythonEnv := None;
     optimizationLevel := None; extraFlags := None; includeFlags := None;
     compileCommand := None; executeCommand := Some "./build/solver";
     cmakeConfigureCommand := None; cmakeBuildCommand := None |}.

End Samples.

(** * Properties *)


(** ** Script generation *)

Section ScriptProperties.
Import JsString Executors ScriptBuilder Notions.

Lemma gpuDirectives_eq (jobConfig : JobConfig) (jobDir : string) :
  gpuDirectives jobConfig jobDir =
  if (gpus jobConfig >? 0)%Z
  then ["#SBATCH --gres=gpu:" ++ numToString (gpus jobConfig)]
  else [].
Proof.
  unfold gpuDirectives, headerLines.
  destruct (gpus jobConfig >? 0)%Z; reflexivity.
Qed.


Lemma createExecutor_native (file : string) :
  PosixPath.extname file = ".c" \/ PosixPath.extname file = ".cpp" ->
  createExecutor file = Ok CppExecutor.
Proof.
  intros Hext. unfold createExecutor.
  destruct (String.eqb_spec (PosixPath.basename file) "CMakeLists.txt") as [Hb|_].
  - exfalso. unfold PosixPath.extname in Hext.
    unfold PosixPath.basename in Hb. rewrite Hb in Hext.
    destruct Hext as [H|H]; vm_compute in H; discriminate H.
  - destruct Hext as [-> | ->]; reflexivity.
Qed.

Lemma validate_native (jobConfig : JobConfig) (level : string) :
  optimizationLevel jobConfig = Some level ->
  In level ["-O0"; "-O1"; "-O2"; "-O3"] ->
  validate CppExecutor jobConfig = Ok tt
  /\ opt_or (optimizationLevel jobConfig) "-O3" = level.
Proof.
  intros Hl Hin. unfold validate. rewrite Hl.
  simpl in Hin.
  destruct Hin as [<- | [<- | [<- | [<- | []]]]]; split; reflexivity.
Qed.

(** C7. A C or C++ job with 4 CPUs, no GPU, 16G of memory, a two hour limit
    and a valid optimisation level: the script is built, its header has the
    three resource directives and no GPU directive, and its execution section
    runs the compile command and then the executable inside one redirection
    to [execution_log.txt] and [execution_errors.txt]. *)
Theorem native_job_script (jobConfig : JobConfig)
        (clusterInfo : ConfigManager.ClusterInfo) (level : string) :
  cpus jobConfig = 4%Z ->
  gpus jobConfig = 0%Z ->
  memory jobConfig = "16G" ->
  time jobConfig = "02:00:00" ->
  PosixPath.extname (fileName jobConfig) = ".c"
  \/ PosixPath.extname (fileName jobConfig) = ".cpp" ->
  optimizationLevel jobConfig = Some level ->
  In level ["-O0"; "-O1"; "-O2"; "-O3"] ->
  let jobDir := ConfigManager.jobsDir clusterInfo ++ "/" ++ id jobConfig in
  let file := fileName jobConfig in
  let executable := replaceExtension file in
  let compiler :=
    if String.eqb (PosixPath.extname file) ".c" then "gcc" else "g++" in
  let compileCmd :=
    compiler ++ " " ++ file ++ " -o " ++ executable ++ " " ++ level
    ++ " -march=native " ++ opt_or (extraFlags jobConfig) "" ++ " "
    ++ opt_or (includeFlags jobConfig) "" in
  let command := compileCmd ++ nl ++ "./" ++ executable in
  buildScript jobConfig clusterInfo
  = Ok (join (nl ++ nl)
          [ join nl (headerLines jobConfig jobDir);
            _buildEnvironment "# No Python environment needed for C/C++" jobDir;
            join nl (executionLines jobConfig jobDir command);
            _buildStatusCapture jobConfig jobDir;
            _buildFooter ])
  /\ In "#SBATCH --cpus-per-task=4" (headerLines jobConfig jobDir)
  /\ In "#SBATCH --mem=16G" (headerLines jobConfig jobDir)
  /\ In "#SBATCH --time=02:00:00" (headerLines jobConfig jobDir)
  /\ gpuDirectives jobConfig jobDir = []
  /\ In ("(" ++ command ++ ") > execution_log.txt 2> execution_errors.txt")
        (executionLines jobConfig jobDir command).
Proof.
  intros Hcpus Hgpus Hmem Htime Hext Hlevel Hvalid jobDir file executable compiler
         compileCmd command.
  destruct (validate_native jobConfig level Hlevel Hvalid) as [Hval Hopt].
  split; [|split; [|split; [|split; [|split]]]].
  - unfold buildScript. rewrite (createExecutor_native _ Hext). cbn [obind].
    rewrite Hval. cbn [obind]. unfold scriptSections, _buildHeader, _buildExecution.
    unfold buildExecutionCommand, getEnvironmentSetup. rewrite Hopt. reflexivity.
  - unfold headerLines. rewrite Hcpus. simpl. auto 10.
  - unfold headerLines. rewrite Hmem, Hgpus. simpl. auto 12.
  - unfold headerLines. rewrite Htime, Hgpus. simpl. auto 12.
  - rewrite gpuDirectives_eq, Hgpus. reflexivity.
  - unfold executionLines. simpl. auto 10.
Qed.

End ScriptProperties.

(** ** Connection acquisition *)

Section ConnectionProperties.
Import JsString ConnectionManager Notions.
Context {Conn : Type}.
Variable establishConnection : nat -> outcome Conn.
Variables clusterHost sshPort : string.

Local Abbreviation failsWithoutAuth := (Notions.failsWithoutAuth establishConnection).

Lemma countHandshakes_app (l1 l2 : list Event) :
  countHandshakes (l1 ++ l2) = countHandshakes l1 + countHandshakes l2.
Proof.
  unfold countHandshakes. rewrite List.filter_app, length_app. reflexivity.
Qed.

(** The loop only adds events, and at most one handshake per iteration. *)
Lemma retryLoop_events (remaining : nat) :
  forall (attempt : nat) (st : State) (lastError : option string),
  exists added : list Event,
    events (fst (retryLoop establishConnection clusterHost sshPort
                   remaining attempt st lastError))
    = (events st ++ added)%list
    /\ countHandshakes added <= remaining.
Proof.
  induction remaining as [|n IH]; intros attempt st lastError; simpl.
  - exists []. rewrite app_nil_r. split; [reflexivity | unfold countHandshakes; simpl; lia].
  - destruct (establishConnection attempt) as [conn | message].
    + exists [Handshake attempt]. split; [reflexivity | unfold countHandshakes; simpl; lia].
    + destruct (isAuthenticationError message).
      * exists [Handshake attempt]. split; [reflexivity | unfold countHandshakes; simpl; lia].
      * destruct (attempt <? 2)%nat;
          match goal with
          | |- context [retryLoop _ _ _ _ _ ?s ?e] =>
              destruct (IH (attempt + 1) s e) as (added & Hev & Hcount)
          end;
          rewrite Hev; simpl events.
        -- exists ([Handshake attempt; Backoff attempt (baseRetryDelay * 2 ^ Z.of_nat attempt)]
                   ++ added)%list.
           split.
           ++ rewrite <- !app_assoc. reflexivity.
           ++ rewrite countHandshakes_app. unfold countHandshakes in *.
              simpl. lia.
        -- exists ([Handshake attempt] ++ added)%list.
           split.
           ++ rewrite <- !app_assoc. reflexivity.
           ++ rewrite countHandshakes_app. unfold countHandshakes in *.
              simpl. lia.
Qed.

Lemma handshakesOf_added (st st' : @State Conn) (added : list Event) :
  events st' = (events st ++ added)%list ->
  handshakesOf st st' = countHandshakes added.
Proof.
  intros H. unfold handshakesOf. rewrite H.
  fold (countHandshakes (events st ++ added)). rewrite countHandshakes_app.
  unfold countHandshakes. lia.
Qed.

(** C5. An acquisition makes at most three handshakes. When attempt [k]
    is the first to fail with an authentication error, it is the last one:
    [k + 1] handshakes were made and the enriched error of that attempt is
    thrown. When all three attempts fail otherwise, three handshakes were
    made and the enriched error of the last one is thrown. *)
Theorem connectWithRetry_attempts (st : @State Conn) :
  let result := connectWithRetry establishConnection clusterHost sshPort st in
  let attempts := handshakesOf st (fst result) in
  attempts <= 3
  /\ (forall (k : nat) (message : string),
        k < 3 ->
        (forall j, j < k -> failsWithoutAuth j) ->
        establishConnection k = Throw message ->
        isAuthenticationError message = true ->
        attempts = k + 1
        /\ snd result = Throw (enrichError clusterHost sshPort (Some message)))
  /\ ((forall j, j < 3 -> failsWithoutAuth j) ->
      attempts = 3
      /\ exists message,
           establishConnection 2 = Throw message
           /\ snd result = Throw (enrichError clusterHost sshPort (Some message))).
Proof.
  intros result attempts. split; [|split].
  - subst attempts result. unfold connectWithRetry.
    match goal with
    | |- context [retryLoop _ _ _ _ _ ?s ?e] =>
        destruct (retryLoop_events maxRetries 0 s e) as (added & Hev & Hcount)
    end.
    rewrite (handshakesOf_added _ _ added); [exact Hcount | exact Hev].
  - intros k message Hk Hbefore Hfail Hauth.
    subst attempts result. unfold connectWithRetry, maxRetries.
    assert (H0 : k = 0 \/ k = 1 \/ k = 2) by lia.
    destruct H0 as [-> | [-> | ->]].
    + simpl. rewrite Hfail, Hauth. simpl. split; [|reflexivity].
      erewrite handshakesOf_added by reflexivity. reflexivity.
    + destruct (Hbefore 0) as (m0 & E0 & A0); [lia|].
      simpl. rewrite E0, A0. simpl. rewrite Hfail, Hauth. simpl.
      split; [|reflexivity].
      erewrite handshakesOf_added by (simpl; rewrite <- !app_assoc; reflexivity).
      reflexivity.
    + destruct (Hbefore 0) as (m0 & E0 & A0); [lia|].
      destruct (Hbefore 1) as (m1 & E1 & A1); [lia|].
      simpl. rewrite E0, A0. simpl. rewrite E1, A1. simpl. rewrite Hfail, Hauth.
      simpl. split; [|reflexivity].
      erewrite handshakesOf_added by (simpl; rewrite <- !app_assoc; reflexivity).
      reflexivity.
  - intros Hall.
    destruct (Hall 0) as (m0 & E0 & A0); [lia|].
    destruct (Hall 1) as (m1 & E1 & A1); [lia|].
    destruct (Hall 2) as (m2 & E2 & A2); [lia|].
    subst attempts result. unfold connectWithRetry, maxRetries.
    simpl. rewrite E0, A0. simpl. rewrite E1, A1. simpl. rewrite E2, A2. simpl.
    split.
    + erewrite handshakesOf_added by (simpl; rewrite <- !app_assoc; reflexivity).
      reflexivity.
    + exists m2. split; reflexivity.
Qed.

End ConnectionProperties.

(** ** The ledger file *)

Section StorageProperties.
Import StorageManager.
Variable parseLedger : string -> option (list Job).
Variable stringifyLedger : list Job -> string.

(** Once [initialize] returned, the ledger file is known. *)
Lemma initialize_sets_jobsFile (host : Host) (sm sm' : Storage)
      (files files' : Files) (dir : option string) :
  initialize stringifyLedger host sm files = (sm', files', Ok dir) ->
  exists file, jobsFile sm' = Some file.
Proof.
  unfold initialize. destruct (jobsFile sm) as [file|] eqn:Hfile.
  - intros H. injection H as <- _ _. eauto.
  - destruct (workspaceFolders host) as [|root rest].
    + destruct (showOpenDialog host) as [folder|].
      * intros H. injection H as <- _ _. simpl. eauto.
      * intros H. discriminate H.
    + intros H. injection H as <- _ _. simpl. eauto.
Qed.

Lemma loadJobs_never_throws_aux (sm : Storage) (files : Files) (file : string) :
  jobsFile sm = Some file ->
  (exists jobs, loadJobs parseLedger sm files = Ok jobs)
  /\ (files !! file = None -> loadJobs parseLedger sm files = Ok [])
  /\ (forall content,
        files !! file = Some content ->
        parseLedger content = None ->
        loadJobs parseLedger sm files = Ok []).
Proof.
  intros Hfile. unfold loadJobs. rewrite Hfile.
  split; [|split].
  - destruct (files !! file) as [content|]; [|eauto].
    destruct (parseLedger content); eauto.
  - intros ->. reflexivity.
  - intros content -> ->. reflexivity.
Qed.

(** C10. With the storage initialised, [loadJobs] returns a list whatever the
    ledger file holds: the empty list when the file is missing or unreadable
    and when its content is not valid JSON. The next [saveJobs] replaces the
    content of the file by the ledger it is given. *)
Theorem loadJobs_never_throws (sm : Storage) (files : Files) (file : string) :
  jobsFile sm = Some file ->
  (exists jobs, loadJobs parseLedger sm files = Ok jobs)
  /\ (files !! file = None -> loadJobs parseLedger sm files = Ok [])
  /\ (forall content,
        files !! file = Some content ->
        parseLedger content = None ->
        loadJobs parseLedger sm files = Ok [])
  /\ (forall jobs,
        snd (saveJobs stringifyLedger sm files jobs) = Ok tt
        /\ fst (saveJobs stringifyLedger sm files jobs) !! file
           = Some (stringifyLedger jobs)).
Proof.
  intros Hfile.
  destruct (loadJobs_never_throws_aux sm files file Hfile) as (H1 & H2 & H3).
  repeat (split; [assumption|]).
  intros jobs. unfold saveJobs. rewrite Hfile. simpl.
  split; [reflexivity | apply lookup_insert_eq].
Qed.

End StorageProperties.

(** ** The orchestrator *)

Section OrchestratorProperties.
Import JsString JsObject ConfigManager StorageManager ClusterManager Notions.
Context {Remote : Type}.
Variable remoteExec : string -> Remote -> Remote * outcome string.
Variable JSON_parse : string -> option JSON.
Variable parseLedger : string -> option (list Job).
Variable stringifyLedger : list Job -> string.
Variable host : Host.

Local Abbreviation World := (@World Remote).
Local Abbreviation pollJob := (pollJob remoteExec JSON_parse).
Local Abbreviation pollJobs := (pollJobs remoteExec JSON_parse).
Local Abbreviation getJobStatus :=
  (getJobStatus remoteExec JSON_parse parseLedger stringifyLedger host).
Local Abbreviation executeCommand := (ClusterManager.executeCommand remoteExec).
Local Abbreviation readStatusFile := (readStatusFile remoteExec JSON_parse).
Local Abbreviation queryFails := (Notions.queryFails remoteExec JSON_parse).

(** Unfolding of the monad's operations. *)
Ltac unfold_monad :=
  unfold bind, tryCatch, ret, throw, lift in *.

Lemma executeCommand_run (command : string) (w : World) :
  executeCommand command w
  = ({| remote := fst (remoteExec command (remote w));
        storage := storage w; files := files w;
        calls := (calls w ++ [(Exec command, is_ok (snd (remoteExec command (remote w))))])%list;
        saves := saves w |},
     snd (remoteExec command (remote w))).
Proof.
  unfold ClusterManager.executeCommand.
  destruct (remoteExec command (remote w)); reflexivity.
Qed.

Lemma trim_truthy (s : string) : truthy (trim s) = true -> truthy s = true.
Proof. destruct s; [discriminate | reflexivity]. Qed.

Lemma truthy_true (s : string) : s <> "" <-> truthy s = true.
Proof. destruct s; simpl; split; congruence. Qed.

Lemma truthy_false (s : string) : s = "" <-> truthy s = false.
Proof. destruct s; simpl; split; congruence. Qed.

(** The metadata file is read with one command, and the world changes by
    that call only. *)
Lemma readStatusFile_world (job : Job) (w : World) :
  fst (readStatusFile job w) = fst (executeCommand (catCommand job) w).
Proof.
  unfold ClusterManager.readStatusFile. unfold_monad.
  destruct (executeCommand (catCommand job) w) as [w1 [content|e]]; [|reflexivity].
  simpl. destruct (truthy content && truthy (trim content)); [|reflexivity].
  destruct (JSON_parse content) as [statusData|]; [|reflexivity].
  destruct (statusOf statusData) as [status|]; [|reflexivity].
  destruct (truthyValue status); [|reflexivity].
  destruct status as [v|]; [|reflexivity].
  destruct (isLiteral v) as [[|]|]; reflexivity.
Qed.

(** One iteration of the loop always ends with a job record. *)
Lemma pollJob_returns (job : Job) (w : World) :
  exists job', snd (pollJob job w) = Ok job'.
Proof.
  unfold ClusterManager.pollJob. destruct (isPolled job); [|unfold ret; simpl; eauto].
  unfold_monad.
  destruct (executeCommand (squeueCommand job) w) as [w1 [stdout|e]]; [|simpl; eauto].
  destruct (truthy (trim stdout)); [simpl; eauto|].
  destruct (readStatusFile job w1) as [w2 [job'|e]]; simpl; eauto.
Qed.

Lemma pollJob_skips (job : Job) (w : World) :
  isPolled job = false -> pollJob job w = (w, Ok job).
Proof. intros H. unfold ClusterManager.pollJob. rewrite H. reflexivity. Qed.

(** Polling leaves the local side alone. *)
Lemma pollJob_local (job : Job) (w : World) :
  storage (fst (pollJob job w)) = storage w
  /\ files (fst (pollJob job w)) = files w
  /\ saves (fst (pollJob job w)) = saves w.
Proof.
  unfold ClusterManager.pollJob. destruct (isPolled job); [|unfold ret; simpl; auto].
  unfold_monad. rewrite executeCommand_run.
  destruct (snd (remoteExec (squeueCommand job) (remote w))) as [stdout|e];
    [|simpl; auto].
  destruct (truthy (trim stdout)); [simpl; auto|].
  match goal with
  | |- context [readStatusFile job ?w1] =>
      pose proof (readStatusFile_world job w1) as Hw;
      destruct (readStatusFile job w1) as [w2 [job'|e]]
  end; simpl in Hw; subst w2; rewrite executeCommand_run; simpl; auto.
Qed.

Lemma pollJobs_cons (job : Job) (rest : list Job) (w : World) :
  pollJobs (job :: rest) w
  = match pollJob job w with
    | (w1, Ok job') =>
        match pollJobs rest w1 with
        | (w2, Ok rest') => (w2, Ok (job' :: rest'))
        | (w2, Throw e) => (w2, Throw e)
        end
    | (w1, Throw e) => (w1, Throw e)
    end.
Proof. reflexivity. Qed.

(** A pass ends with one record per job, and leaves the local side alone. *)
Lemma pollJobs_returns (jobs : list Job) :
  forall w : World,
  exists jobs',
    snd (pollJobs jobs w) = Ok jobs'
    /\ length jobs' = length jobs
    /\ storage (fst (pollJobs jobs w)) = storage w
    /\ files (fst (pollJobs jobs w)) = files w
    /\ saves (fst (pollJobs jobs w)) = saves w.
Proof.
  induction jobs as [|job rest IH]; intros w.
  - exists []. simpl. auto.
  - rewrite pollJobs_cons.
    destruct (pollJob_returns job w) as (job' & Hjob).
    destruct (pollJob_local job w) as (Hs & Hf & Hv).
    destruct (pollJob job w) as [w1 o]. simpl in *. subst o.
    destruct (IH w1) as (rest' & Hrest & Hlen & Hs' & Hf' & Hv').
    destruct (pollJobs rest w1) as [w2 o]. simpl in *. subst o.
    exists (job' :: rest'). simpl. repeat split; congruence.
Qed.

(** The pass over a ledger is the pass over its front, then the loop body
    for the next job, then the pass over what follows. *)
Lemma pollJobs_app (before : list Job) (job : Job) (rest : list Job) :
  forall w : World,
  forall before' job' rest',
    snd (pollJobs before w) = Ok before' ->
    snd (pollJob job (fst (pollJobs before w))) = Ok job' ->
    snd (pollJobs rest (fst (pollJob job (fst (pollJobs before w))))) = Ok rest' ->
    pollJobs (before ++ job :: rest)%list w
    = (fst (pollJobs rest (fst (pollJob job (fst (pollJobs before w))))),
       Ok (before' ++ job' :: rest')%list).
Proof.
  induction before as [|b before IH]; intros w before' job' rest' H1 H2 H3.
  - change (fst (pollJobs [] w)) with w in *.
    change (snd (pollJobs [] w)) with (@Ok (list Job) []) in H1.
    injection H1 as <-. cbn [app]. rewrite pollJobs_cons.
    destruct (pollJob job w) as [w1 o]. cbn [fst snd] in *. subst o.
    destruct (pollJobs rest w1) as [w2 o]. cbn [fst snd] in *. subst o.
    reflexivity.
  - change ((b :: before) ++ job :: rest)%list with (b :: (before ++ job :: rest))%list.
    rewrite !(pollJobs_cons b). rewrite !(pollJobs_cons b) in H1, H2, H3.
    destruct (pollJob_returns b w) as (b' & Hb).
    destruct (pollJob b w) as [w1 o]. simpl in Hb. subst o.
    destruct (pollJobs_returns before w1) as (bs' & Hbs & _).
    destruct (pollJobs before w1) as [w2 o] eqn:Hrun. simpl in Hbs. subst o.
    cbn [fst snd] in H1, H2, H3 |- *. injection H1 as <-.
    assert (Hw2 : w2 = fst (pollJobs before w1)) by (rewrite Hrun; reflexivity).
    rewrite Hw2 in H2, H3.
    rewrite (IH w1 bs' job' rest'); [| rewrite Hrun; reflexivity | exact H2 | exact H3 ].
    rewrite <- Hw2. reflexivity.
Qed.


Lemma ensureStorage_initialised (w : World) (file : string) :
  jobsFile (storage w) = Some file ->
  ensureStorage stringifyLedger host w = (w, Ok tt).
Proof.
  intros H. destruct w as [r sm fs cs sv]. simpl in H.
  unfold ensureStorage, initialize. simpl. rewrite H. reflexivity.
Qed.

(** A poll pass on an initialised storage: the ledger is loaded, every job
    goes through the loop body, and the polled ledger is saved. *)
Lemma getJobStatus_run (w : World) (file : string) :
  jobsFile (storage w) = Some file ->
  exists jobs jobs',
    StorageManager.loadJobs parseLedger (storage w) (files w) = Ok jobs
    /\ snd (pollJobs jobs w) = Ok jobs'
    /\ length jobs' = length jobs
    /\ snd (getJobStatus w) = Ok (List.filter isActive jobs')
    /\ saves (fst (getJobStatus w)) = (saves w ++ [jobs'])%list
    /\ files (fst (getJobStatus w)) !! file = Some (stringifyLedger jobs').
Proof.
  intros Hfile.
  destruct (proj1 (loadJobs_never_throws_aux parseLedger (storage w) (files w) file Hfile))
    as (jobs & Hload).
  destruct (pollJobs_returns jobs w) as (jobs' & Hpoll & Hlen & Hs & Hf & Hv).
  exists jobs, jobs'. split; [exact Hload|]. split; [exact Hpoll|].
  split; [exact Hlen|].
  unfold ClusterManager.getJobStatus. unfold_monad.
  rewrite (ensureStorage_initialised w file Hfile).
  unfold ClusterManager.loadJobs. rewrite Hload.
  destruct (pollJobs jobs w) as [w1 o]. simpl in Hpoll, Hs, Hf, Hv. subst o.
  unfold ClusterManager.saveJobs, StorageManager.saveJobs.
  rewrite Hs, Hfile. simpl. rewrite Hv.
  split; [reflexivity|]. split; [reflexivity|]. apply lookup_insert_eq.
Qed.

Lemma pollJobs_keeps_skipped (jobs : list Job) :
  forall (w : World) (jobs' : list Job),
    snd (pollJobs jobs w) = Ok jobs' ->
    forall (i : nat) (job : Job),
      jobs !! i = Some job -> isPolled job = false -> jobs' !! i = Some job.
Proof.
  induction jobs as [|j rest IH]; intros w jobs' Hrun i job Hi Hskip.
  - discriminate Hi.
  - rewrite pollJobs_cons in Hrun.
    destruct (pollJob_returns j w) as (j' & Hj).
    destruct (pollJob j w) as [w1 o] eqn:Hpj. simpl in Hj. subst o.
    destruct (pollJobs_returns rest w1) as (rest' & Hrest & _).
    destruct (pollJobs rest w1) as [w2 o] eqn:Hpr. simpl in Hrest. subst o.
    simpl in Hrun. injection Hrun as <-.
    destruct i as [|i]; simpl in Hi |- *.
    + injection Hi as ->. rewrite (pollJob_skips job w Hskip) in Hpj.
      injection Hpj as _ <-. reflexivity.
    + apply (IH w1 rest'); [rewrite Hpr; reflexivity | exact Hi | exact Hskip].
Qed.

Lemma isSettled_not_polled (job : Job) : isSettled job -> isPolled job = false.
Proof.
  unfold isSettled, isPolled.
  intros [H | [H | [H | H]]]; rewrite H; simpl;
    rewrite ?andb_false_r; reflexivity.
Qed.

(** C9. In a poll pass, a record whose status is COMPLETED or FAILED, or
    whose scheduler id is null, comes out as it went in, at the same place
    of the ledger that is saved. *)
Theorem poll_leaves_settled_jobs (w : World) (file : string) :
  jobsFile (storage w) = Some file ->
  exists jobs jobs',
    StorageManager.loadJobs parseLedger (storage w) (files w) = Ok jobs
    /\ saves (fst (getJobStatus w)) = (saves w ++ [jobs'])%list
    /\ files (fst (getJobStatus w)) !! file = Some (stringifyLedger jobs')
    /\ length jobs' = length jobs
    /\ forall (i : nat) (job : Job),
         jobs !! i = Some job -> isSettled job -> jobs' !! i = Some job.
Proof.
  intros Hfile.
  destruct (getJobStatus_run w file Hfile)
    as (jobs & jobs' & Hload & Hpoll & Hlen & _ & Hsaves & Hfiles).
  exists jobs, jobs'. repeat (split; [assumption|]).
  intros i job Hi Hsettled.
  apply (pollJobs_keeps_skipped jobs w jobs' Hpoll i job Hi).
  apply isSettled_not_polled, Hsettled.
Qed.


(** Cleaning a job that is in the ledger sends the remove command for its
    remote directory, whatever that directory is: no validator stands in
    between. *)
Lemma cleanRemoteJob_issues_remove (jobId file : string) (jobs : list Job)
      (job : Job) (w : World) :
  jobsFile (storage w) = Some file ->
  StorageManager.loadJobs parseLedger (storage w) (files w) = Ok jobs ->
  findJob jobId jobs = Some job ->
  let command := "rm -rf " ++ toTemplate (getField "remoteDir" job) in
  calls (fst (cleanRemoteJob remoteExec parseLedger stringifyLedger host jobId w))
  = (calls w ++ [(Exec command, is_ok (snd (remoteExec command (remote w))))])%list.
Proof.
  intros Hfile Hload Hfind command.
  unfold cleanRemoteJob. unfold_monad.
  rewrite (ensureStorage_initialised w file Hfile).
  unfold ClusterManager.loadJobs. rewrite Hload, Hfind.
  fold command. rewrite executeCommand_run.
  destruct (snd (remoteExec command (remote w))); reflexivity.
Qed.

(** The loop body on a polled job, by what the queue listing answers. *)
Lemma pollJob_queue_throws (job : Job) (w : World) (e : string) :
  isPolled job = true ->
  snd (remoteExec (squeueCommand job) (remote w)) = Throw e ->
  snd (pollJob job w) = Ok (setStatus "UNKNOWN" job).
Proof.
  intros Hp Hq. unfold ClusterManager.pollJob. rewrite Hp. unfold_monad.
  rewrite executeCommand_run, Hq. reflexivity.
Qed.

Lemma pollJob_in_queue (job : Job) (w : World) (stdout : string) :
  isPolled job = true ->
  snd (remoteExec (squeueCommand job) (remote w)) = Ok stdout ->
  trim stdout <> "" ->
  snd (pollJob job w) = Ok (setStatus (trim stdout) job)
  /\ calls (fst (pollJob job w))
     = (calls w ++ [(Exec (squeueCommand job), true)])%list.
Proof.
  intros Hp Hq Ht. apply truthy_true in Ht.
  unfold ClusterManager.pollJob. rewrite Hp. unfold_monad.
  rewrite executeCommand_run, Hq, Ht. simpl. auto.
Qed.

(** When the queue listing is empty the loop body is the inner [try]. *)
Lemma pollJob_left_queue (job : Job) (w : World) (stdout : string) :
  isPolled job = true ->
  snd (remoteExec (squeueCommand job) (remote w)) = Ok stdout ->
  trim stdout = "" ->
  let w1 := fst (executeCommand (squeueCommand job) w) in
  pollJob job w
  = match readStatusFile job w1 with
    | (w2, Ok job') => (w2, Ok job')
    | (w2, Throw _) => (w2, Ok (setStatus "UNKNOWN" job))
    end.
Proof.
  intros Hp Hq Ht w1. apply truthy_false in Ht.
  unfold ClusterManager.pollJob. rewrite Hp. unfold_monad. subst w1.
  rewrite executeCommand_run, Hq, Ht. cbn [fst].
  destruct (readStatusFile job _) as [w2 [job'|e]]; reflexivity.
Qed.



Lemma pollJob_query_fails (job : Job) (w : World) :
  isPolled job = true ->
  queryFails job w ->
  snd (pollJob job w) = Ok (setStatus "UNKNOWN" job).
Proof.
  intros Hp [(e & Hq) | (stdout & Hq & Ht & Hfile)].
  - exact (pollJob_queue_throws job w e Hp Hq).
  - rewrite (pollJob_left_queue job w stdout Hp Hq Ht). cbv zeta.
    rewrite executeCommand_run. cbn [fst].
    unfold ClusterManager.readStatusFile. unfold_monad.
    rewrite executeCommand_run. cbn [fst snd remote].
    destruct Hfile as [(e & Hf) | (content & Hf & Hc & Hparse)].
    + rewrite Hf. reflexivity.
    + rewrite Hf. apply truthy_true in Hc.
      rewrite (trim_truthy _ Hc), Hc. simpl. rewrite Hparse. reflexivity.
Qed.


End OrchestratorProperties.

(** ** Submission *)

Section SubmissionProperties.
Import JsString JsObject ConfigManager StorageManager ClusterManager Notions.
Context {Remote : Type}.
Variable remoteExec : string -> Remote -> Remote * outcome string.
Variable remoteUpload : string -> string -> Remote -> Remote * outcome unit.
Variable parseLedger : string -> option (list Job).
Variable stringifyLedger : list Job -> string.
Variable host : Host.
Variable clusterInfo : ClusterInfo.

Local Abbreviation World := (@World Remote).
Local Abbreviation submitJob :=
  (submitJob remoteExec remoteUpload parseLedger stringifyLedger host clusterInfo).
Local Abbreviation executeCommand := (ClusterManager.executeCommand remoteExec).
Local Abbreviation uploadFile := (ClusterManager.uploadFile remoteUpload).
Local Abbreviation uploadInputs := (ClusterManager.uploadInputs remoteUpload).
Local Abbreviation ensureStorage := (ClusterManager.ensureStorage stringifyLedger host).

Lemma uploadFile_run (localPath remotePath : string) (w : World) :
  uploadFile localPath remotePath w
  = ({| remote := fst (remoteUpload localPath remotePath (remote w));
        storage := storage w; files := files w;
        calls := (calls w ++ [(Upload localPath remotePath,
                               is_ok (snd (remoteUpload localPath remotePath (remote w))))])%list;
        saves := saves w |},
     snd (remoteUpload localPath remotePath (remote w))).
Proof.
  unfold ClusterManager.uploadFile.
  destruct (remoteUpload localPath remotePath (remote w)); reflexivity.
Qed.

Lemma ensureStorage_frame (w : World) :
  calls (fst (ensureStorage w)) = calls w
  /\ saves (fst (ensureStorage w)) = saves w
  /\ (snd (ensureStorage w) = Ok tt ->
      exists file, jobsFile (storage (fst (ensureStorage w))) = Some file).
Proof.
  unfold ClusterManager.ensureStorage.
  destruct (initialize stringifyLedger host (storage w) (files w))
    as [[sm fs] o] eqn:Hinit.
  simpl. split; [reflexivity|]. split; [reflexivity|].
  destruct o as [dir|e]; simpl; [|discriminate].
  intros _. exact (initialize_sets_jobsFile stringifyLedger host _ _ _ _ _ Hinit).
Qed.

(** The uploads of the input files: they stop at the first one that
    throws. *)
Lemma uploadInputs_run (remoteJobDir : string) (inputs : list string) :
  forall w : World,
  exists added,
    calls (fst (uploadInputs remoteJobDir inputs w)) = (calls w ++ added)%list
    /\ saves (fst (uploadInputs remoteJobDir inputs w)) = saves w
    /\ storage (fst (uploadInputs remoteJobDir inputs w)) = storage w
    /\ match snd (uploadInputs remoteJobDir inputs w) with
       | Ok _ =>
           added = map (fun f => (Upload f (remoteJobDir ++ "/" ++ PosixPath.basename f),
                                  true)) inputs
       | Throw _ => someCallFailed added
       end.
Proof.
  induction inputs as [|f rest IH]; intros w.
  - exists []. simpl. rewrite app_nil_r. auto.
  - simpl. unfold bind. rewrite uploadFile_run.
    destruct (snd (remoteUpload f _ (remote w))) as [[]|e] eqn:Hup.
    + match goal with
      | |- context [uploadInputs remoteJobDir rest ?w1] =>
          destruct (IH w1) as (added & Hc & Hs & Hst & Hres)
      end.
      exists ((Upload f (remoteJobDir ++ "/" ++ PosixPath.basename f), true) :: added).
      rewrite Hc, Hs, Hst. simpl. rewrite <- app_assoc. simpl.
      repeat (split; [reflexivity|]).
      destruct (snd (uploadInputs remoteJobDir rest _)).
      * rewrite Hres. reflexivity.
      * destruct Hres as (c & Hin). exists c. right. exact Hin.
    + exists [(Upload f (remoteJobDir ++ "/" ++ PosixPath.basename f), false)].
      simpl. repeat (split; [reflexivity|]). eexists. left. reflexivity.
Qed.


Lemma submissionCalls_all_returned (filePath : string) (inputs : list string)
      (remoteJobDir localScriptPath : string) :
  ~ someCallFailed (submissionCalls filePath inputs remoteJobDir localScriptPath).
Proof.
  intros (c & Hin). unfold submissionCalls in Hin.
  repeat (apply in_app_or in Hin; destruct Hin as [Hin|Hin]).
  - simpl in Hin. destruct Hin as [H | [H | []]]; discriminate H.
  - apply in_map_iff in Hin. destruct Hin as (f & H & _). discriminate H.
  - simpl in Hin. destruct Hin as [H | [H | []]]; discriminate H.
Qed.

(** A submission either throws and saves nothing, or made exactly the calls
    of [submissionCalls], all of which returned, built the script, and saved
    the ledger once with the new record at its end. *)
Lemma submitJob_cases (filePath : string) (inputs : option (list string))
      (jobConfig : JobConfig) (now submittedAt : Z) (w : World) :
  let after := submitJob filePath inputs jobConfig now submittedAt w in
  let jobId := generateJobId now in
  let remoteJobDir := jobsDir clusterInfo ++ "/" ++ jobId in
  let config :=
    stamped jobConfig jobId (PosixPath.basename filePath)
            (JsDate.toISOString submittedAt) (default [] inputs) in
  let localScriptPath := pathJoin [tmpdir host; "job_" ++ jobId ++ ".sbatch"] in
  exists added,
    calls (fst after) = (calls w ++ added)%list
    /\ ((is_ok (snd after) = false /\ saves (fst after) = saves w
         /\ (someCallFailed added
             \/ is_ok (ScriptBuilder.buildScript config clusterInfo) = false
             \/ is_ok (snd (ensureStorage w)) = false))
        \/ (exists jobs stdout script,
              added = submissionCalls filePath (default [] inputs) remoteJobDir
                                      localScriptPath
              /\ ScriptBuilder.buildScript config clusterInfo = Ok script
              /\ snd after = Ok (jobId, matchSubmitted stdout)
              /\ saves (fst after)
                 = (saves w
                    ++ [(jobs ++ [newRecord jobId (matchSubmitted stdout) filePath
                                           inputs remoteJobDir config])%list])%list)).
Proof.
  intros after jobId remoteJobDir config localScriptPath. subst after.
  unfold ClusterManager.submitJob, bind, lift, ret.
  fold jobId. fold remoteJobDir. fold config. fold localScriptPath.
  destruct (ensureStorage_frame w) as (Hc0 & Hs0 & Hj0).
  destruct (ensureStorage w) as [w0 [[]|e0]]; cbn [fst snd] in *.
  2: { exists []. rewrite app_nil_r. split; [exact Hc0|]. left. auto. }
  destruct (Hj0 eq_refl) as (file & Hfile). clear Hj0.
  rewrite executeCommand_run.
  destruct (snd (remoteExec ("mkdir -p " ++ remoteJobDir) (remote w0))) as [out1|e1].
  2: { eexists. cbn [fst snd calls saves is_ok]. rewrite Hc0, Hs0.
       split; [reflexivity|]. left. split; [reflexivity|]. split; [reflexivity|].
       left. eexists. left. reflexivity. }
  rewrite uploadFile_run. cbn [remote is_ok].
  destruct (snd (remoteUpload filePath _ _)) as [[]|e2].
  2: { eexists. cbn [fst snd calls saves is_ok]. rewrite Hc0, Hs0, <- app_assoc.
       split; [reflexivity|]. left. split; [reflexivity|]. split; [reflexivity|].
       left. eexists. right. left. reflexivity. }
  match goal with
  | |- context [uploadInputs remoteJobDir (default [] inputs) ?w2] =>
      destruct (uploadInputs_run remoteJobDir (default [] inputs) w2)
        as (added3 & Hc3 & Hs3 & Hst3 & Hres3);
      destruct (uploadInputs remoteJobDir (default [] inputs) w2) as [w3 [[]|e3]]
  end; cbn [fst snd calls saves storage is_ok] in *.
  2: { exists ([(Exec ("mkdir -p " ++ remoteJobDir), true);
                (Upload filePath (remoteJobDir ++ "/" ++ PosixPath.basename filePath), true)]
               ++ added3)%list.
       rewrite Hc3, Hs3, Hc0, Hs0, <- !app_assoc.
       split; [reflexivity|]. left. split; [reflexivity|]. split; [reflexivity|].
       left. destruct Hres3 as (c & Hin). exists c. right. right. exact Hin. }
  destruct (ScriptBuilder.buildScript config clusterInfo) as [script|e4] eqn:Hscript.
  2: { exists ([(Exec ("mkdir -p " ++ remoteJobDir), true);
                (Upload filePath (remoteJobDir ++ "/" ++ PosixPath.basename filePath), true)]
               ++ added3)%list.
       cbn [fst snd]. rewrite Hc3, Hs3, Hc0, Hs0, <- !app_assoc.
       split; [reflexivity|]. left. auto. }
  unfold ClusterManager.writeFileSync. rewrite uploadFile_run.
  cbn [remote storage files calls saves is_ok].
  destruct (snd (remoteUpload localScriptPath _ _)) as [[]|e5].
  2: { exists ([(Exec ("mkdir -p " ++ remoteJobDir), true);
                (Upload filePath (remoteJobDir ++ "/" ++ PosixPath.basename filePath), true)]
               ++ added3
               ++ [(Upload localScriptPath (remoteJobDir ++ "/job.sbatch"), false)])%list.
       cbn [fst snd calls saves is_ok]. rewrite Hc3, Hs3, Hc0, Hs0, <- !app_assoc.
       split; [reflexivity|]. left. split; [reflexivity|]. split; [reflexivity|].
       left. eexists. simpl. right. right. apply in_or_app. right. left. reflexivity. }
  unfold ClusterManager.unlinkSync. rewrite executeCommand_run.
  cbn [remote storage files calls saves is_ok].
  destruct (snd (remoteExec ("cd " ++ remoteJobDir ++ " && sbatch job.sbatch") _))
    as [stdout|e6].
  2: { exists ([(Exec ("mkdir -p " ++ remoteJobDir), true);
                (Upload filePath (remoteJobDir ++ "/" ++ PosixPath.basename filePath), true)]
               ++ added3
               ++ [(Upload localScriptPath (remoteJobDir ++ "/job.sbatch"), true);
                   (Exec ("cd " ++ remoteJobDir ++ " && sbatch job.sbatch"), false)])%list.
       cbn [fst snd calls saves is_ok]. rewrite Hc3, Hs3, Hc0, Hs0, <- !app_assoc.
       split; [reflexivity|]. left. split; [reflexivity|]. split; [reflexivity|].
       left. eexists. simpl. right. right. apply in_or_app. right. right. left. reflexivity. }
  unfold ClusterManager.loadJobs, ClusterManager.saveJobs.
  cbn [remote storage files calls saves is_ok].
  rewrite Hst3. cbn [storage].
  match goal with
  | |- context [StorageManager.loadJobs parseLedger (storage w0) ?fs] =>
      destruct (proj1 (loadJobs_never_throws_aux parseLedger (storage w0) fs file Hfile))
        as (jobs & Hload); rewrite Hload
  end.
  unfold StorageManager.saveJobs. rewrite Hfile.
  cbn [fst snd remote storage files calls saves is_ok].
  exists (submissionCalls filePath (default [] inputs) remoteJobDir localScriptPath).
  split.
  - rewrite Hc3, Hc0, Hres3. unfold submissionCalls. rewrite <- !app_assoc. reflexivity.
  - right. exists jobs, stdout, script. rewrite Hs3, Hs0. auto.
Qed.

(** C1. Whenever a step of a submission fails (a remote command or an
    upload throws, or the script cannot be built) the submission throws and
    no ledger is saved. A ledger is saved only by a submission all of whose
    remote calls returned, the scheduler submission last; it is then saved
    once, with the new record, of status PENDING, at its end. *)
Theorem submitJob_atomic (filePath : string) (inputs : option (list string))
        (jobConfig : JobConfig) (now submittedAt : Z) (w : World) :
  let after := submitJob filePath inputs jobConfig now submittedAt w in
  let jobId := generateJobId now in
  let remoteJobDir := jobsDir clusterInfo ++ "/" ++ jobId in
  let config :=
    stamped jobConfig jobId (PosixPath.basename filePath)
            (JsDate.toISOString submittedAt) (default [] inputs) in
  let localScriptPath := pathJoin [tmpdir host; "job_" ++ jobId ++ ".sbatch"] in
  exists added,
    calls (fst after) = (calls w ++ added)%list
    /\ (someCallFailed added ->
        is_ok (snd after) = false /\ saves (fst after) = saves w)
    /\ (is_ok (ScriptBuilder.buildScript config clusterInfo) = false ->
        is_ok (snd after) = false /\ saves (fst after) = saves w)
    /\ (is_ok (snd after) = false -> saves (fst after) = saves w)
    /\ (saves (fst after) <> saves w ->
        exists jobs stdout,
          let record :=
            newRecord jobId (matchSubmitted stdout) filePath inputs remoteJobDir
                      config in
          added = submissionCalls filePath (default [] inputs) remoteJobDir
                                  localScriptPath
          /\ last added = Some (Exec ("cd " ++ remoteJobDir ++ " && sbatch job.sbatch"),
                               true)
          /\ snd after = Ok (jobId, matchSubmitted stdout)
          /\ saves (fst after) = (saves w ++ [(jobs ++ [record])%list])%list
          /\ getField "status" record = Some (JStr "PENDING")).
Proof.
  intros after jobId remoteJobDir config localScriptPath.
  destruct (submitJob_cases filePath inputs jobConfig now submittedAt w)
    as (added & Hcalls & Hcases).
  fold after jobId remoteJobDir config localScriptPath in Hcalls, Hcases.
  exists added. split; [exact Hcalls|].
  destruct Hcases as [(Hthrow & Hsaves & _) | (jobs & stdout & script & Hadded & Hscript & Hres & Hsaves)].
  - repeat split; auto. intros Hne. contradiction.
  - split; [|split; [|split]].
    + intros Hfail. exfalso. rewrite Hadded in Hfail.
      exact (submissionCalls_all_returned _ _ _ _ Hfail).
    + intros Hfail. rewrite Hscript in Hfail. discriminate Hfail.
    + intros Hfail. rewrite Hres in Hfail. discriminate Hfail.
    + intros _. exists jobs, stdout. cbv zeta.
      split; [exact Hadded|]. split.
      * rewrite Hadded. unfold submissionCalls.
        match goal with
        | |- last (?a ++ ?b ++ [?x; ?y])%list = _ =>
            change (a ++ b ++ [x; y])%list with (a ++ b ++ [x] ++ [y])%list
        end.
        rewrite !app_assoc. apply last_snoc.
      * split; [exact Hres|]. split; [exact Hsaves | reflexivity].
Qed.

End SubmissionProperties.

(** ** Path safety *)

Section SafetyProperties.
Import JsString JsObject ConfigManager StorageManager ClusterManager SafetyManager.

(** A path with a [..] in it never passes the validators. *)
Lemma validatePath_rejects_traversal (clusterInfo : ClusterInfo) (remotePath : string) :
  includes remotePath ".." = true ->
  is_ok (validatePath clusterInfo remotePath) = false.
Proof.
  intros H. unfold validatePath.
  destruct (negb (startsWith (PosixPath.normalize remotePath) (scratchDir clusterInfo)));
    [reflexivity|].
  rewrite H. reflexivity.
Qed.

Lemma validateDelete_rejects_traversal (clusterInfo : ClusterInfo) (remotePath : string) :
  includes remotePath ".." = true ->
  is_ok (validateDelete clusterInfo remotePath) = false.
Proof.
  intros H. unfold validateDelete.
  pose proof (validatePath_rejects_traversal clusterInfo remotePath H) as Hv.
  destruct (validatePath clusterInfo remotePath); [discriminate Hv | reflexivity].
Qed.

(** A path whose normal form does not start with the scratch directory
    never passes either. *)
Lemma validatePath_rejects_outside (clusterInfo : ClusterInfo) (remotePath : string) :
  startsWith (PosixPath.normalize remotePath) (scratchDir clusterInfo) = false ->
  is_ok (validatePath clusterInfo remotePath) = false.
Proof. intros H. unfold validatePath. rewrite H. reflexivity. Qed.

End SafetyProperties.

Section CleanupProperties.
Import CleanupScenario.

(** C2, on the code: [cleanRemoteJob] sends the remove command for a remote
    directory that the delete validator rejects, and no validator is called
    on the way; and [validatePath] accepts a path under a sibling of the
    user's scratch directory whose name starts with the user's name. *)
Theorem cleanRemoteJob_skips_validation :
  ClusterManager.cleanRemoteJob remoteExec parseLedger stringifyLedger host
    "2026-01-01T00-00-00-000" world
  = ({| ClusterManager.remote := tt;
        ClusterManager.storage := ClusterManager.storage world;
        ClusterManager.files := ClusterManager.files world;
        ClusterManager.calls :=
          [(ClusterManager.Exec "rm -rf /scratch.hpc/alice/hpc_jobs/../../bob", true)];
        ClusterManager.saves := [] |}, Ok tt)
  /\ is_ok (SafetyManager.validateDelete clusterInfo remoteDir) = false
  /\ JsString.includes remoteDir ".." = true
  /\ SafetyManager.validatePath clusterInfo "/scratch.hpc/alice2/data" = Ok true.
Proof.
  repeat split; vm_compute; reflexivity.
Qed.

End CleanupProperties.

(** ** Job identifiers *)

Section DateProperties.
Import JsDate Notions.
Local Open Scope Z_scope.

Lemma DayFromYear_next (y : Z) :
  DayFromYear (y + 1) = DayFromYear y + 365 + InLeapYear y.
Proof.
  unfold DayFromYear, InLeapYear.
  destruct (Z.eqb_spec (y mod 4) 0), (Z.eqb_spec (y mod 100) 0),
    (Z.eqb_spec (y mod 400) 0); simpl; Z.div_mod_to_equations; lia.
Qed.

Lemma InLeapYear_range (y : Z) : 0 <= InLeapYear y <= 1.
Proof. unfold InLeapYear. destruct (_ && _)%bool; lia. Qed.

Lemma DayFromYear_mono (y1 y2 : Z) :
  y1 <= y2 -> DayFromYear y1 <= DayFromYear y2.
Proof. unfold DayFromYear. intros H. Z.div_mod_to_equations. lia. Qed.

(** [YearFromDay] is the year the day falls in. *)
Lemma YearFromDay_spec (day : Z) :
  DayFromYear (YearFromDay day) <= day < DayFromYear (YearFromDay day + 1).
Proof.
  unfold YearFromDay.
  assert (Hlow : DayFromYear (1970 + day * 400 / 146097 - 1) <= day)
    by (unfold DayFromYear; Z.div_mod_to_equations; lia).
  assert (Hhigh : day < DayFromYear (1970 + day * 400 / 146097 + 1 + 1))
    by (unfold DayFromYear; Z.div_mod_to_equations; lia).
  set (c := 1970 + day * 400 / 146097) in *.
  destruct (Z.leb_spec (DayFromYear (c + 1)) day) as [H1|H1]; [lia|].
  destruct (Z.leb_spec (DayFromYear c) day) as [H2|H2]; [lia|].
  replace (c - 1 + 1) with c by lia. lia.
Qed.

Lemma YearFromDay_unique (day y : Z) :
  DayFromYear y <= day < DayFromYear (y + 1) -> YearFromDay day = y.
Proof.
  intros H. pose proof (YearFromDay_spec day) as Hs.
  destruct (Z.lt_trichotomy (YearFromDay day) y) as [Hlt | [Heq | Hgt]]; [|exact Heq|].
  - pose proof (DayFromYear_mono (YearFromDay day + 1) y ltac:(lia)). lia.
  - pose proof (DayFromYear_mono (y + 1) (YearFromDay day) ltac:(lia)). lia.
Qed.

Lemma YearFromDay_mono (d1 d2 : Z) :
  d1 <= d2 -> YearFromDay d1 <= YearFromDay d2.
Proof.
  intros H. pose proof (YearFromDay_spec d1) as H1.
  pose proof (YearFromDay_spec d2) as H2.
  destruct (Z.le_gt_cases (YearFromDay d1) (YearFromDay d2)) as [Hle|Hgt]; [exact Hle|].
  pose proof (DayFromYear_mono (YearFromDay d2 + 1) (YearFromDay d1) ltac:(lia)). lia.
Qed.

(** Month and day of the month grow with the day of the year. *)
Lemma MonthDate_mono (d1 d2 l : Z) :
  0 <= l <= 1 -> 0 <= d1 -> d1 < d2 -> d2 < 365 + l ->
  MonthFromDay d1 l < MonthFromDay d2 l
  \/ (MonthFromDay d1 l = MonthFromDay d2 l /\ DateFromDay d1 l < DateFromDay d2 l).
Proof.
  intros Hl H0 H12 H2. unfold DateFromDay, MonthFromDay.
  repeat match goal with
         | |- context [?a <? ?b] => destruct (Z.ltb_spec a b)
         end; lia.
Qed.

Lemma MonthDate_range (d l : Z) :
  0 <= l <= 1 -> 0 <= d < 365 + l ->
  0 <= MonthFromDay d l <= 11 /\ 1 <= DateFromDay d l <= 31.
Proof.
  intros Hl Hd. unfold DateFromDay, MonthFromDay.
  repeat match goal with
         | |- context [?a <? ?b] => destruct (Z.ltb_spec a b)
         end; lia.
Qed.


Lemma timeOfDay_mono (t1 t2 : Z) :
  Day t1 = Day t2 -> t1 < t2 ->
  lexLt [HourFromTime t1; MinFromTime t1; SecFromTime t1; msFromTime t1]
        [HourFromTime t2; MinFromTime t2; SecFromTime t2; msFromTime t2].
Proof.
  unfold Day, msPerDay, HourFromTime, MinFromTime, SecFromTime, msFromTime.
  intros Hday Hlt. simpl.
  Z.div_mod_to_equations. lia.
Qed.

Lemma DayWithinYear_range (t : Z) :
  0 <= DayWithinYear t < 365 + InLeapYear (YearFromTime t).
Proof.
  unfold DayWithinYear, YearFromTime.
  pose proof (YearFromDay_spec (Day t)) as H.
  rewrite DayFromYear_next in H. lia.
Qed.

Lemma Day_mono (t1 t2 : Z) : t1 <= t2 -> Day t1 <= Day t2.
Proof. intros H. unfold Day, msPerDay. Z.div_mod_to_equations. lia. Qed.

(** The broken-down time grows with the time value. *)
Lemma dateFields_mono (t1 t2 : Z) :
  t1 < t2 -> lexLt (dateFields t1) (dateFields t2).
Proof.
  intros Hlt. unfold dateFields.
  pose proof (Day_mono t1 t2 ltac:(lia)) as Hday.
  destruct (Z.eq_dec (Day t1) (Day t2)) as [Heq | Hne].
  - pose proof (timeOfDay_mono t1 t2 Heq Hlt) as Htime.
    unfold MonthFromTime, DateFromTime, DayWithinYear, YearFromTime.
    rewrite Heq. simpl. right. split; [reflexivity|].
    right. split; [reflexivity|]. right. split; [reflexivity|]. exact Htime.
  - assert (Hd : Day t1 < Day t2) by lia.
    pose proof (YearFromDay_mono (Day t1) (Day t2) Hday) as Hy.
    fold (YearFromTime t1) in Hy. fold (YearFromTime t2) in Hy.
    destruct (Z.eq_dec (YearFromTime t1) (YearFromTime t2)) as [Hyeq | Hyne].
    + simpl. right. split; [exact Hyeq|].
      pose proof (DayWithinYear_range t1) as R1.
      pose proof (DayWithinYear_range t2) as R2.
      unfold MonthFromTime, DateFromTime. rewrite <- Hyeq in R2 |- *.
      assert (Hw : DayWithinYear t1 < DayWithinYear t2)
        by (unfold DayWithinYear; rewrite Hyeq; lia).
      destruct (MonthDate_mono (DayWithinYear t1) (DayWithinYear t2)
                  (InLeapYear (YearFromTime t1))
                  (InLeapYear_range _) ltac:(lia) Hw ltac:(lia))
        as [Hm | [Hm Hdate]].
      * left. lia.
      * right. split; [lia|]. left. exact Hdate.
    + simpl. left. lia.
Qed.

(** The ranges of the fields, for the years that [toISOString] writes with
    four digits. *)
Lemma dateFields_range (t : Z) :
  minTime <= t <= maxTime ->
  0 <= YearFromTime t <= 9999
  /\ 1 <= MonthFromTime t + 1 <= 12
  /\ 1 <= DateFromTime t <= 31
  /\ 0 <= HourFromTime t <= 23
  /\ 0 <= MinFromTime t <= 59
  /\ 0 <= SecFromTime t <= 59
  /\ 0 <= msFromTime t <= 999.
Proof.
  intros Ht.
  assert (Hy : 0 <= YearFromTime t <= 9999).
  { unfold YearFromTime.
    assert (Hd : DayFromYear 0 <= Day t < DayFromYear 10000).
    { unfold minTime, maxTime in Ht. unfold Day, msPerDay.
      change (DayFromYear 0) with (-719528).
      change (DayFromYear 10000) with 2932897.
      Z.div_mod_to_equations. lia. }
    pose proof (YearFromDay_mono (DayFromYear 0) (Day t) ltac:(lia)) as H0.
    rewrite (YearFromDay_unique (DayFromYear 0) 0) in H0
      by (rewrite DayFromYear_next; pose proof (InLeapYear_range 0); lia).
    pose proof (YearFromDay_spec (Day t)) as Hs.
    destruct (Z.le_gt_cases (YearFromDay (Day t)) 9999) as [Hle | Hgt]; [lia|].
    pose proof (DayFromYear_mono 10000 (YearFromDay (Day t)) ltac:(lia)). lia. }
  split; [exact Hy|].
  pose proof (DayWithinYear_range t) as Hw.
  pose proof (InLeapYear_range (YearFromTime t)) as Hl.
  destruct (MonthDate_range (DayWithinYear t) (InLeapYear (YearFromTime t)) Hl Hw)
    as [Hm Hd].
  unfold MonthFromTime, DateFromTime.
  split; [lia|]. split; [lia|].
  unfold HourFromTime, MinFromTime, SecFromTime, msFromTime.
  Z.div_mod_to_equations. lia.
Qed.

End DateProperties.

Section JobIdProperties.
Import JsString JsDate ClusterManager Notions.
Local Open Scope Z_scope.

Lemma zrange_In (count : nat) :
  forall start n, start <= n < start + Z.of_nat count -> In n (zrange count start).
Proof.
  induction count as [|k IH]; intros start n H; [lia|].
  cbn [zrange]. destruct (Z.eq_dec start n) as [-> | Hne]; [left; reflexivity|].
  right. apply IH. lia.
Qed.

(** A property checked on every number below a bound holds below it. *)
Lemma forall_below (P : Z -> bool) (bound : Z) :
  forallb P (zrange (Z.to_nat bound) 0) = true ->
  forall n, 0 <= n < bound -> P n = true.
Proof.
  intros Hall n Hn. rewrite forallb_forall in Hall.
  apply Hall, zrange_In. lia.
Qed.

Lemma padded2_digits (n : Z) : 0 <= n < 100 -> padded 2 n = d2 n.
Proof.
  intros H. apply String.eqb_eq.
  apply (forall_below (fun n => String.eqb (padded 2 n) (d2 n)) 100);
    [vm_compute; reflexivity | lia].
Qed.

Lemma padded3_digits (n : Z) : 0 <= n < 1000 -> padded 3 n = d3 n.
Proof.
  intros H. apply String.eqb_eq.
  apply (forall_below (fun n => String.eqb (padded 3 n) (d3 n)) 1000);
    [vm_compute; reflexivity | lia].
Qed.

Lemma padded4_digits (n : Z) : 0 <= n < 10000 -> padded 4 n = d4 n.
Proof.
  intros H. apply String.eqb_eq.
  apply (forall_below (fun n => String.eqb (padded 4 n) (d4 n)) 10000);
    [vm_compute; reflexivity | lia].
Qed.

Lemma nat_of_digit (d : Z) : 0 <= d < 10 -> nat_of_ascii (digit d) = (48 + Z.to_nat d)%nat.
Proof. intros H. unfold digit. apply nat_ascii_embedding. lia. Qed.

(** Comparison of strings that start with a digit. *)
Lemma ltb_digit (a b : Z) (x y : string) :
  0 <= a < 10 -> 0 <= b < 10 ->
  ltb (String (digit a) x) (String (digit b) y)
  = if a <? b then true else if b <? a then false else ltb x y.
Proof.
  intros Ha Hb. cbn [ltb]. rewrite !nat_of_digit by assumption.
  destruct (Z.ltb_spec a b), (Z.ltb_spec b a);
    repeat match goal with
           | |- context [(?u <? ?v)%nat] => destruct (Nat.ltb_spec u v)
           end; try reflexivity; lia.
Qed.

Lemma append_cons (c : ascii) (s x : string) :
  (String c s ++ x)%string = String c (s ++ x)%string.
Proof. reflexivity. Qed.

Lemma append_nil (x : string) : (EmptyString ++ x)%string = x.
Proof. reflexivity. Qed.

Ltac digit_bounds := Z.div_mod_to_equations; lia.

Ltac compare_cases :=
  repeat match goal with
         | |- context [?u <? ?v] => destruct (Z.ltb_spec u v)
         end; try reflexivity; try digit_bounds.

Lemma ltb_d2 (n m : Z) (x y : string) :
  0 <= n < 100 -> 0 <= m < 100 ->
  ltb (d2 n ++ x) (d2 m ++ y)
  = if n <? m then true else if m <? n then false else ltb x y.
Proof.
  intros Hn Hm. unfold d2. rewrite !append_cons, !append_nil.
  rewrite !ltb_digit by digit_bounds. compare_cases.
Qed.

Lemma ltb_d3 (n m : Z) (x y : string) :
  0 <= n < 1000 -> 0 <= m < 1000 ->
  ltb (d3 n ++ x) (d3 m ++ y)
  = if n <? m then true else if m <? n then false else ltb x y.
Proof.
  intros Hn Hm. unfold d3. rewrite !append_cons.
  rewrite ltb_digit by digit_bounds. rewrite ltb_d2 by digit_bounds. compare_cases.
Qed.

Lemma ltb_d4 (n m : Z) (x y : string) :
  0 <= n < 10000 -> 0 <= m < 10000 ->
  ltb (d4 n ++ x) (d4 m ++ y)
  = if n <? m then true else if m <? n then false else ltb x y.
Proof.
  intros Hn Hm. unfold d4. rewrite !append_cons.
  rewrite ltb_digit by digit_bounds. rewrite ltb_d3 by digit_bounds. compare_cases.
Qed.

Lemma ltb_irrefl (s : string) : ltb s s = false.
Proof.
  induction s as [|c s IH]; [reflexivity|]. cbn [ltb].
  rewrite Nat.ltb_irrefl. exact IH.
Qed.


Lemma ltb_same_head (c : ascii) (x y : string) :
  ltb (String c x) (String c y) = ltb x y.
Proof. cbn [ltb]. rewrite Nat.ltb_irrefl. reflexivity. Qed.

Lemma ltb_d3_end (n m : Z) :
  0 <= n < 1000 -> 0 <= m < 1000 -> ltb (d3 n) (d3 m) = (n <? m).
Proof.
  intros Hn Hm. unfold d3, d2.
  rewrite !ltb_digit by digit_bounds. cbn [ltb]. compare_cases.
Qed.

Lemma digit_plain (d : Z) :
  0 <= d < 10 ->
  Ascii.eqb (digit d) "."%char = false
  /\ Ascii.eqb (digit d) ":"%char = false
  /\ isLineTerminator (digit d) = false.
Proof.
  intros H.
  pose proof (forall_below
                (fun d => negb (Ascii.eqb (digit d) "."%char)
                          && negb (Ascii.eqb (digit d) ":"%char)
                          && negb (isLineTerminator (digit d)))%bool
                10 eq_refl d H) as Hp.
  cbv beta in Hp.
  destruct (Ascii.eqb (digit d) "."%char), (Ascii.eqb (digit d) ":"%char),
    (isLineTerminator (digit d)); simpl in Hp; try discriminate Hp; auto.
Qed.

Lemma dropFromFirstDot_other (c : ascii) (s : string) :
  Ascii.eqb c "."%char = false ->
  dropFromFirstDot (String c s) = String c (dropFromFirstDot s).
Proof.
  intros H. cbn [dropFromFirstDot]. rewrite H. destruct s; reflexivity.
Qed.

Lemma dropFromFirstDot_dot (c : ascii) (s : string) :
  isLineTerminator c = false ->
  dropFromFirstDot (String "."%char (String c s)) = dropToLineEnd (String c s).
Proof. intros H. cbn [dropFromFirstDot]. rewrite H. reflexivity. Qed.

Lemma dropToLineEnd_other (c : ascii) (s : string) :
  isLineTerminator c = false -> dropToLineEnd (String c s) = dropToLineEnd s.
Proof. intros H. cbn [dropToLineEnd]. rewrite H. reflexivity. Qed.

Lemma replaceAllChar_other (c : ascii) (s : string) :
  Ascii.eqb c ":"%char = false ->
  replaceAllChar ":"%char "-" (String c s)
  = String c (replaceAllChar ":"%char "-" s).
Proof. intros H. cbn [replaceAllChar]. rewrite H. reflexivity. Qed.

Lemma replaceAllChar_colon (s : string) :
  replaceAllChar ":"%char "-" (String ":"%char s)
  = String "-"%char (replaceAllChar ":"%char "-" s).
Proof. reflexivity. Qed.

(** In the years written with four digits, the identifier is the
    broken-down time with fixed widths and dashes. *)
Lemma generateJobId_shape (t : Z) :
  minTime <= t <= maxTime -> generateJobId t = formatId (dateFields t).
Proof.
  intros Ht.
  destruct (dateFields_range t Ht) as (Hy & Hmo & Hd & Hh & Hmi & Hs & Hms).
  unfold generateJobId, toISOString, isoYear, getMilliseconds, numToString,
    dateFields, formatId.
  replace ((0 <=? YearFromTime t) && (YearFromTime t <=? 9999))%bool with true
    by (symmetry; apply andb_true_intro; split; apply Z.leb_le; lia).
  replace (msFromTime t <? 0) with false by (symmetry; apply Z.ltb_ge; lia).
  fold (padded 3 (msFromTime t)).
  rewrite (padded4_digits (YearFromTime t)) by lia.
  rewrite (padded2_digits (MonthFromTime t + 1)) by lia.
  rewrite (padded2_digits (DateFromTime t)) by lia.
  rewrite (padded2_digits (HourFromTime t)) by lia.
  rewrite (padded2_digits (MinFromTime t)) by lia.
  rewrite (padded2_digits (SecFromTime t)) by lia.
  rewrite (padded3_digits (msFromTime t)) by lia.
  unfold d4, d3, d2. rewrite !append_cons, !append_nil.
  repeat (rewrite dropFromFirstDot_other
            by (first [reflexivity | apply digit_plain; digit_bounds])).
  rewrite dropFromFirstDot_dot by (apply digit_plain; digit_bounds).
  repeat (rewrite dropToLineEnd_other
            by (first [reflexivity | apply digit_plain; digit_bounds])).
  cbn [dropToLineEnd].
  repeat first
    [ rewrite replaceAllChar_colon
    | rewrite replaceAllChar_other
        by (first [reflexivity | apply digit_plain; digit_bounds]) ].
  reflexivity.
Qed.




End JobIdProperties.

(** ** The statements at work on the samples *)

Section Witnesses.
Import JsString JsObject StorageManager ClusterManager Notions Samples.


Lemma native_job_script_witness :
  is_ok (ScriptBuilder.buildScript nativeJob Samples.clusterInfo) = true
  /\ gpuDirectives nativeJob
       (ConfigManager.jobsDir Samples.clusterInfo ++ "/" ++ id nativeJob) = []
  /\ In ("(gcc main.c -o main.out -O3 -march=native -Wall " ++ newline
         ++ "./main.out) > execution_log.txt 2> execution_errors.txt")
        (ScriptBuilder.executionLines nativeJob
           (ConfigManager.jobsDir Samples.clusterInfo ++ "/" ++ id nativeJob)
           (Executors.buildExecutionCommand Executors.CppExecutor nativeJob
              (ConfigManager.jobsDir Samples.clusterInfo ++ "/" ++ id nativeJob)
              "main.c")).
Proof.
  destruct (native_job_script nativeJob Samples.clusterInfo "-O3")
    as (Hbuild & _ & _ & _ & Hgpu & Hrun).
  - reflexivity.
  - reflexivity.
  - reflexivity.
  - reflexivity.
  - left. reflexivity.
  - reflexivity.
  - simpl. auto.
  - split; [rewrite Hbuild; reflexivity|]. split; [exact Hgpu | exact Hrun].
Defined.

Lemma connectWithRetry_attempts_witness :
  ConnectionManager.handshakesOf idle
    (fst (ConnectionManager.connectWithRetry handshakes "hpc.example.org" "22" idle))
  = 2
  /\ snd (ConnectionManager.connectWithRetry handshakes "hpc.example.org" "22" idle)
     = Throw "All configured authentication methods failed".
Proof.
  apply (proj1 (proj2 (connectWithRetry_attempts handshakes "hpc.example.org" "22" idle))
           1 "All configured authentication methods failed").
  - lia.
  - intros j Hj. assert (j = 0) as -> by lia.
    exists "connect ECONNREFUSED 10.0.0.1:22". split; reflexivity.
  - reflexivity.
  - reflexivity.
Defined.

Lemma loadJobs_never_throws_witness :
  StorageManager.loadJobs Samples.parseLedger initialised corrupted = Ok [].
Proof.
  apply (proj1 (proj2 (proj2 (loadJobs_never_throws Samples.parseLedger
                                Samples.stringifyLedger initialised corrupted
                                jobsPath eq_refl)))
           "<<<<<<< HEAD").
  - vm_compute. reflexivity.
  - reflexivity.
Defined.

Lemma poll_leaves_settled_jobs_witness :
  exists jobs',
    saves (fst (getJobStatus Samples.remoteExec Samples.JSON_parse Samples.parseLedger
                  Samples.stringifyLedger Samples.host world))
    = [jobs']
    /\ jobs' !! 3 = Some jobSettled.
Proof.
  destruct (poll_leaves_settled_jobs Samples.remoteExec Samples.JSON_parse
              Samples.parseLedger Samples.stringifyLedger Samples.host world
              jobsPath eq_refl)
    as (jobs & jobs' & Hload & Hsaves & _ & _ & Hframe).
  exists jobs'. split; [exact Hsaves|].
  apply Hframe.
  - vm_compute in Hload. injection Hload as <-. reflexivity.
  - left. reflexivity.
Defined.



Lemma submitJob_atomic_witness :
  let after :=
    submitJob Samples.remoteExec refusedUpload Samples.parseLedger
      Samples.stringifyLedger Samples.host Samples.clusterInfo
      "/home/alice/main.c" None nativeJob 1767225600000 1767225600000 world in
  is_ok (snd after) = false /\ saves (fst after) = [].
Proof.
  destruct (submitJob_atomic Samples.remoteExec refusedUpload Samples.parseLedger
              Samples.stringifyLedger Samples.host Samples.clusterInfo
              "/home/alice/main.c" None nativeJob 1767225600000 1767225600000 world)
    as (added & Hcalls & Hfail & _).
  apply Hfail. vm_compute in Hcalls. rewrite <- Hcalls.
  eexists. right. left. reflexivity.
Defined.


End Witnesses.

(** * Further properties *)

(** ** Objects *)

Section ObjectProperties.
Import JsString JsObject.

Lemma getField_setField_same (key : string) (v : JSON) (o : list (string * JSON)) :
  getField key (setField key v o) = Some v.
Proof.
  induction o as [|[k w] rest IH]; simpl.
  - rewrite String.eqb_refl. reflexivity.
  - destruct (String.eqb_spec k key) as [-> | Hne]; simpl.
    + rewrite String.eqb_refl. reflexivity.
    + destruct (String.eqb_spec k key); [contradiction | exact IH].
Qed.

Lemma getField_setField_other (key other : string) (v : JSON)
      (o : list (string * JSON)) :
  key <> other -> getField other (setField key v o) = getField other o.
Proof.
  intros Hne. induction o as [|[k w] rest IH]; simpl.
  - destruct (String.eqb_spec key other); [contradiction | reflexivity].
  - destruct (String.eqb_spec k key) as [-> | Hk]; simpl.
    + destruct (String.eqb_spec key other); [contradiction | reflexivity].
    + destruct (String.eqb_spec k other); [reflexivity | exact IH].
Qed.

End ObjectProperties.

(** ** What a poll pass writes and asks *)

Section PollInvariants.
Import JsString JsObject StorageManager ClusterManager Notions.
Context {Remote : Type}.
Variable remoteExec : string -> Remote -> Remote * outcome string.
Variable JSON_parse : string -> option JSON.
Variable parseLedger : string -> option (list Job).
Variable stringifyLedger : list Job -> string.
Variable host : Host.

Local Abbreviation World := (@World Remote).
Local Abbreviation getJobStatus :=
  (getJobStatus remoteExec JSON_parse parseLedger stringifyLedger host).
Local Abbreviation pollJob := (pollJob remoteExec JSON_parse).
Local Abbreviation pollJobs := (pollJobs remoteExec JSON_parse).
Local Abbreviation executeCommand := (ClusterManager.executeCommand remoteExec).
Local Abbreviation readStatusFile := (readStatusFile remoteExec JSON_parse).

Lemma sameButStatus_refl (job : Job) : sameButStatus job job.
Proof. intros key _ _. reflexivity. Qed.

Lemma sameButStatus_setStatus (status : string) (job : Job) :
  sameButStatus job (setStatus status job).
Proof.
  intros key H1 H2. unfold setStatus.
  apply getField_setField_other. congruence.
Qed.

Lemma readStatusFile_sameButStatus (job : Job) (w : World) :
  match snd (readStatusFile job w) with
  | Ok job' => sameButStatus job job'
  | Throw _ => True
  end.
Proof.
  unfold ClusterManager.readStatusFile, bind, ret, throw.
  destruct (executeCommand (catCommand job) w) as [w1 [content|e]]; [|exact I].
  destruct (truthy content && truthy (trim content));
    [|apply sameButStatus_setStatus].
  destruct (JSON_parse content) as [statusData|]; [|exact I].
  destruct (statusOf statusData) as [status|]; [|exact I].
  destruct (truthyValue status); [|apply sameButStatus_setStatus].
  destruct status as [v|]; [|apply sameButStatus_setStatus].
  destruct (isLiteral v) as [[|]|]; [|apply sameButStatus_setStatus|exact I].
  simpl. intros key H1 H2.
  rewrite getField_setField_other by congruence.
  apply getField_setField_other. congruence.
Qed.

Lemma pollJob_sameButStatus (job : Job) (w : World) :
  exists job', snd (pollJob job w) = Ok job' /\ sameButStatus job job'.
Proof.
  unfold ClusterManager.pollJob.
  destruct (isPolled job);
    [|exists job; split; [reflexivity | apply sameButStatus_refl]].
  unfold tryCatch, bind, ret.
  destruct (executeCommand (squeueCommand job) w) as [w1 [stdout|e]];
    [|eexists; split; [reflexivity | apply sameButStatus_setStatus]].
  destruct (truthy (trim stdout));
    [eexists; split; [reflexivity | apply sameButStatus_setStatus]|].
  pose proof (readStatusFile_sameButStatus job w1) as H.
  destruct (readStatusFile job w1) as [w2 [job'|e]]; simpl in *.
  - eexists; split; [reflexivity | exact H].
  - eexists; split; [reflexivity | apply sameButStatus_setStatus].
Qed.


Lemma pollJobs_sameButStatus (jobs : list Job) :
  forall w : World,
  exists jobs',
    snd (pollJobs jobs w) = Ok jobs' /\ Forall2 sameButStatus jobs jobs'.
Proof.
  induction jobs as [|job rest IH]; intros w.
  - exists []. split; [reflexivity | constructor].
  - destruct (pollJob_sameButStatus job w) as (job' & Hjob & Hsame).
    cbn [ClusterManager.pollJobs]. unfold bind, ret.
    destruct (pollJob job w) as [w1 o]. simpl in Hjob. subst o.
    destruct (IH w1) as (rest' & Hrest & Hall).
    destruct (pollJobs rest w1) as [w2 o]. simpl in Hrest. subst o.
    exists (job' :: rest'). split; [reflexivity | constructor; assumption].
Qed.

(** X1. A poll changes nothing but statuses and snapshots: the ledger that
    [getJobStatus] saves has the records of the ledger it loaded, each at
    its place and with all its other properties. *)
Theorem poll_pass_writes_status_only (w : World) (file : string)
        (Hfile : jobsFile (storage w) = Some file) :
  exists jobs jobs',
    StorageManager.loadJobs parseLedger (storage w) (files w) = Ok jobs
    /\ snd (pollJobs jobs w) = Ok jobs'
    /\ saves (fst (getJobStatus w)) = (saves w ++ [jobs'])%list
    /\ files (fst (getJobStatus w)) !! file = Some (stringifyLedger jobs')
    /\ Forall2 sameButStatus jobs jobs'.
Proof.
  destruct (getJobStatus_run remoteExec JSON_parse parseLedger stringifyLedger
                             host w file Hfile)
    as (jobs & jobs' & Hload & Hpoll & _ & _ & Hsaves & Hfiles).
  destruct (pollJobs_sameButStatus jobs w) as (polled & Hpolled & Hsame).
  assert (polled = jobs') by congruence. subst polled.
  exists jobs, jobs'. repeat (split; [assumption|]). exact Hsame.
Qed.

Lemma executeCommand_world (command : string) (w : World) :
  calls (fst (executeCommand command w))
  = (calls w ++ [(Exec command, is_ok (snd (executeCommand command w)))])%list.
Proof.
  unfold ClusterManager.executeCommand.
  destruct (remoteExec command (remote w)); reflexivity.
Qed.

Lemma readStatusFile_calls (job : Job) (w : World) :
  exists ok,
    calls (fst (readStatusFile job w))
    = (calls w ++ [(Exec (catCommand job), ok)])%list.
Proof.
  unfold ClusterManager.readStatusFile, bind, ret, throw.
  pose proof (executeCommand_world (catCommand job) w) as Hc.
  destruct (executeCommand (catCommand job) w) as [w1 [content|e]];
    cbn [fst snd] in *; [|eauto].
  destruct (truthy content && truthy (trim content)); [|eauto].
  destruct (JSON_parse content) as [statusData|]; [|eauto].
  destruct (statusOf statusData) as [status|]; [|eauto].
  destruct (truthyValue status); [|eauto].
  destruct status as [v|]; [|eauto].
  destruct (isLiteral v) as [[|]|]; eauto.
Qed.

(** The loop body asks for the queue listing of the job and, at most, for
    its metadata file; it asks nothing about a job it skips. *)
Lemma pollJob_calls (job : Job) (w : World) :
  exists added,
    calls (fst (pollJob job w)) = (calls w ++ added)%list
    /\ length added <= (if isPolled job then 2 else 0)
    /\ Forall (isPollCommand job) added.
Proof.
  unfold ClusterManager.pollJob. destruct (isPolled job).
  2: { exists []. rewrite app_nil_r. repeat split; [simpl; lia | constructor]. }
  unfold tryCatch, bind, ret.
  pose proof (executeCommand_world (squeueCommand job) w) as Hc.
  destruct (executeCommand (squeueCommand job) w) as [w1 [stdout|e]];
    cbn [fst snd is_ok] in *.
  2: { eexists. split; [exact Hc|]. split; [simpl; lia|].
       constructor; [left; reflexivity | constructor]. }
  destruct (truthy (trim stdout)).
  { eexists. split; [exact Hc|]. split; [simpl; lia|].
    constructor; [left; reflexivity | constructor]. }
  destruct (readStatusFile_calls job w1) as (ok & Hr).
  exists [(Exec (squeueCommand job), true); (Exec (catCommand job), ok)].
  split.
  - destruct (readStatusFile job w1) as [w2 [job'|e]]; cbn [fst] in *;
      rewrite Hr, Hc, <- app_assoc; reflexivity.
  - split; [simpl; lia|].
    constructor; [left; reflexivity|].
    constructor; [right; reflexivity | constructor].
Qed.

(** X2. A poll pass sends queue listings and reads of metadata files, for jobs
    that are polled, at most two commands for each of them; it sends no other
    command and none for a job it skips. *)
Theorem poll_pass_commands (jobs : list Job) :
  forall w : World,
  exists added,
    calls (fst (pollJobs jobs w)) = (calls w ++ added)%list
    /\ length added <= 2 * length (List.filter isPolled jobs)
    /\ Forall (fun call => exists job, In job jobs /\ isPolled job = true
                                       /\ isPollCommand job call) added.
Proof.
  induction jobs as [|job rest IH]; intros w.
  - exists []. simpl. rewrite app_nil_r. repeat split; [lia | constructor].
  - cbn [ClusterManager.pollJobs]. unfold bind, ret.
    destruct (pollJob_calls job w) as (a1 & Hc1 & Hl1 & Hf1).
    destruct (pollJob_sameButStatus job w) as (job' & Hjob & _).
    destruct (pollJob job w) as [w1 o]. cbn [fst snd] in *. subst o.
    destruct (IH w1) as (a2 & Hc2 & Hl2 & Hf2).
    destruct (pollJobs_sameButStatus rest w1) as (rest' & Hrest & _).
    destruct (pollJobs rest w1) as [w2 o]. cbn [fst snd] in *. subst o.
    exists (a1 ++ a2)%list. cbn [fst snd].
    split; [rewrite Hc2, Hc1, app_assoc; reflexivity|].
    split.
    + rewrite length_app. cbn [List.filter].
      destruct (isPolled job); simpl in *; lia.
    + apply Forall_app. split.
      * destruct (isPolled job) eqn:Hp.
        -- eapply List.Forall_impl; [|exact Hf1]. intros call Hcall.
           exists job. split; [left; reflexivity | auto].
        -- destruct a1; [constructor | simpl in Hl1; lia].
      * eapply List.Forall_impl; [|exact Hf2].
        intros call (j & Hin & Hp & Hcall). exists j.
        split; [right; exact Hin | auto].
Qed.

End PollInvariants.

(** ** The scheduler id of a submission *)

Section SchedulerIdProperties.
Import JsString JsObject ClusterManager Notions.

Lemma prefix_append (a b : string) : String.prefix a (a ++ b) = true.
Proof.
  induction a as [|c a IH]; [destruct b; reflexivity|].
  rewrite append_cons. simpl String.prefix.
  destruct (Ascii.ascii_dec c c); [exact IH | contradiction].
Qed.

Lemma append_assoc (a b c : string) : ((a ++ b) ++ c = a ++ (b ++ c))%string.
Proof.
  induction a as [|x a IH]; [reflexivity|].
  change (String x a ++ b) with (String x (a ++ b)).
  change (String x (a ++ b) ++ c) with (String x ((a ++ b) ++ c)).
  rewrite IH. reflexivity.
Qed.

Lemma length_append (a b : string) :
  String.length (a ++ b) = (String.length a + String.length b)%nat.
Proof.
  induction a as [|c a IH]; [reflexivity|].
  rewrite append_cons. cbn [String.length]. rewrite IH. reflexivity.
Qed.

Lemma prefix_split (p s : string) :
  String.prefix p s = true -> exists rest, s = (p ++ rest)%string.
Proof.
  revert s. induction p as [|c p IH]; intros s H.
  - exists s. reflexivity.
  - destruct s as [|d s]; [discriminate H|]. simpl String.prefix in H.
    destruct (Ascii.ascii_dec c d) as [-> | _]; [|discriminate H].
    destruct (IH s H) as (rest & ->). exists rest. reflexivity.
Qed.

Lemma prefix_cons (a c : ascii) (p s : string) :
  String.prefix (String a p) (String c s)
  = if Ascii.eqb a c then String.prefix p s else false.
Proof.
  change (String.prefix (String a p) (String c s))
    with (if Ascii.ascii_dec a c then String.prefix p s else false).
  destruct (Ascii.ascii_dec a c) as [-> | Hne].
  - rewrite Ascii.eqb_refl. reflexivity.
  - destruct (Ascii.eqb_spec a c); [contradiction | reflexivity].
Qed.

Lemma includes_here (s sub : string) :
  startsWith s sub = true -> includes s sub = true.
Proof. intros H. destruct s; cbn [includes]; rewrite H; reflexivity. Qed.

Lemma includes_later (c : ascii) (s sub : string) :
  includes s sub = true -> includes (String c s) sub = true.
Proof. intros H. cbn [includes]. rewrite H. apply orb_true_r. Qed.

Lemma dropPrefix_append (p s rest : string) :
  dropPrefix p s = Some rest -> s = (p ++ rest)%string.
Proof.
  revert s. induction p as [|a p IH]; intros s H.
  - simpl in H. injection H as ->. reflexivity.
  - destruct s as [|b s]; [discriminate H|]. cbn [dropPrefix] in H.
    destruct (Ascii.eqb_spec a b) as [-> | Hne]; [|discriminate H].
    change (String b p ++ rest) with (String b (p ++ rest)).
    rewrite (IH s H). reflexivity.
Qed.

Lemma dropPrefix_here (p rest : string) : dropPrefix p (p ++ rest) = Some rest.
Proof.
  induction p as [|a p IH]; [destruct rest; reflexivity|].
  change (String a p ++ rest) with (String a (p ++ rest)).
  cbn [dropPrefix]. rewrite Ascii.eqb_refl. exact IH.
Qed.

Lemma dropPrefix_startsWith (p s : string) :
  startsWith s p = false -> dropPrefix p s = None.
Proof.
  unfold startsWith. revert s. induction p as [|a p IH]; intros s H.
  - destruct s; discriminate H.
  - destruct s as [|b s]; [reflexivity|]. cbn [String.prefix dropPrefix] in *.
    destruct (Ascii.ascii_dec a b) as [-> | Hne].
    + rewrite Ascii.eqb_refl. apply IH, H.
    + destruct (Ascii.eqb_spec a b); [contradiction | reflexivity].
Qed.

Lemma takeDigits_split (s : string) :
  exists tail, s = (takeDigits s ++ tail)%string
               /\ allDigits (takeDigits s) = true.
Proof.
  induction s as [|c s (tail & Hs & Hd)]; [exists ""; split; reflexivity|].
  cbn [takeDigits]. destruct (isDigit c) eqn:Hc.
  - exists tail. change (String c (takeDigits s) ++ tail)
      with (String c (takeDigits s ++ tail)).
    rewrite <- Hs. split; [reflexivity|]. cbn [allDigits]. rewrite Hc. exact Hd.
  - exists (String c s). split; reflexivity.
Qed.

Lemma takeDigits_all (digits rest : string) :
  allDigits digits = true -> noLeadingDigit rest = true ->
  takeDigits (digits ++ rest) = digits.
Proof.
  intros Hd Hr. induction digits as [|c digits IH].
  - destruct rest as [|c rest]; [reflexivity|]. cbn [noLeadingDigit] in Hr.
    change ("" ++ String c rest)%string with (String c rest).
    cbn [takeDigits]. destruct (isDigit c); [discriminate Hr | reflexivity].
  - cbn [allDigits] in Hd. apply andb_prop in Hd. destruct Hd as [Hc Hd].
    change (String c digits ++ rest) with (String c (digits ++ rest)).
    cbn [takeDigits]. rewrite Hc, (IH Hd). reflexivity.
Qed.

Lemma matchSubmitted_unfold (stdout : string) :
  matchSubmitted stdout
  = match submittedHere stdout with
    | Some digits => Some digits
    | None => match stdout with
              | String _ s' => matchSubmitted s'
              | EmptyString => None
              end
    end.
Proof. destruct stdout; reflexivity. Qed.

Lemma submittedHere_sound (stdout id : string) :
  submittedHere stdout = Some id ->
  id <> "" /\ allDigits id = true
  /\ startsWith stdout ("Submitted batch job " ++ id) = true.
Proof.
  unfold submittedHere. intros H.
  destruct (dropPrefix _ stdout) as [rest|] eqn:Hdrop; [|discriminate H].
  apply dropPrefix_append in Hdrop. subst stdout.
  destruct (takeDigits_split rest) as (tail & Hrest & Hdig).
  destruct (takeDigits rest) as [|c digits] eqn:Htake; [discriminate H|].
  injection H as <-. split; [discriminate|]. split; [exact Hdig|].
  rewrite Hrest, <- append_assoc. apply prefix_append.
Qed.

Lemma matchSubmitted_nonempty (stdout id : string) :
  matchSubmitted stdout = Some id -> id <> "".
Proof.
  induction stdout as [|c s IH]; rewrite matchSubmitted_unfold.
  - destruct (submittedHere "") eqn:Hh; [|discriminate].
    intros [= ->]. apply (submittedHere_sound _ _ Hh).
  - destruct (submittedHere (String c s)) eqn:Hh; [|exact IH].
    intros [= ->]. apply (submittedHere_sound _ _ Hh).
Qed.

Lemma matchSubmitted_absent (stdout : string) :
  includes stdout "Submitted batch job " = false ->
  matchSubmitted stdout = None.
Proof.
  induction stdout as [|c s IH]; intros H; rewrite matchSubmitted_unfold;
    cbn [includes] in H; apply orb_false_elim in H; destruct H as [Hh Ht];
    unfold submittedHere; rewrite (dropPrefix_startsWith _ _ Hh); auto.
Qed.

(** X3. The scheduler id that [submitJob] reads off the output of [sbatch] is
    a non-empty string of decimal digits that follows the words
    [Submitted batch job ] somewhere in that output. *)
Theorem matchSubmitted_sound (stdout id : string)
        (Hmatch : matchSubmitted stdout = Some id) :
  id <> "" /\ allDigits id = true
  /\ includes stdout ("Submitted batch job " ++ id) = true.
Proof.
  revert Hmatch.
  induction stdout as [|c s IH]; rewrite matchSubmitted_unfold.
  - destruct (submittedHere "") eqn:Hh; [|discriminate].
    intros [= ->]. destruct (submittedHere_sound _ _ Hh) as (? & ? & ?).
    auto using includes_here.
  - destruct (submittedHere (String c s)) eqn:Hh.
    + intros [= ->]. destruct (submittedHere_sound _ _ Hh) as (? & ? & ?).
      auto using includes_here.
    + intros H. destruct (IH H) as (? & ? & ?). auto using includes_later.
Qed.

(** X4. The answer of [sbatch], the words [Submitted batch job ] followed by
    the digits of the id and anything that does not start with a digit,
    gives back exactly those digits. *)
Theorem matchSubmitted_reads_sbatch (digits rest : string)
        (Hdigits : allDigits digits = true) (Hsome : digits <> "")
        (Hrest : noLeadingDigit rest = true) :
  matchSubmitted ("Submitted batch job " ++ digits ++ rest) = Some digits.
Proof.
  rewrite matchSubmitted_unfold. unfold submittedHere.
  rewrite dropPrefix_here, (takeDigits_all _ _ Hdigits Hrest).
  destruct digits; [contradiction | reflexivity].
Qed.

(** X5. Without the words [Submitted batch job ] in the output of [sbatch]
    there is no scheduler id, and the record that [submitJob] then writes
    is one that the polling loop never looks at; with an id the record is
    polled. *)
Theorem new_record_polled_iff_id (jobId stdout filePath remoteJobDir : string)
        (inputs : option (list string)) (config : JobConfig) :
  isPolled (newRecord jobId (matchSubmitted stdout) filePath inputs
                      remoteJobDir config)
  = match matchSubmitted stdout with Some _ => true | None => false end
  /\ (includes stdout "Submitted batch job " = false ->
      isPolled (newRecord jobId (matchSubmitted stdout) filePath inputs
                          remoteJobDir config) = false).
Proof.
  assert (Hfirst :
    isPolled (newRecord jobId (matchSubmitted stdout) filePath inputs
                        remoteJobDir config)
    = match matchSubmitted stdout with Some _ => true | None => false end).
  { destruct (matchSubmitted stdout) as [id|] eqn:Hm; [|reflexivity].
    pose proof (matchSubmitted_nonempty _ _ Hm) as Hne.
    destruct id; [contradiction | reflexivity]. }
  split; [exact Hfirst|]. intros Habs. rewrite Hfirst.
  rewrite (matchSubmitted_absent _ Habs). reflexivity.
Qed.

End SchedulerIdProperties.

(** ** The ledger operations of the storage manager *)

Section LedgerOperations.
Import JsString JsObject StorageManager.
Variable parseLedger : string -> option (list Job).
Variable stringifyLedger : list Job -> string.

Local Abbreviation initialize := (initialize stringifyLedger).
Local Abbreviation loadJobs := (loadJobs parseLedger).
Local Abbreviation saveJobs := (saveJobs stringifyLedger).
Local Abbreviation getJob := (getJob parseLedger).
Local Abbreviation updateJob := (updateJob parseLedger stringifyLedger).
Local Abbreviation deleteJob := (deleteJob parseLedger stringifyLedger).

Lemma hasId_unique (a b : string) (job : Job) :
  hasId a job = true -> hasId b job = true -> a = b.
Proof.
  unfold hasId, isString.
  destruct (getField "id" job) as [[| | |x| |]|]; try discriminate.
  intros Ha Hb. apply String.eqb_eq in Ha, Hb. congruence.
Qed.

Lemma find_filter_same (jobId : string) (jobs : list Job) :
  List.find (hasId jobId) (List.filter (fun j => negb (hasId jobId j)) jobs)
  = None.
Proof.
  induction jobs as [|job rest IH]; [reflexivity|]. cbn [List.filter].
  destruct (hasId jobId job) eqn:Hid; cbn [negb]; [exact IH|].
  cbn [List.find]. rewrite Hid. exact IH.
Qed.

Lemma find_filter_other (jobId other : string) (jobs : list Job) :
  other <> jobId ->
  List.find (hasId other) (List.filter (fun j => negb (hasId jobId j)) jobs)
  = List.find (hasId other) jobs.
Proof.
  intros Hne. induction jobs as [|job rest IH]; [reflexivity|].
  cbn [List.filter List.find].
  destruct (hasId jobId job) eqn:Hid; cbn [negb].
  - destruct (hasId other job) eqn:Hother; [|exact IH].
    destruct Hne. exact (hasId_unique _ _ _ Hother Hid).
  - cbn [List.find]. destruct (hasId other job); [reflexivity | exact IH].
Qed.

Lemma loadJobs_saved (sm : Storage) (files : Files) (file : string)
      (jobs : list Job) :
  jobsFile sm = Some file ->
  parseLedger (stringifyLedger jobs) = Some jobs ->
  loadJobs sm (<[file := stringifyLedger jobs]> files) = Ok jobs.
Proof.
  intros Hfile Hcodec. unfold StorageManager.loadJobs.
  rewrite Hfile, lookup_insert_eq, Hcodec. reflexivity.
Qed.

(** X6. After [deleteJob(id)] the ledger that is read back has no record with
    that id, and the lookup of every other id answers as before. *)
Theorem deleteJob_forgets_that_id (sm : Storage) (files : Files)
        (file jobId : string) (jobs : list Job)
        (Hfile : jobsFile sm = Some file)
        (Hload : loadJobs sm files = Ok jobs)
        (Hcodec :
           let kept := List.filter (fun j => negb (hasId jobId j)) jobs in
           parseLedger (stringifyLedger kept) = Some kept) :
  let after := fst (deleteJob sm files jobId) in
  snd (deleteJob sm files jobId) = Ok tt
  /\ getJob sm after jobId = Ok None
  /\ (forall other, other <> jobId -> getJob sm after other = getJob sm files other)
  /\ (forall p, p <> file -> after !! p = files !! p).
Proof.
  cbn zeta in *. unfold StorageManager.deleteJob, StorageManager.getJob.
  rewrite Hload. unfold StorageManager.saveJobs. rewrite Hfile. cbn [fst snd].
  rewrite (loadJobs_saved sm files file _ Hfile Hcodec). cbn [obind].
  split; [reflexivity|]. split; [rewrite find_filter_same; reflexivity|].
  split.
  - intros other Hne. rewrite (find_filter_other _ _ _ Hne). reflexivity.
  - intros p Hp. apply lookup_insert_ne. congruence.
Qed.

Lemma findIndex_spec (jobId : string) (jobs : list Job) (index : nat) :
  findIndex jobId jobs = Some index ->
  exists job, jobs !! index = Some job /\ hasId jobId job = true
              /\ List.find (hasId jobId) jobs = Some job
              /\ forall i other, (i < index)%nat -> jobs !! i = Some other ->
                                 hasId jobId other = false.
Proof.
  revert index. induction jobs as [|job rest IH]; intros index H;
    [discriminate H|].
  cbn [findIndex] in H. destruct (hasId jobId job) eqn:Hid.
  - injection H as <-. exists job. cbn [List.find]. rewrite Hid.
    repeat split; auto. intros i other Hi. lia.
  - destruct (findIndex jobId rest) as [i|] eqn:Hrest; [|discriminate H].
    injection H as <-. destruct (IH i eq_refl) as (found & Hlook & Hfound & Hfind & Hbefore).
    exists found. cbn [List.find]. rewrite Hid. repeat split; auto.
    intros [|k] other Hk Hother.
    + injection Hother as <-. exact Hid.
    + apply (Hbefore k other); [lia | exact Hother].
Qed.

Lemma findIndex_none (jobId : string) (jobs : list Job) :
  findIndex jobId jobs = None -> List.find (hasId jobId) jobs = None.
Proof.
  induction jobs as [|job rest IH]; [reflexivity|]. cbn [findIndex List.find].
  destruct (hasId jobId job); [discriminate|].
  destruct (findIndex jobId rest); [discriminate | auto].
Qed.

Lemma getField_spread (key : string) (job updates : Job) :
  getField key (spread job updates)
  = match getField key (rev updates) with
    | Some v => Some v
    | None => getField key job
    end.
Proof.
  unfold spread. revert job.
  induction updates as [|[k v] rest IH]; intros job; [reflexivity|].
  cbn [fold_left fst snd rev]. rewrite IH.
  assert (Happ : forall (a b : Job),
             getField key (a ++ b)%list
             = match getField key a with
               | Some x => Some x
               | None => getField key b
               end).
  { induction a as [|[k' v'] a IHa]; intros b; [reflexivity|].
    cbn [app getField]. destruct (String.eqb k' key); [reflexivity | apply IHa]. }
  rewrite Happ. destruct (getField key (rev rest)); [reflexivity|].
  cbn [getField]. destruct (String.eqb_spec k key) as [-> | Hne].
  - apply getField_setField_same.
  - apply getField_setField_other. exact Hne.
Qed.

Lemma getField_rev_none (key : string) (o : Job) :
  getField key o = None -> getField key (rev o) = None.
Proof.
  induction o as [|[k v] rest IH]; [reflexivity|]. cbn [getField rev].
  destruct (String.eqb k key) eqn:Hk; [discriminate|]. intros H.
  assert (Happ : forall (a b : Job),
             getField key a = None -> getField key (a ++ b)%list = getField key b).
  { induction a as [|[k' v'] a IHa]; intros b; [reflexivity|].
    cbn [app getField]. destruct (String.eqb k' key); [discriminate | apply IHa]. }
  rewrite (Happ _ _ (IH H)). cbn [getField]. rewrite Hk. reflexivity.
Qed.

Lemma find_insert_same (jobId : string) (jobs : list Job) (index : nat)
      (updated : Job) :
  findIndex jobId jobs = Some index -> hasId jobId updated = true ->
  List.find (hasId jobId) (<[index := updated]> jobs) = Some updated.
Proof.
  revert index. induction jobs as [|job rest IH]; intros index H Hup;
    [discriminate H|].
  cbn [findIndex] in H. destruct (hasId jobId job) eqn:Hid.
  - injection H as <-. cbn. rewrite Hup. reflexivity.
  - destruct (findIndex jobId rest) as [i|] eqn:Hrest; [|discriminate H].
    injection H as <-. cbn [list_insert insert]. simpl.
    rewrite Hid. apply IH; auto.
Qed.

Lemma find_insert_other (other : string) (jobs : list Job) (index : nat)
      (job updated : Job) :
  jobs !! index = Some job -> hasId other updated = hasId other job ->
  (hasId other job = true -> updated = job) ->
  List.find (hasId other) (<[index := updated]> jobs)
  = List.find (hasId other) jobs.
Proof.
  revert index. induction jobs as [|first rest IH]; intros index Hlook Hsame Heq;
    [discriminate Hlook|].
  destruct index as [|i]; simpl in *.
  - injection Hlook as ->. rewrite Hsame.
    destruct (hasId other job) eqn:Hid; [rewrite (Heq eq_refl)|]; reflexivity.
  - destruct (hasId other first); [reflexivity|]. apply IH; auto.
Qed.

(** X7. [updateJob(id, updates)], for updates that leave the [id] alone, merges
    them into the first record with that id and into no other: the record
    it returns has the updated properties and otherwise those of the old
    record, it is the one that [getJob(id)] finds afterwards when the
    ledger reads back as written, and the lookup of every other id answers
    as before. *)
Theorem updateJob_then_getJob (sm : Storage) (files : Files)
        (file jobId : string) (updates : Job) (jobs : list Job)
        (index : nat) (job : Job)
        (Hfile : jobsFile sm = Some file)
        (Hload : loadJobs sm files = Ok jobs)
        (Hindex : findIndex jobId jobs = Some index)
        (Hjob : jobs !! index = Some job)
        (Hid : getField "id" updates = None)
        (Hcodec :
           let written := <[index := spread job updates]> jobs in
           parseLedger (stringifyLedger written) = Some written) :
  let updated := spread job updates in
  let after := <[file := stringifyLedger (<[index := updated]> jobs)]> files in
  getJob sm files jobId = Ok (Some job)
  /\ updateJob sm files jobId updates = (after, Ok updated)
  /\ (forall key, getField key updated
                  = match getField key (rev updates) with
                    | Some v => Some v
                    | None => getField key job
                    end)
  /\ getJob sm after jobId = Ok (Some updated)
  /\ (forall other, other <> jobId ->
                    getJob sm after other = getJob sm files other).
Proof.
  cbn zeta in *.
  destruct (findIndex_spec _ _ _ Hindex) as (found & Hlook & Hhas & Hfind & _).
  assert (found = job) by congruence. subst found.
  assert (Hkeep : getField "id" (spread job updates) = getField "id" job).
  { rewrite getField_spread, (getField_rev_none _ _ Hid). reflexivity. }
  unfold StorageManager.updateJob, StorageManager.getJob.
  rewrite Hload, Hindex, Hlook. unfold StorageManager.saveJobs. rewrite Hfile.
  cbn [obind]. rewrite (loadJobs_saved sm files file _ Hfile Hcodec).
  cbn [obind]. rewrite Hfind. split; [reflexivity|]. split; [reflexivity|].
  split; [intros key; apply getField_spread|]. split.
  - rewrite (find_insert_same _ _ _ _ Hindex); [reflexivity|].
    unfold hasId. rewrite Hkeep. exact Hhas.
  - intros other Hne. f_equal.
    apply (find_insert_other other jobs index job); auto.
    + unfold hasId. rewrite Hkeep. reflexivity.
    + intros Hother. destruct Hne. exact (hasId_unique _ _ _ Hother Hhas).
Qed.




End LedgerOperations.

(** ** Details, completed jobs and unknown ids *)

Section DetailProperties.
Import JsString JsObject StorageManager ClusterManager Notions.
Context {Remote : Type}.
Variable remoteExec : string -> Remote -> Remote * outcome string.
Variable JSON_parse : string -> option JSON.
Variable parseLedger : string -> option (list Job).
Variable stringifyLedger : list Job -> string.
Variable host : Host.

Local Abbreviation World := (@World Remote).
Local Abbreviation executeCommand := (ClusterManager.executeCommand remoteExec).
Local Abbreviation pollJobs := (pollJobs remoteExec JSON_parse).
Local Abbreviation getJobStatus :=
  (getJobStatus remoteExec JSON_parse parseLedger stringifyLedger host).
Local Abbreviation getCompletedJobs :=
  (getCompletedJobs remoteExec JSON_parse parseLedger stringifyLedger host).
Local Abbreviation getJobDetails :=
  (getJobDetails remoteExec JSON_parse parseLedger stringifyLedger host).
Local Abbreviation cleanRemoteJob :=
  (cleanRemoteJob remoteExec parseLedger stringifyLedger host).
Local Abbreviation loadStatusData := (loadStatusData remoteExec JSON_parse).
Local Abbreviation loadLogs := (loadLogs remoteExec).

Lemma loadStatusData_run (job : Job) (w : World) :
  exists job1 ok,
    snd (loadStatusData job w) = Ok job1
    /\ calls (fst (loadStatusData job w))
       = (calls w ++ [(Exec (catCommand job), ok)])%list
    /\ saves (fst (loadStatusData job w)) = saves w
    /\ files (fst (loadStatusData job w)) = files w
    /\ storage (fst (loadStatusData job w)) = storage w
    /\ (forall key, key <> "statusData" -> getField key job1 = getField key job).
Proof.
  unfold ClusterManager.loadStatusData, tryCatch, bind, ret, throw.
  rewrite (executeCommand_run remoteExec).
  destruct (snd (remoteExec (catCommand job) (remote w))) as [stdout|e];
    cbn [is_ok]; [|exists job; eexists; repeat split].
  destruct (truthy stdout && truthy (trim stdout));
    [|exists job; eexists; repeat split].
  destruct (JSON_parse stdout) as [statusData|];
    [|exists job; eexists; repeat split].
  eexists; eexists; repeat split.
  intros key Hkey. apply getField_setField_other. congruence.
Qed.

Lemma loadLogs_run (job : Job) (w : World) :
  exists text ok,
    snd (loadLogs job w) = Ok (setField "logs" (JStr text) job)
    /\ calls (fst (loadLogs job w))
       = (calls w ++ [(Exec (logsCommand job), ok)])%list
    /\ saves (fst (loadLogs job w)) = saves w
    /\ files (fst (loadLogs job w)) = files w
    /\ truthy (trim text) = true
    /\ (ok = false -> text = "Unable to fetch logs")
    /\ (ok = true ->
        exists stdout,
          snd (remoteExec (logsCommand job) (remote w)) = Ok stdout
          /\ text = if truthy (trim stdout) then stdout
                    else "No SLURM logs available.").
Proof.
  unfold ClusterManager.loadLogs, tryCatch, bind, ret.
  rewrite (executeCommand_run remoteExec).
  destruct (snd (remoteExec (logsCommand job) (remote w))) as [stdout|e];
    cbn [is_ok].
  - destruct (truthy (trim stdout)) eqn:Hblank.
    + exists stdout, true. repeat split; auto; try discriminate.
      exists stdout. rewrite Hblank. auto.
    + exists "No SLURM logs available.", true.
      repeat split; auto; try discriminate.
      exists stdout. rewrite Hblank. auto.
  - exists "Unable to fetch logs", false. repeat split; auto; discriminate.
Qed.

Lemma logsCommand_remoteDir (job job1 : Job) :
  getField "remoteDir" job1 = getField "remoteDir" job ->
  logsCommand job1 = logsCommand job.
Proof. unfold logsCommand. intros ->. reflexivity. Qed.

(** X11. [getJobDetails] of a job of the ledger never throws and never writes:
    it sends the read of the metadata file and the read of the log, in
    that order and nothing else, whether they go through or not, saves no
    ledger and touches no file; the record it returns is the one of the
    ledger but for its snapshot and its log, and the log is never blank:
    it is the standard output, or a sentence that tells that there is no
    log or that it could not be fetched. *)
Theorem getJobDetails_reads_only (jobId file : string) (jobs : list Job)
        (job : Job) (w : World)
        (Hfile : jobsFile (storage w) = Some file)
        (Hload : StorageManager.loadJobs parseLedger (storage w) (files w) = Ok jobs)
        (Hfind : findJob jobId jobs = Some job) :
  exists details text catOk tailOk,
    snd (getJobDetails jobId w) = Ok details
    /\ calls (fst (getJobDetails jobId w))
       = (calls w ++ [(Exec (catCommand job), catOk);
                      (Exec (logsCommand job), tailOk)])%list
    /\ saves (fst (getJobDetails jobId w)) = saves w
    /\ files (fst (getJobDetails jobId w)) = files w
    /\ (forall key, key <> "statusData" -> key <> "logs" ->
                    getField key details = getField key job)
    /\ getField "logs" details = Some (JStr text)
    /\ truthy (trim text) = true
    /\ (tailOk = false -> text = "Unable to fetch logs").
Proof.
  unfold ClusterManager.getJobDetails, bind, throw.
  rewrite (ensureStorage_initialised stringifyLedger host w file Hfile).
  unfold ClusterManager.loadJobs. rewrite Hload, Hfind.
  destruct (loadStatusData_run job w)
    as (job1 & catOk & Hres1 & Hcalls1 & Hsaves1 & Hfiles1 & _ & Hkeep1).
  destruct (loadStatusData job w) as [w1 o]. cbn [fst snd] in *. subst o.
  destruct (loadLogs_run job1 w1)
    as (text & tailOk & Hres2 & Hcalls2 & Hsaves2 & Hfiles2 & Htext & Hfail & _).
  exists (setField "logs" (JStr text) job1), text, catOk, tailOk.
  split; [exact Hres2|]. split.
  { rewrite Hcalls2, Hcalls1, <- app_assoc.
    rewrite (logsCommand_remoteDir job job1); [reflexivity|].
    apply Hkeep1. discriminate. }
  split; [congruence|]. split; [congruence|]. split.
  { intros key H1 H2. rewrite getField_setField_other by congruence.
    apply Hkeep1, H1. }
  split; [apply getField_setField_same|]. split; assumption.
Qed.

(** X12. An id that is not in the ledger is refused before anything is sent:
    [getJobDetails] and [cleanRemoteJob] throw the same error, issue no
    remote call and leave the files and the ledger as they are. *)
Theorem unknown_job_is_refused_locally (jobId file : string) (jobs : list Job)
        (w : World)
        (Hfile : jobsFile (storage w) = Some file)
        (Hload : StorageManager.loadJobs parseLedger (storage w) (files w) = Ok jobs)
        (Hfind : findJob jobId jobs = None) :
  getJobDetails jobId w = (w, Throw ("Job " ++ jobId ++ " not found"))
  /\ cleanRemoteJob jobId w = (w, Throw ("Job " ++ jobId ++ " not found")).
Proof.
  unfold ClusterManager.getJobDetails, ClusterManager.cleanRemoteJob, bind, throw.
  rewrite (ensureStorage_initialised stringifyLedger host w file Hfile).
  unfold ClusterManager.loadJobs. rewrite Hload, Hfind. split; reflexivity.
Qed.

Lemma filter_completed_active (jobs : list Job) :
  forall job,
    In job (List.filter (fun j => isString (getField "status" j) "COMPLETED") jobs) ->
    ~ In job (List.filter isActive jobs).
Proof.
  intros job Hin Hact. apply filter_In in Hin, Hact.
  destruct Hin as [_ Hc]. destruct Hact as [_ Ha]. unfold isActive in Ha.
  rewrite Hc in Ha. discriminate Ha.
Qed.

Lemma getJobStatus_storage (w : World) (file : string) :
  jobsFile (storage w) = Some file ->
  storage (fst (getJobStatus w)) = storage w.
Proof.
  intros Hfile. unfold ClusterManager.getJobStatus, bind, ret.
  rewrite (ensureStorage_initialised stringifyLedger host w file Hfile).
  destruct (ClusterManager.loadJobs parseLedger w) as [w0 [jobs|e]] eqn:Hload;
    unfold ClusterManager.loadJobs in Hload; injection Hload as <- Hload;
    [|reflexivity].
  destruct (pollJobs_returns remoteExec JSON_parse jobs w)
    as (jobs1 & Hpoll1 & _ & Hs & _).
  destruct (pollJobs jobs w) as [w1 o]. cbn [fst snd] in *. subst o.
  unfold ClusterManager.saveJobs.
  destruct (StorageManager.saveJobs stringifyLedger (storage w1) (files w1) jobs1)
    as [fs [[]|e]]; cbn; exact Hs.
Qed.

(** X13. [getCompletedJobs] polls once and answers from the ledger it reads
    back: when the saved ledger reads back as it was written, the answer is
    the records of the polled ledger whose status is COMPLETED, in the
    order of the ledger; none of them is in the list of active jobs that
    the poll itself answers, and the world is the one the poll leaves. *)
Theorem getCompletedJobs_of_polled_ledger (file : string) (jobs jobs' : list Job)
        (w : World)
        (Hfile : jobsFile (storage w) = Some file)
        (Hload : StorageManager.loadJobs parseLedger (storage w) (files w) = Ok jobs)
        (Hpoll : snd (pollJobs jobs w) = Ok jobs')
        (Hcodec : parseLedger (stringifyLedger jobs') = Some jobs') :
  let completed :=
    List.filter (fun j => isString (getField "status" j) "COMPLETED") jobs' in
  getCompletedJobs w = (fst (getJobStatus w), Ok completed)
  /\ snd (getJobStatus w) = Ok (List.filter isActive jobs')
  /\ (forall job, In job completed -> ~ In job (List.filter isActive jobs'))
  /\ (forall i job, jobs !! i = Some job ->
                    getField "status" job = Some (JStr "COMPLETED") ->
                    In job completed).
Proof.
  intros completed.
  destruct (getJobStatus_run remoteExec JSON_parse parseLedger stringifyLedger
                             host w file Hfile)
    as (jobs0 & jobs0' & Hload0 & Hpoll0 & Hlen & Hres & Hsaves & Hfiles).
  assert (jobs0 = jobs) by congruence. subst jobs0.
  assert (jobs0' = jobs') by congruence. subst jobs0'.
  pose proof (getJobStatus_storage w file Hfile) as Hstorage.
  split; [|split; [exact Hres|split]].
  - unfold ClusterManager.getCompletedJobs, bind, ret.
    rewrite (ensureStorage_initialised stringifyLedger host w file Hfile).
    destruct (getJobStatus w) as [w1 o]. cbn [fst snd] in *. subst o.
    unfold ClusterManager.loadJobs, StorageManager.loadJobs.
    rewrite Hstorage, Hfile, Hfiles, Hcodec. reflexivity.
  - apply filter_completed_active.
  - intros i job Hi Hstatus. apply filter_In. split.
    + apply (list_elem_of_In jobs' job). apply (list_elem_of_lookup_2 _ i).
      apply (pollJobs_keeps_skipped remoteExec JSON_parse jobs w jobs' Hpoll i job Hi).
      unfold isPolled. unfold isString at 1. rewrite Hstatus.
      cbn. rewrite andb_false_r. reflexivity.
    + unfold isString. rewrite Hstatus. reflexivity.
Qed.

(** X14. A ledger file that cannot be parsed is taken for an empty ledger, and
    the next poll writes that empty ledger over it: nothing is asked of
    the cluster, no job is reported, and what the file held is gone. *)
Theorem poll_overwrites_unreadable_ledger (file content : string) (w : World)
        (Hfile : jobsFile (storage w) = Some file)
        (Hthere : files w !! file = Some content)
        (Hbroken : parseLedger content = None) :
  snd (getJobStatus w) = Ok []
  /\ calls (fst (getJobStatus w)) = calls w
  /\ saves (fst (getJobStatus w)) = (saves w ++ [[]])%list
  /\ files (fst (getJobStatus w)) = <[file := stringifyLedger []]> (files w).
Proof.
  unfold ClusterManager.getJobStatus, bind, ret.
  rewrite (ensureStorage_initialised stringifyLedger host w file Hfile).
  unfold ClusterManager.loadJobs, StorageManager.loadJobs.
  rewrite Hfile, Hthere, Hbroken. cbn [ClusterManager.pollJobs]. unfold ret.
  unfold ClusterManager.saveJobs, StorageManager.saveJobs. rewrite Hfile.
  cbn. auto.
Qed.

End DetailProperties.

(** ** What a failed submission leaves behind *)

Section SubmissionTraces.
Import JsString JsObject ConfigManager StorageManager ClusterManager Notions.
Context {Remote : Type}.
Variable remoteExec : string -> Remote -> Remote * outcome string.
Variable remoteUpload : string -> string -> Remote -> Remote * outcome unit.
Variable parseLedger : string -> option (list Job).
Variable stringifyLedger : list Job -> string.
Variable host : Host.
Variable clusterInfo : ClusterInfo.

Local Abbreviation World := (@World Remote).
Local Abbreviation submitJob :=
  (submitJob remoteExec remoteUpload parseLedger stringifyLedger host clusterInfo).
Local Abbreviation uploadInputs := (ClusterManager.uploadInputs remoteUpload).

Lemma uploadInputs_trace (remoteJobDir : string) (inputs : list string) :
  forall w : World,
  exists added,
    calls (fst (uploadInputs remoteJobDir inputs w)) = (calls w ++ added)%list
    /\ saves (fst (uploadInputs remoteJobDir inputs w)) = saves w
    /\ storage (fst (uploadInputs remoteJobDir inputs w)) = storage w
    /\ files (fst (uploadInputs remoteJobDir inputs w)) = files w
    /\ (length added <= length inputs)%nat
    /\ Forall (isStagingCall remoteJobDir) added
    /\ match snd (uploadInputs remoteJobDir inputs w) with
       | Ok _ =>
           added = map (fun f => (Upload f (remoteJobDir ++ "/" ++ PosixPath.basename f),
                                  true)) inputs
       | Throw _ => someCallFailed added
       end.
Proof.
  induction inputs as [|f rest IH]; intros w.
  - exists []. simpl. rewrite app_nil_r. repeat split; auto.
  - simpl. unfold bind. rewrite (uploadFile_run remoteUpload).
    destruct (snd (remoteUpload f _ (remote w))) as [[]|e] eqn:Hup.
    + match goal with
      | |- context [uploadInputs remoteJobDir rest ?w1] =>
          destruct (IH w1) as (added & Hc & Hs & Hst & Hf & Hlen & Hkind & Hres)
      end.
      exists ((Upload f (remoteJobDir ++ "/" ++ PosixPath.basename f), true) :: added).
      rewrite Hc, Hs, Hst, Hf. simpl. rewrite <- app_assoc. simpl.
      repeat (split; [reflexivity|]). split; [lia|].
      split; [constructor; [exact I | exact Hkind]|].
      destruct (snd (uploadInputs remoteJobDir rest _)).
      * rewrite Hres. reflexivity.
      * destruct Hres as (c & Hin). exists c. right. exact Hin.
    + exists [(Upload f (remoteJobDir ++ "/" ++ PosixPath.basename f), false)].
      simpl. repeat (split; [reflexivity|]). split; [lia|].
      split; [constructor; [exact I | constructor]|].
      eexists. left. reflexivity.
Qed.

(** The five ways a submission on an initialised storage can go. *)
Lemma submitJob_walk (filePath : string) (inputs : option (list string))
      (jobConfig : JobConfig) (now submittedAt : Z) (w : World) (file : string) :
  jobsFile (storage w) = Some file ->
  let after := submitJob filePath inputs jobConfig now submittedAt w in
  let jobId := generateJobId now in
  let remoteJobDir := jobsDir clusterInfo ++ "/" ++ jobId in
  let config :=
    stamped jobConfig jobId (PosixPath.basename filePath)
            (JsDate.toISOString submittedAt) (default [] inputs) in
  let localScriptPath := pathJoin [tmpdir host; "job_" ++ jobId ++ ".sbatch"] in
  let staging := stagingCalls filePath (default [] inputs) remoteJobDir in
  let scriptUpload := Upload localScriptPath (remoteJobDir ++ "/job.sbatch") in
  let sbatch := Exec ("cd " ++ remoteJobDir ++ " && sbatch job.sbatch") in
  exists added,
    calls (fst after) = (calls w ++ added)%list
    /\ ((is_ok (snd after) = false /\ someCallFailed added
         /\ (length added <= length staging)%nat
         /\ Forall (isStagingCall remoteJobDir) added
         /\ files (fst after) = files w)
        \/ (exists e,
              ScriptBuilder.buildScript config clusterInfo = Throw e
              /\ snd after = Throw e /\ added = staging
              /\ files (fst after) = files w)
        \/ (exists script e,
              ScriptBuilder.buildScript config clusterInfo = Ok script
              /\ snd after = Throw e
              /\ added = (staging ++ [(scriptUpload, false)])%list
              /\ files (fst after) = <[localScriptPath := script]> (files w))
        \/ (exists script e,
              ScriptBuilder.buildScript config clusterInfo = Ok script
              /\ snd after = Throw e
              /\ added = (staging ++ [(scriptUpload, true); (sbatch, false)])%list
              /\ files (fst after)
                 = delete localScriptPath (<[localScriptPath := script]> (files w)))
        \/ (exists script jobs stdout,
              ScriptBuilder.buildScript config clusterInfo = Ok script
              /\ snd after = Ok (jobId, matchSubmitted stdout)
              /\ added = (staging ++ [(scriptUpload, true); (sbatch, true)])%list
              /\ files (fst after)
                 = <[file := stringifyLedger
                               (jobs ++ [newRecord jobId (matchSubmitted stdout)
                                                   filePath inputs remoteJobDir
                                                   config])%list]>
                     (delete localScriptPath
                             (<[localScriptPath := script]> (files w))))).
Proof.
  intros Hfile after jobId remoteJobDir config localScriptPath staging
         scriptUpload sbatch.
  subst after. unfold ClusterManager.submitJob, bind, lift, ret.
  fold jobId. fold remoteJobDir. fold config. fold localScriptPath.
  rewrite (ensureStorage_initialised stringifyLedger host w file Hfile).
  rewrite (executeCommand_run remoteExec).
  destruct (snd (remoteExec ("mkdir -p " ++ remoteJobDir) (remote w))) as [out1|e1].
  2: { eexists. cbn [fst snd calls files is_ok]. split; [reflexivity|]. left.
       split; [reflexivity|]. split; [eexists; left; reflexivity|].
       split; [unfold staging, stagingCalls; simpl; lia|].
       split; [constructor; [reflexivity | constructor] | reflexivity]. }
  rewrite (uploadFile_run remoteUpload). cbn [remote is_ok].
  destruct (snd (remoteUpload filePath _ _)) as [[]|e2].
  2: { eexists. cbn [fst snd calls files is_ok]. rewrite <- app_assoc.
       split; [reflexivity|]. left.
       split; [reflexivity|]. split; [eexists; right; left; reflexivity|].
       split; [unfold staging, stagingCalls; simpl; lia|].
       split; [|reflexivity].
       constructor; [reflexivity | constructor; [exact I | constructor]]. }
  match goal with
  | |- context [uploadInputs remoteJobDir (default [] inputs) ?w2] =>
      destruct (uploadInputs_trace remoteJobDir (default [] inputs) w2)
        as (added3 & Hc3 & Hs3 & Hst3 & Hf3 & Hlen3 & Hkind3 & Hres3);
      destruct (uploadInputs remoteJobDir (default [] inputs) w2) as [w3 [[]|e3]]
  end; cbn [fst snd calls saves storage files is_ok] in *.
  2: { exists ([(Exec ("mkdir -p " ++ remoteJobDir), true);
                (Upload filePath (remoteJobDir ++ "/" ++ PosixPath.basename filePath), true)]
               ++ added3)%list.
       rewrite Hc3, Hf3, <- !app_assoc.
       split; [reflexivity|]. left. split; [reflexivity|]. split.
       { destruct Hres3 as (c & Hin). exists c. right. right. exact Hin. }
       split.
       { unfold staging, stagingCalls. rewrite !length_app, length_map.
         simpl. lia. }
       split; [|reflexivity].
       constructor; [reflexivity | constructor; [exact I | exact Hkind3]]. }
  assert (Hstaging : (calls w3 = calls w ++ staging)%list).
  { rewrite Hc3, Hres3, <- !app_assoc. reflexivity. }
  destruct (ScriptBuilder.buildScript config clusterInfo) as [script|e4] eqn:Hscript.
  2: { exists staging. cbn [fst snd]. split; [exact Hstaging|].
       right. left. exists e4. auto. }
  unfold ClusterManager.writeFileSync. rewrite (uploadFile_run remoteUpload).
  cbn [remote storage files calls saves is_ok].
  destruct (snd (remoteUpload localScriptPath _ _)) as [[]|e5].
  2: { exists (staging ++ [(scriptUpload, false)])%list.
       cbn [fst snd calls files is_ok]. rewrite Hstaging, Hf3, <- app_assoc.
       split; [reflexivity|]. right. right. left. exists script, e5. auto. }
  unfold ClusterManager.unlinkSync. rewrite (executeCommand_run remoteExec).
  cbn [remote storage files calls saves is_ok].
  destruct (snd (remoteExec ("cd " ++ remoteJobDir ++ " && sbatch job.sbatch") _))
    as [stdout|e6].
  2: { exists (staging ++ [(scriptUpload, true); (sbatch, false)])%list.
       cbn [fst snd calls files is_ok]. rewrite Hstaging, Hf3, <- !app_assoc.
       split; [reflexivity|]. right. right. right. left. exists script, e6. auto. }
  unfold ClusterManager.loadJobs, ClusterManager.saveJobs.
  cbn [remote storage files calls saves is_ok].
  rewrite Hst3. cbn [storage].
  match goal with
  | |- context [StorageManager.loadJobs parseLedger (storage w) ?fs] =>
      destruct (proj1 (loadJobs_never_throws_aux parseLedger (storage w) fs file Hfile))
        as (jobs & Hload); rewrite Hload
  end.
  unfold StorageManager.saveJobs. rewrite Hfile.
  cbn [fst snd remote storage files calls saves is_ok].
  exists (staging ++ [(scriptUpload, true); (sbatch, true)])%list.
  rewrite Hstaging, Hf3, <- !app_assoc. split; [reflexivity|].
  right. right. right. right. exists script, jobs, stdout. auto.
Qed.

Lemma staging_all_returned (filePath : string) (inputs : list string)
      (remoteJobDir : string) :
  ~ someCallFailed (stagingCalls filePath inputs remoteJobDir).
Proof.
  intros (c & Hin). unfold stagingCalls in Hin.
  apply in_app_or in Hin. destruct Hin as [Hin|Hin].
  - simpl in Hin. destruct Hin as [H | [H | []]]; discriminate H.
  - apply in_map_iff in Hin. destruct Hin as (f & H & _). discriminate H.
Qed.

(** X15. A recipe that the script builder rejects is found out only after the
    remote directory is made and the files are uploaded: the submission
    throws, and what it sent before is the directory and uploads, never the
    scheduler submission and never a removal. When all of these calls
    returned they are the whole staging, the error is the builder's, and
    nothing was written locally: no ledger and no file. *)
Theorem submitJob_rejected_recipe_after_uploads
        (filePath : string) (inputs : option (list string))
        (jobConfig : JobConfig) (now submittedAt : Z) (w : World)
        (file e : string)
        (Hfile : jobsFile (storage w) = Some file)
        (Hrejected :
           ScriptBuilder.buildScript
             (stamped jobConfig (generateJobId now) (PosixPath.basename filePath)
                      (JsDate.toISOString submittedAt) (default [] inputs))
             clusterInfo = Throw e) :
  let after := submitJob filePath inputs jobConfig now submittedAt w in
  let remoteJobDir := jobsDir clusterInfo ++ "/" ++ generateJobId now in
  exists added,
    calls (fst after) = (calls w ++ added)%list
    /\ is_ok (snd after) = false
    /\ Forall (isStagingCall remoteJobDir) added
    /\ files (fst after) = files w
    /\ saves (fst after) = saves w
    /\ (~ someCallFailed added ->
        added = stagingCalls filePath (default [] inputs) remoteJobDir
        /\ snd after = Throw e).
Proof.
  intros after remoteJobDir.
  destruct (submitJob_walk filePath inputs jobConfig now submittedAt w file Hfile)
    as (added & Hcalls & Hcases).
  destruct (submitJob_cases remoteExec remoteUpload parseLedger stringifyLedger
                            host clusterInfo filePath inputs jobConfig now
                            submittedAt w)
    as (added' & Hcalls' & Hcases').
  cbn zeta in *. fold after remoteJobDir in Hcalls, Hcases, Hcalls', Hcases'.
  rewrite Hrejected in Hcases.
  assert (Hsaves : is_ok (snd after) = false -> saves (fst after) = saves w).
  { intros Hfail.
    destruct Hcases' as [(_ & Hs & _) | (jobs & stdout & script & _ & _ & Hres & _)];
      [exact Hs|]. rewrite Hres in Hfail. discriminate Hfail. }
  exists added. split; [exact Hcalls|].
  destruct Hcases as [(Hfail & Hsome & Hlen & Hkind & Hfiles)
                     |[(e' & Hb & Hres & Hadded & Hfiles)
                      |[(script & e' & Hb & _)
                       |[(script & e' & Hb & _)
                        |(script & jobs & stdout & Hb & _)]]]];
    try discriminate Hb.
  - split; [exact Hfail|]. split; [exact Hkind|]. split; [exact Hfiles|].
    split; [exact (Hsaves Hfail)|]. intros Hnone. contradiction.
  - injection Hb as <-. rewrite Hres. cbn [is_ok].
    split; [reflexivity|]. split.
    { rewrite Hadded. unfold stagingCalls. apply Forall_app. split.
      - constructor; [reflexivity | constructor; [exact I | constructor]].
      - apply Forall_map. apply Forall_forall. intros f _. exact I. }
    split; [exact Hfiles|]. split; [apply Hsaves; rewrite Hres; reflexivity|].
    intros _. auto.
Qed.

(** X16. The generated script is written to the temporary directory before it
    is uploaded and removed after: a submission that stops at the refused
    upload of the script leaves it there, and one that gets past that
    upload leaves no file at that path, whether the scheduler then takes
    the job or not; a submission that succeeds got past it. *)
Theorem submitJob_temporary_script
        (filePath : string) (inputs : option (list string))
        (jobConfig : JobConfig) (now submittedAt : Z) (w : World)
        (file script : string)
        (Hfile : jobsFile (storage w) = Some file)
        (Hbuilt :
           ScriptBuilder.buildScript
             (stamped jobConfig (generateJobId now) (PosixPath.basename filePath)
                      (JsDate.toISOString submittedAt) (default [] inputs))
             clusterInfo = Ok script) :
  let after := submitJob filePath inputs jobConfig now submittedAt w in
  let remoteJobDir := jobsDir clusterInfo ++ "/" ++ generateJobId now in
  let localScriptPath :=
    pathJoin [tmpdir host; "job_" ++ generateJobId now ++ ".sbatch"] in
  let staging := stagingCalls filePath (default [] inputs) remoteJobDir in
  let scriptUpload := Upload localScriptPath (remoteJobDir ++ "/job.sbatch") in
  let sbatch := Exec ("cd " ++ remoteJobDir ++ " && sbatch job.sbatch") in
  exists added,
    calls (fst after) = (calls w ++ added)%list
    /\ (added = (staging ++ [(scriptUpload, false)])%list ->
        is_ok (snd after) = false
        /\ files (fst after) = <[localScriptPath := script]> (files w))
    /\ (forall taken,
          added = (staging ++ [(scriptUpload, true); (sbatch, taken)])%list ->
          localScriptPath <> file ->
          files (fst after) !! localScriptPath = None)
    /\ (is_ok (snd after) = true ->
        added = (staging ++ [(scriptUpload, true); (sbatch, true)])%list).
Proof.
  intros after remoteJobDir localScriptPath staging scriptUpload sbatch.
  destruct (submitJob_walk filePath inputs jobConfig now submittedAt w file Hfile)
    as (added & Hcalls & Hcases).
  cbn zeta in *.
  fold after remoteJobDir localScriptPath staging scriptUpload sbatch
    in Hcalls, Hcases.
  rewrite Hbuilt in Hcases. exists added. split; [exact Hcalls|].
  destruct Hcases as [(Hfail & Hsome & Hlen & Hkind & Hfiles)
                     |[(e' & Hb & _)
                      |[(script' & e' & Hb & Hres & Hadded & Hfiles)
                       |[(script' & e' & Hb & Hres & Hadded & Hfiles)
                        |(script' & jobs & stdout & Hb & Hres & Hadded & Hfiles)]]]];
    try discriminate Hb; try (injection Hb as <-).
  - split; [|split].
    + intros Heq. rewrite Heq, length_app in Hlen. simpl in Hlen. lia.
    + intros taken Heq. rewrite Heq, length_app in Hlen. simpl in Hlen. lia.
    + rewrite Hfail. discriminate.
  - rewrite Hres, Hadded. cbn [is_ok]. split; [auto|]. split.
    + intros taken Heq. apply app_inv_head in Heq. discriminate Heq.
    + discriminate.
  - rewrite Hres, Hadded. cbn [is_ok]. split; [|split].
    + intros Heq. apply app_inv_head in Heq. discriminate Heq.
    + intros taken _ _. rewrite Hfiles. apply lookup_delete_eq.
    + discriminate.
  - rewrite Hres, Hadded. cbn [is_ok]. split; [|split].
    + intros Heq. apply app_inv_head in Heq. discriminate Heq.
    + intros taken _ Hne. rewrite Hfiles, lookup_insert_ne by congruence.
      apply lookup_delete_eq.
    + intros _. reflexivity.
Qed.

End SubmissionTraces.

(** ** The state and the schedule of an acquisition *)

Section AcquisitionProperties.
Import JsString ConnectionManager Notions.
Context {Conn : Type}.
Variable establishConnection : nat -> outcome Conn.
Variables clusterHost sshPort : string.

Local Abbreviation connectWithRetry :=
  (connectWithRetry establishConnection clusterHost sshPort).

Lemma enrichError_prefix (message : string) :
  String.prefix (or_else message "Connection failed")
                (enrichError clusterHost sshPort (Some message)) = true.
Proof.
  unfold enrichError.
  set (base := or_else message "Connection failed").
  assert (Hself : String.prefix base base = true).
  { clear. induction base as [|c s IH]; [reflexivity|].
    simpl String.prefix. destruct (Ascii.ascii_dec c c); [exact IH | contradiction]. }
  repeat match goal with
         | |- context [if ?b then _ else _] => destruct b
         end; try exact Hself; apply prefix_append.
Qed.

(** The walk of the three iterations of the loop. *)
Lemma connectWithRetry_walk (st : @State Conn) :
  let result := connectWithRetry st in
  exists (k : nat) (added : list Event),
    (k < 3)%nat
    /\ events (fst result) = (events st ++ added)%list
    /\ added = firstn (2 * k + 1) fullSchedule
    /\ isConnecting (fst result) = false
    /\ match snd result with
       | Ok conn =>
           establishConnection k = Ok conn
           /\ connection (fst result) = Some conn
           /\ connectionAttempts (fst result) = 0%nat
       | Throw e =>
           connection (fst result) = connection st
           /\ connectionAttempts (fst result) = (k + 1)%nat
           /\ exists message,
                establishConnection k = Throw message
                /\ e = enrichError clusterHost sshPort (Some message)
                /\ (isAuthenticationError message = true \/ k = 2%nat)
       end.
Proof.
  unfold ConnectionManager.connectWithRetry, maxRetries. cbn zeta.
  cbn [retryLoop].
  destruct (establishConnection 0) as [c0|m0] eqn:E0.
  { exists 0%nat, [Handshake 0]. cbn. repeat split; auto. }
  destruct (isAuthenticationError m0) eqn:A0.
  { exists 0%nat, [Handshake 0]. cbn. repeat split; eauto. }
  cbn [events connection connectionAttempts Nat.add Nat.ltb Nat.leb Nat.sub maxRetries].
  destruct (establishConnection 1) as [c1|m1] eqn:E1.
  { exists 1%nat, [Handshake 0; Backoff 0 2000; Handshake 1]. cbn.
    rewrite <- !app_assoc. repeat split; auto. }
  destruct (isAuthenticationError m1) eqn:A1.
  { exists 1%nat, [Handshake 0; Backoff 0 2000; Handshake 1]. cbn.
    rewrite <- !app_assoc. repeat split; eauto. }
  cbn [events connection connectionAttempts Nat.add Nat.ltb Nat.leb Nat.sub maxRetries].
  destruct (establishConnection 2) as [c2|m2] eqn:E2.
  { exists 2%nat, fullSchedule. cbn. rewrite <- !app_assoc.
    repeat split; auto. }
  destruct (isAuthenticationError m2) eqn:A2.
  { exists 2%nat, fullSchedule. cbn. rewrite <- !app_assoc.
    repeat split; eauto. }
  exists 2%nat, fullSchedule. cbn. rewrite <- !app_assoc.
  repeat split; eauto.
Qed.

Lemma last_schedule (k : nat) (before : list Event) :
  (k < 3)%nat ->
  last (before ++ firstn (2 * k + 1) fullSchedule)%list = Some (Handshake k).
Proof.
  intros Hk.
  assert (Hcases : (k = 0 \/ k = 1 \/ k = 2)%nat) by lia.
  destruct Hcases as [-> | [-> | ->]]; cbn [firstn Nat.mul Nat.add fullSchedule].
  - apply last_snoc.
  - change [Handshake 0; Backoff 0 2000; Handshake 1]
      with ([Handshake 0; Backoff 0 2000] ++ [Handshake 1])%list.
    rewrite app_assoc. apply last_snoc.
  - change [Handshake 0; Backoff 0 2000; Handshake 1; Backoff 1 4000; Handshake 2]
      with ([Handshake 0; Backoff 0 2000; Handshake 1; Backoff 1 4000]
              ++ [Handshake 2])%list.
    rewrite app_assoc. apply last_snoc.
Qed.

(** X17. However an acquisition ends, the manager is no longer connecting. When
    it succeeds the session is stored and the attempt counter is back at
    zero; when it fails the stored session is the one from before and the
    counter holds the number of the attempt that failed last. *)
Theorem connectWithRetry_settles_state (st : @State Conn) :
  let result := connectWithRetry st in
  isConnecting (fst result) = false
  /\ match snd result with
     | Ok conn =>
         connection (fst result) = Some conn
         /\ connectionAttempts (fst result) = 0%nat
     | Throw _ =>
         connection (fst result) = connection st
         /\ connectionAttempts (fst result) = handshakesOf st (fst result)
         /\ (1 <= connectionAttempts (fst result) <= 3)%nat
     end.
Proof.
  destruct (connectWithRetry_walk st) as (k & added & Hk & Hev & Hadded & Hc & Hres).
  cbn zeta in *. split; [exact Hc|].
  destruct (snd (connectWithRetry st)) as [conn|e].
  - destruct Hres as (_ & H1 & H2). auto.
  - destruct Hres as (H1 & H2 & _). split; [exact H1|].
    rewrite (handshakesOf_added _ _ added Hev), H2, Hadded.
    split; [|lia].
    assert (Hcases : (k = 0 \/ k = 1 \/ k = 2)%nat) by lia.
    destruct Hcases as [-> | [-> | ->]]; reflexivity.
Qed.

(** X18. The pauses of an acquisition: what it does is a start of the schedule
    handshake, two seconds, handshake, four seconds, handshake (delays
    before jitter) that stops at a handshake, so there is a pause between
    two attempts and never one after the last attempt or after a success;
    it stops early only at a success or at an authentication error. *)
Theorem connectWithRetry_schedule (st : @State Conn) :
  let result := connectWithRetry st in
  exists k,
    (k < 3)%nat
    /\ events (fst result) = (events st ++ firstn (2 * k + 1) fullSchedule)%list
    /\ last (events (fst result)) = Some (Handshake k)
    /\ ((k < 2)%nat ->
        is_ok (establishConnection k) = true
        \/ exists message, establishConnection k = Throw message
                           /\ isAuthenticationError message = true).
Proof.
  destruct (connectWithRetry_walk st) as (k & added & Hk & Hev & Hadded & Hc & Hres).
  cbn zeta in *. exists k. subst added. split; [exact Hk|].
  split; [exact Hev|]. split.
  - rewrite Hev. apply last_schedule, Hk.
  - intros Hearly. destruct (snd (connectWithRetry st)) as [conn|e].
    + destruct Hres as (Hok & _). left. rewrite Hok. reflexivity.
    + destruct Hres as (_ & _ & message & Hfail & _ & [Hauth | Hlast]); [|lia].
      right. exists message. auto.
Qed.

(** X19. The error of a failed acquisition names its cause: its message starts
    with the message of the last handshake that was made, which failed, or
    with [Connection failed] when that message is empty. *)
Theorem connectWithRetry_error_names_cause (st : @State Conn) (e : string)
        (Hthrown : snd (connectWithRetry st) = Throw e) :
  exists k message,
    (k < 3)%nat
    /\ establishConnection k = Throw message
    /\ last (events (fst (connectWithRetry st))) = Some (Handshake k)
    /\ String.prefix (or_else message "Connection failed") e = true.
Proof.
  destruct (connectWithRetry_walk st) as (k & added & Hk & Hev & Hadded & _ & Hres).
  cbn zeta in *. rewrite Hthrown in Hres.
  destruct Hres as (_ & _ & message & Hfail & He & _).
  exists k, message. split; [exact Hk|]. split; [exact Hfail|].
  split; [rewrite Hev, Hadded; apply last_schedule, Hk|].
  subst e. apply enrichError_prefix.
Qed.

End AcquisitionProperties.

(** ** Safe paths, user names and job identifiers *)

Section PathProperties.
Import JsString ConfigManager SafetyManager ClusterManager Notions.

Lemma eqb_append_longer (a b : string) :
  b <> "" -> String.eqb (a ++ b) a = false.
Proof.
  intros Hb. apply String.eqb_neq. intros Heq.
  apply (f_equal String.length) in Heq. rewrite length_append in Heq.
  destruct b; [contradiction | simpl in Heq; lia].
Qed.

(** X20. The last guard of [validateDelete] never fires: a path that starts
    with the jobs directory and a slash is not the jobs directory, so the
    error that tells that the jobs directory itself cannot be deleted is
    never thrown. *)
Theorem validateDelete_last_guard_is_dead (clusterInfo : ClusterInfo)
        (remotePath : string) :
  validateDelete clusterInfo remotePath
  <> Throw "SECURITY: Cannot delete jobs directory itself".
Proof.
  unfold validateDelete, validatePath.
  destruct (negb (startsWith (PosixPath.normalize remotePath) (scratchDir clusterInfo))).
  { cbn [obind]. intros H. inversion H. }
  destruct (includes remotePath "..").
  { cbn [obind]. intros H. inversion H. }
  destruct (String.eqb (PosixPath.normalize remotePath) "/"
            || String.eqb (PosixPath.normalize remotePath) (scratchBase clusterInfo)).
  { cbn [obind]. intros H. inversion H. }
  cbn [obind].
  destruct (startsWith remotePath (jobsDir clusterInfo ++ "/")) eqn:Hstart;
    cbn [negb].
  2: { intros H. inversion H. }
  unfold startsWith in Hstart. apply prefix_split in Hstart.
  destruct Hstart as (rest & ->). rewrite append_assoc.
  rewrite eqb_append_longer by discriminate. discriminate.
Qed.

Lemma validatePath_true (clusterInfo : ClusterInfo) (remotePath : string)
      (b : bool) :
  validatePath clusterInfo remotePath = Ok b -> b = true.
Proof.
  unfold validatePath.
  repeat match goal with
         | |- context [if ?c then _ else _] => destruct c
         end; congruence.
Qed.

Lemma child_is_deletable (clusterInfo : ClusterInfo) (name : string) :
  validatePath clusterInfo (jobsDir clusterInfo ++ "/" ++ name) = Ok true ->
  validateDelete clusterInfo (jobsDir clusterInfo ++ "/" ++ name) = Ok true.
Proof.
  intros Hvalid. unfold validateDelete. rewrite Hvalid. cbn [obind].
  unfold startsWith. rewrite <- append_assoc, prefix_append. cbn [negb].
  rewrite append_assoc, eqb_append_longer by discriminate. reflexivity.
Qed.

(** X21. A path that [getSafeJobPath] gives out is the jobs directory, a slash
    and the id, the id has no slash and no two dots in it, and the path
    passes both validators: what is built for a job may be deleted. *)
Theorem getSafeJobPath_is_deletable_child (clusterInfo : ClusterInfo)
        (jobId jobPath : string)
        (Hsafe : getSafeJobPath clusterInfo jobId = Ok jobPath) :
  jobPath = jobsDir clusterInfo ++ "/" ++ jobId
  /\ includes jobId "/" = false
  /\ includes jobId ".." = false
  /\ validatePath clusterInfo jobPath = Ok true
  /\ validateDelete clusterInfo jobPath = Ok true.
Proof.
  unfold getSafeJobPath in Hsafe.
  destruct (includes jobId "..") eqn:Hdots; [discriminate Hsafe|].
  destruct (includes jobId "/") eqn:Hslash; [discriminate Hsafe|].
  cbn [orb] in Hsafe.
  destruct (validatePath clusterInfo (jobsDir clusterInfo ++ "/" ++ jobId))
    as [b|e] eqn:Hvalid; [|discriminate Hsafe].
  cbn [obind] in Hsafe. injection Hsafe as <-.
  rewrite (validatePath_true _ _ _ Hvalid) in Hvalid.
  repeat split; auto. apply child_is_deletable, Hvalid.
Qed.

(** X22. A path that [getSafeVenvPath] gives out is the directory of the
    environments, a slash and the name, the name has no slash and no two
    dots in it, and the path passes [validatePath]. *)
Theorem getSafeVenvPath_is_child (clusterInfo : ClusterInfo)
        (venvName venvPath : string)
        (Hsafe : getSafeVenvPath clusterInfo venvName = Ok venvPath) :
  venvPath = venvsDir clusterInfo ++ "/" ++ venvName
  /\ includes venvName "/" = false
  /\ includes venvName ".." = false
  /\ validatePath clusterInfo venvPath = Ok true.
Proof.
  unfold getSafeVenvPath in Hsafe.
  destruct (includes venvName "..") eqn:Hdots; [discriminate Hsafe|].
  destruct (includes venvName "/") eqn:Hslash; [discriminate Hsafe|].
  cbn [orb] in Hsafe.
  destruct (validatePath clusterInfo (venvsDir clusterInfo ++ "/" ++ venvName))
    as [b|e] eqn:Hvalid; [|discriminate Hsafe].
  cbn [obind] in Hsafe. injection Hsafe as <-.
  rewrite (validatePath_true _ _ _ Hvalid) in Hvalid.
  repeat split; auto.
Qed.

Lemma includes_char_cons (c a : ascii) (s : string) :
  includes (String a s) (String c "")
  = Ascii.eqb c a || includes s (String c "").
Proof.
  cbn [includes]. unfold startsWith at 1. rewrite prefix_cons.
  destruct (Ascii.eqb c a); [destruct s|]; reflexivity.
Qed.

Lemma split_head (c : ascii) (s : string) :
  exists u ps rest,
    split c s = u :: ps
    /\ s = (u ++ rest)%string
    /\ (rest = "" \/ exists r, rest = String c r)
    /\ includes u (String c "") = false
    /\ (includes s (String c "") = false -> u = s).
Proof.
  induction s as [|a s (u & ps & rest & Hsplit & Hs & Hrest & Hu & Hall)].
  - exists "", [], "". repeat split; auto.
  - cbn [split]. destruct (Ascii.eqb_spec a c) as [-> | Hne].
    + exists "", (split c s), (String c s). repeat split; eauto.
      rewrite includes_char_cons, Ascii.eqb_refl. discriminate.
    + rewrite Hsplit. exists (String a u), ps, rest.
      split; [reflexivity|]. split; [rewrite append_cons, <- Hs; reflexivity|].
      split; [exact Hrest|].
      rewrite !includes_char_cons.
      destruct (Ascii.eqb_spec c a) as [Heq | _]; [congruence|]. cbn [orb].
      split; [exact Hu|]. intros H. rewrite (Hall H). reflexivity.
Qed.

(** X23. The user name of the paths is the user name of the settings up to its
    first [@]: it has no [@] in it, and the three directories of the user
    are its scratch directory and two children of it. *)
Theorem getClusterInfo_paths (clusterHost : string) (sshPort : Z) (user : string) :
  let info := getClusterInfo clusterHost sshPort user in
  includes (clusterUsername info) "@" = false
  /\ (exists rest,
        user = clusterUsername info ++ rest
        /\ (rest = "" \/ exists r, rest = String "@" r))
  /\ scratchDir info = "/scratch.hpc/" ++ clusterUsername info
  /\ jobsDir info = scratchDir info ++ "/hpc_jobs"
  /\ venvsDir info = scratchDir info ++ "/python_venvs"
  /\ username info = user.
Proof.
  cbn zeta. unfold getClusterInfo. cbn [clusterUsername scratchDir jobsDir venvsDir username].
  destruct (split_head "@" user) as (u & ps & rest & Hsplit & Hs & Hrest & Hu & Hall).
  assert (Hname : clusterUsernameOf user = u).
  { unfold clusterUsernameOf. rewrite Hsplit.
    destruct (includes user "@") eqn:Hat; [reflexivity|].
    symmetry. apply Hall. reflexivity. }
  rewrite Hname. split; [exact Hu|]. split; [exists rest; auto|].
  unfold SCRATCH_BASE. rewrite !append_assoc. repeat split; reflexivity.
Qed.

End PathProperties.

(** ** The shape of job identifiers *)

Section IdentifierShape.
Import JsString ConfigManager SafetyManager ClusterManager JsDate Notions.
Local Open Scope Z_scope.

Ltac digit_range := Z.div_mod_to_equations; lia.

Lemma digit_isIdChar (d : Z) : 0 <= d < 10 -> isIdChar (digit d) = true.
Proof.
  intros H.
  apply (forall_below (fun d => isIdChar (digit d)) 10);
    [vm_compute; reflexivity | lia].
Qed.

Lemma allIdChars_safe (s : string) :
  allIdChars s = true -> includes s "/" = false /\ includes s ".." = false.
Proof.
  induction s as [|c s IH]; [split; reflexivity|].
  cbn [allIdChars]. intros H. apply andb_prop in H. destruct H as [Hc Hs].
  destruct (IH Hs) as [H1 H2]. split.
  - change "/" with (String "/"%char ""). rewrite includes_char_cons.
    change (String "/"%char "") with "/". rewrite H1.
    destruct (Ascii.eqb_spec "/"%char c) as [<- | _]; [discriminate Hc | reflexivity].
  - cbn [includes]. rewrite H2. unfold startsWith.
    change ".." with (String "."%char "."). rewrite prefix_cons.
    destruct (Ascii.eqb_spec "."%char c) as [<- | _]; [discriminate Hc | reflexivity].
Qed.

Lemma formatId_allIdChars (t : Z) :
  minTime <= t <= maxTime ->
  allIdChars (formatId (dateFields t)) = true
  /\ String.length (formatId (dateFields t)) = 23%nat.
Proof.
  intros Ht.
  destruct (dateFields_range t Ht) as (Hy & Hmo & Hd & Hh & Hmi & Hs & Hms).
  unfold dateFields, formatId, d4, d3, d2.
  rewrite !append_cons, !append_nil. cbn [allIdChars String.length].
  split; [|reflexivity].
  rewrite !digit_isIdChar by digit_range. reflexivity.
Qed.

(** X24. In the years written with four digits a job identifier is 23
    characters long and made of digits, dashes and one [T]: it has no slash
    and no two dots, so it passes the test that [getSafeJobPath] makes on
    an id, and the remote directory of the job is the path that
    [getSafeJobPath] validates. *)
Theorem generateJobId_is_safe_id (t : Z) (clusterInfo : ClusterInfo)
        (Hrange : minTime <= t <= maxTime) :
  let jobId := generateJobId t in
  let remoteJobDir := jobsDir clusterInfo ++ "/" ++ jobId in
  String.length jobId = 23%nat
  /\ allIdChars jobId = true
  /\ includes jobId "/" = false
  /\ includes jobId ".." = false
  /\ getSafeJobPath clusterInfo jobId
     = obind (validatePath clusterInfo remoteJobDir) (fun _ => Ok remoteJobDir).
Proof.
  cbn zeta. rewrite (generateJobId_shape t Hrange).
  destruct (formatId_allIdChars t Hrange) as [Hchars Hlen].
  destruct (allIdChars_safe _ Hchars) as [Hslash Hdots].
  repeat split; auto.
  unfold getSafeJobPath. rewrite Hslash, Hdots. reflexivity.
Qed.

End IdentifierShape.

(** ** CUDA recipes *)

Section CudaProperties.
Import JsString ConfigManager Executors ScriptBuilder Notions.

Lemma createExecutor_cuda (file : string) :
  PosixPath.extname file = ".cu" -> createExecutor file = Ok CudaExecutor.
Proof.
  intros Hext. unfold createExecutor.
  destruct (String.eqb_spec (PosixPath.basename file) "CMakeLists.txt") as [Hb|_].
  - exfalso. unfold PosixPath.extname in Hext.
    unfold PosixPath.basename in Hb. rewrite Hb in Hext.
    vm_compute in Hext. discriminate Hext.
  - rewrite Hext. reflexivity.
Qed.



End CudaProperties.

(** ** The retry wrappers of the connection manager *)

Section RetryProperties.
Import JsString ConnectionManager ConnectionManager.Retrying Notions.
Context {Conn Result : Type}.
Variable runAttempt : nat -> @State Conn -> @State Conn * outcome Result.

Local Abbreviation commandLoop := (commandLoop runAttempt).
Local Abbreviation transferLoop := (@transferLoop Conn Result runAttempt).
Local Abbreviation executeCommand := (Retrying.executeCommand runAttempt).
Local Abbreviation uploadFile := (@Retrying.uploadFile Conn Result runAttempt).
Local Abbreviation downloadFile := (@Retrying.downloadFile Conn Result runAttempt).

Lemma commandLoop_trace (remaining : nat) :
  forall (attempt : nat) (maxRetries : Z) (st : @State Conn) (log : list Step),
    Z.of_nat (attempt + remaining) = maxRetries -> (1 <= remaining)%nat ->
    exists messages final,
      (length messages < remaining)%nat
      /\ snd (fst (commandLoop remaining attempt maxRetries st log))
         = (log ++ retriedSteps attempt messages
                ++ [Try (attempt + length messages) final])%list
      /\ match snd (commandLoop remaining attempt maxRetries st log) with
         | Ok None => False
         | Ok (Some _) => final = None
         | Throw e =>
             final = Some e
             /\ length messages = (remaining - 1)%nat
             /\ (connectionLost e = true ->
                 connection (fst (fst (commandLoop remaining attempt maxRetries
                                                   st log))) = None)
         end.
Proof.
  induction remaining as [|r IH]; intros attempt maxRetries st log Hsum Hpos;
    [lia|].
  cbn [Retrying.commandLoop].
  destruct (runAttempt attempt st) as [st1 [result|message]].
  - exists [], None. cbn. rewrite Nat.add_0_r. split; [lia|]. auto.
  - destruct (Z.eqb_spec (Z.of_nat attempt) (maxRetries - 1)) as [Hlast | Hmore].
    + exists [], (Some message). cbn. rewrite Nat.add_0_r.
      split; [lia|]. split; [reflexivity|]. split; [reflexivity|].
      split; [lia|]. intros ->. reflexivity.
    + destruct (IH (attempt + 1)%nat maxRetries
                   (if connectionLost message then forget st1 else st1)
                   ((log ++ [Try attempt (Some message)]) ++ [Sleep 1000])%list)
        as (messages & final & Hlen & Hlog & Hres); [lia | lia |].
      exists (message :: messages), final. cbn [length retriedSteps].
      split; [lia|]. split.
      * rewrite Hlog, <- !app_assoc. cbn [app].
        replace (attempt + 1)%nat with (S attempt) by lia.
        replace (attempt + S (length messages))%nat
          with (S attempt + length messages)%nat by lia.
        reflexivity.
      * destruct (snd (commandLoop r (attempt + 1) maxRetries _ _)) as [[res|]|e];
          auto.
        destruct Hres as (Hf & Hl & Hc). repeat split; auto. lia.
Qed.

Lemma transferLoop_trace (remaining : nat) :
  forall (attempt : nat) (maxRetries : Z) (st : @State Conn) (log : list Step),
    Z.of_nat (attempt + remaining) = maxRetries -> (1 <= remaining)%nat ->
    exists messages final,
      (length messages < remaining)%nat
      /\ snd (fst (transferLoop remaining attempt maxRetries st log))
         = (log ++ retriedSteps attempt messages
                ++ [Try (attempt + length messages) final])%list
      /\ match snd (transferLoop remaining attempt maxRetries st log) with
         | Ok _ => final = None
         | Throw e => final = Some e /\ length messages = (remaining - 1)%nat
         end.
Proof.
  induction remaining as [|r IH]; intros attempt maxRetries st log Hsum Hpos;
    [lia|].
  cbn [Retrying.transferLoop].
  destruct (runAttempt attempt st) as [st1 [result|message]].
  - exists [], None. cbn. rewrite Nat.add_0_r. split; [lia|]. auto.
  - destruct (Z.eqb_spec (Z.of_nat attempt) (maxRetries - 1)) as [Hlast | Hmore].
    + exists [], (Some message). cbn. rewrite Nat.add_0_r.
      split; [lia|]. split; [reflexivity|]. split; [reflexivity | lia].
    + destruct (IH (attempt + 1)%nat maxRetries (forget st1)
                   ((log ++ [Try attempt (Some message)]) ++ [Sleep 1000])%list)
        as (messages & final & Hlen & Hlog & Hres); [lia | lia |].
      exists (message :: messages), final. cbn [length retriedSteps].
      split; [lia|]. split.
      * rewrite Hlog, <- !app_assoc. cbn [app].
        replace (attempt + 1)%nat with (S attempt) by lia.
        replace (attempt + S (length messages))%nat
          with (S attempt + length messages)%nat by lia.
        reflexivity.
      * destruct (snd (transferLoop r (attempt + 1) maxRetries _ _)) as [[]|e];
          auto.
        destruct Hres as (Hf & Hl). split; auto. lia.
Qed.

(** X27. [executeCommand] with [maxRetries] attempts allowed (two when the
    option is absent or zero, so zero does not switch the attempts off):
    the attempts stop at the first one that returns; every attempt that
    fails before the last allowed one is followed by a pause of one second
    and its error is dropped; the error that is thrown is the one of the
    last allowed attempt, and when that error tells of a lost connection
    the stored session is forgotten. With a negative [maxRetries] nothing
    is attempted and the call returns [undefined] without an error. *)
Theorem executeCommand_retry_trace (maxRetriesOption : option Z)
        (st : @State Conn) :
  let maxRetries := orDefault maxRetriesOption 2 in
  let run := executeCommand maxRetriesOption st in
  (maxRetriesOption = None \/ maxRetriesOption = Some 0%Z -> maxRetries = 2%Z)
  /\ ((maxRetries <= 0)%Z -> run = (st, [], Ok None))
  /\ ((1 <= maxRetries)%Z ->
      exists messages final,
        (Z.of_nat (length messages) < maxRetries)%Z
        /\ snd (fst run)
           = (retriedSteps 0 messages ++ [Try (length messages) final])%list
        /\ match snd run with
           | Ok None => False
           | Ok (Some _) => final = None
           | Throw e =>
               final = Some e
               /\ Z.of_nat (length messages) = (maxRetries - 1)%Z
               /\ (connectionLost e = true -> connection (fst (fst run)) = None)
           end).
Proof.
  cbn zeta. split; [|split].
  - intros [-> | ->]; reflexivity.
  - intros Hneg. unfold Retrying.executeCommand.
    replace (Z.to_nat (orDefault maxRetriesOption 2)) with 0%nat by lia.
    reflexivity.
  - intros Hpos. unfold Retrying.executeCommand.
    destruct (commandLoop_trace (Z.to_nat (orDefault maxRetriesOption 2)) 0
                (orDefault maxRetriesOption 2) st [])
      as (messages & final & Hlen & Hlog & Hres); [lia | lia |].
    exists messages, final. split; [lia|]. split; [exact Hlog|].
    destruct (snd (commandLoop _ 0 _ st [])) as [[res|]|e]; auto.
    destruct Hres as (Hf & Hl & Hc). repeat split; auto. lia.
Qed.

(** X28. [uploadFile] and [downloadFile] run the same loop: the attempts stop
    at the first one that returns, every failed attempt before the last
    allowed one is followed by a pause of one second, and the error thrown
    is the one of the last allowed attempt. With a negative [maxRetries]
    both report success without a single attempt. *)
Theorem transfer_retry_trace (maxRetriesOption : option Z) (st : @State Conn) :
  let maxRetries := orDefault maxRetriesOption 2 in
  let run := uploadFile maxRetriesOption st in
  downloadFile maxRetriesOption st = run
  /\ ((maxRetries <= 0)%Z -> run = (st, [], Ok tt))
  /\ ((1 <= maxRetries)%Z ->
      exists messages final,
        (Z.of_nat (length messages) < maxRetries)%Z
        /\ snd (fst run)
           = (retriedSteps 0 messages ++ [Try (length messages) final])%list
        /\ match snd run with
           | Ok _ => final = None
           | Throw e =>
               final = Some e
               /\ Z.of_nat (length messages) = (maxRetries - 1)%Z
           end).
Proof.
  cbn zeta. split; [reflexivity|]. split.
  - intros Hneg. unfold Retrying.uploadFile.
    replace (Z.to_nat (orDefault maxRetriesOption 2)) with 0%nat by lia.
    reflexivity.
  - intros Hpos. unfold Retrying.uploadFile.
    destruct (transferLoop_trace (Z.to_nat (orDefault maxRetriesOption 2)) 0
                (orDefault maxRetriesOption 2) st [])
      as (messages & final & Hlen & Hlog & Hres); [lia | lia |].
    exists messages, final. split; [lia|]. split; [exact Hlog|].
    destruct (snd (transferLoop _ 0 _ st [])) as [[]|e]; auto.
    destruct Hres as (Hf & Hl). split; auto. lia.
Qed.

End RetryProperties.

(** ** Downloading a directory *)

Section DownloadProperties.
Import JsString StorageManager ClusterManager Notions.

(** Induction on the answers of the server, with the entries of a listing
    as smaller answers. *)
Lemma Entry_induction (P : Entry -> Prop)
      (Hfile : forall name transfer, P (RemoteFile name transfer))
      (Hfail : forall name e, P (RemoteDir name (Throw e)))
      (Hdir : forall name items, Forall P items -> P (RemoteDir name (Ok items))) :
  forall item, P item.
Proof.
  fix IH 1. intros [name transfer | name [items | e]].
  - apply Hfile.
  - apply Hdir. induction items as [|item rest IHrest]; constructor.
    + apply IH.
    + exact IHrest.
  - apply Hfail.
Qed.

Lemma transferEntry_dir (remoteFile localFile name : string)
      (items : list Entry) (log : list (Request * bool)) :
  transferEntry remoteFile localFile (RemoteDir name (Ok items)) log
  = transferEntries remoteFile localFile items
                    (log ++ [(Readdir remoteFile, true)])%list.
Proof. reflexivity. Qed.

Lemma stoppedAt_later (done full : list Request)
      (log : list (Request * bool)) (tail : list Request) :
  stoppedAt full log ->
  stoppedAt (done ++ full ++ tail)%list (answered done ++ log)%list.
Proof.
  intros (before & failed & after & -> & ->).
  exists (done ++ before)%list, failed, (after ++ tail)%list. split.
  - rewrite <- !app_assoc. reflexivity.
  - unfold answered. rewrite map_app, <- !app_assoc. reflexivity.
Qed.

Lemma transferEntries_outcome (remoteFile localFile : string)
      (items : list Entry) :
  Forall entryOutcome items ->
  forall log : list (Request * bool),
    let result := transferEntries remoteFile localFile items log in
    let full := walkEntries remoteFile localFile items in
    if forallb complete items
    then result = ((log ++ answered full)%list, Resolved tt)
    else (exists added, fst result = (log ++ added)%list /\ stoppedAt full added)
         /\ snd result = Pending.
Proof.
  induction 1 as [|item rest Hitem Hrest IH]; intros log; cbn zeta.
  - cbn. rewrite app_nil_r. reflexivity.
  - cbn [forallb transferEntries walkEntries flat_map].
    specialize (Hitem (pathJoin [remoteFile; filename item])
                      (pathJoin [localFile; filename item]) log).
    cbn zeta in Hitem.
    set (full1 := fullWalk (pathJoin [remoteFile; filename item])
                           (pathJoin [localFile; filename item]) item) in *.
    destruct (complete item); cbn [andb].
    + rewrite Hitem. specialize (IH (log ++ answered full1)%list).
      cbn zeta in IH. fold (transferEntries remoteFile localFile).
      fold (walkEntries remoteFile localFile rest).
      destruct (forallb complete rest).
      * rewrite IH. unfold answered. rewrite map_app, app_assoc. reflexivity.
      * destruct IH as ((added & Hlog & Hstop) & Hres). split; [|exact Hres].
        exists (answered full1 ++ added)%list.
        split; [rewrite Hlog, app_assoc; reflexivity|].
        pose proof (stoppedAt_later full1 _ _ [] Hstop) as H.
        rewrite app_nil_r in H. exact H.
    + destruct Hitem as ((added & Hlog & Hstop) & Hres).
      destruct (transferEntry _ _ item log) as [log' [[]|e|]];
        cbn [fst snd] in *; try contradiction; subst log';
        (split; [|reflexivity]); exists added; (split; [reflexivity|]);
        pose proof (stoppedAt_later [] _ _
                      (walkEntries remoteFile localFile rest) Hstop) as H;
        exact H.
Qed.

Lemma transferEntry_outcome : forall item, entryOutcome item.
Proof.
  apply Entry_induction.
  - intros name [e|] remoteFile localFile log; cbn.
    + split; [|discriminate]. exists [(FastGet remoteFile localFile, false)].
      split; [reflexivity|]. exists [], (FastGet remoteFile localFile), [].
      split; reflexivity.
    + reflexivity.
  - intros name e remoteFile localFile log. cbn.
    split; [|discriminate]. exists [(Readdir remoteFile, false)].
    split; [reflexivity|]. exists [], (Readdir remoteFile), [].
    split; reflexivity.
  - intros name items Hitems remoteFile localFile log. cbn zeta.
    rewrite transferEntry_dir. cbn [complete fullWalk].
    fold (walkEntries remoteFile localFile items).
    pose proof (transferEntries_outcome remoteFile localFile items Hitems
                  (log ++ [(Readdir remoteFile, true)])%list) as H.
    cbn zeta in H. destruct (forallb complete items).
    + rewrite H, <- app_assoc. reflexivity.
    + destruct H as ((added & Hlog & Hstop) & Hres). split.
      * exists ((Readdir remoteFile, true) :: added).
        split; [rewrite Hlog, <- app_assoc; reflexivity|].
        pose proof (stoppedAt_later [Readdir remoteFile] _ _ [] Hstop) as H.
        rewrite app_nil_r in H. exact H.
      * rewrite Hres. discriminate.
Qed.

Lemma downloadDirRecursive_outcome (remotePath localPath : string)
      (listing : outcome (list Entry)) :
  let result := _downloadDirRecursive remotePath localPath listing [] in
  let full := fullWalk remotePath localPath
                       (RemoteDir (PosixPath.basename remotePath) listing) in
  match listing with
  | Throw e => result = ([(Readdir remotePath, false)], Rejected e)
  | Ok items =>
      if forallb complete items
      then result = (answered full, Resolved tt)
      else stoppedAt full (fst result) /\ snd result = Pending
  end.
Proof.
  cbn zeta. unfold _downloadDirRecursive. destruct listing as [items|e];
    [|reflexivity].
  rewrite transferEntry_dir. cbn [fullWalk].
  fold (walkEntries remotePath localPath items).
  pose proof (transferEntries_outcome remotePath localPath items) as H.
  specialize (H (proj2 (Forall_forall _ _) (fun item _ => transferEntry_outcome item))
                ([] ++ [(Readdir remotePath, true)])%list).
  cbn zeta in H. destruct (forallb complete items).
  - rewrite H. reflexivity.
  - destruct H as ((added & Hlog & Hstop) & Hres). split; [|exact Hres].
    rewrite Hlog.
    pose proof (stoppedAt_later [Readdir remotePath] _ _ [] Hstop) as H.
    rewrite app_nil_r in H. exact H.
Qed.

(** X29. The promise of [downloadDirectory] is resolved exactly when the
    session opens and every listing and every transfer below the remote
    directory goes through. It is rejected exactly when the connection or
    the SFTP session cannot be had or the listing of the remote directory
    itself fails. In every other case, a transfer or the listing of a
    directory further down that fails, it is neither: the promise stays
    pending for ever. *)
Theorem downloadDirectory_settles (remotePath localPath : string)
        (server : Server) :
  let promise := snd (downloadDirectory remotePath localPath server) in
  let opened :=
    is_ok (connected server) = true /\ is_ok (sftpOpened server) = true in
  (promise = Resolved tt <->
   opened /\ exists items, tree server = Ok items
                           /\ forallb complete items = true)
  /\ (forall e,
        promise = Rejected e <->
        connected server = Throw e
        \/ (is_ok (connected server) = true /\ sftpOpened server = Throw e)
        \/ (opened /\ tree server = Throw e))
  /\ (promise = Pending <->
      opened /\ exists items, tree server = Ok items
                              /\ forallb complete items = false).
Proof.
  cbn zeta. unfold downloadDirectory.
  destruct (connected server) as [[]|e1].
  2: { split; [|split].
       - split; [discriminate | intros [[H _] _]; discriminate H].
       - intros e. split.
         + intros [= ->]. left. reflexivity.
         + intros [[= ->] | [[H _] | [[H _] _]]]; [reflexivity | |];
             discriminate H.
       - split; [discriminate | intros [[H _] _]; discriminate H]. }
  destruct (sftpOpened server) as [[]|e2].
  2: { split; [|split].
       - split; [discriminate | intros [[_ H] _]; discriminate H].
       - intros e. split.
         + intros [= ->]. right. left. auto.
         + intros [H | [[_ [= ->]] | [[_ H] _]]]; [discriminate H | reflexivity |].
           discriminate H.
       - split; [discriminate | intros [[_ H] _]; discriminate H]. }
  pose proof (downloadDirRecursive_outcome remotePath localPath (tree server)) as H.
  cbn zeta in H. destruct (tree server) as [items|e3].
  - destruct (forallb complete items) eqn:Hall.
    + rewrite H. cbn [snd]. split; [|split].
      * split; [intros _ | reflexivity].
        split; [split; reflexivity | exists items; split; [reflexivity | exact Hall]].
      * intros e. split; [discriminate|].
        intros [H1 | [[_ H1] | [_ H1]]]; discriminate H1.
      * split; [discriminate | intros (_ & items' & [= <-] & Hc); congruence].
    + destruct H as [_ Hres].
      destruct (_downloadDirRecursive remotePath localPath (Ok items) [])
        as [log promise]. cbn [snd] in Hres. subst promise. cbn [snd].
      split; [|split].
      * split; [discriminate | intros (_ & items' & [= <-] & Hc); congruence].
      * intros e. split; [discriminate|].
        intros [H1 | [[_ H1] | [_ H1]]]; discriminate H1.
      * split; [intros _ | reflexivity].
        split; [split; reflexivity | exists items; split; [reflexivity | exact Hall]].
  - rewrite H. cbn [snd]. split; [|split].
    + split; [discriminate | intros (_ & items' & H1 & _); discriminate H1].
    + intros e. split.
      * intros [= ->]. right. right. auto.
      * intros [H1 | [[_ H1] | [_ [= ->]]]]; [discriminate H1 | discriminate H1 |].
        reflexivity.
    + split; [discriminate | intros (_ & items' & H1 & _); discriminate H1].
Qed.

(** X30. What [downloadDirectory] asks of the server: nothing when the session
    cannot be had; the whole walk, every directory listed before its
    entries and every file fetched to the local path of the same relative
    name, when the promise is resolved; and otherwise a start of that walk
    whose last request is the only one that failed, so nothing is asked
    after the first failure. *)
Theorem downloadDirectory_requests (remotePath localPath : string)
        (server : Server) :
  let run := downloadDirectory remotePath localPath server in
  let full := fullWalk remotePath localPath
                       (RemoteDir (PosixPath.basename remotePath) (tree server)) in
  match snd run with
  | Resolved _ => fst run = answered full
  | _ =>
      (fst run = []
       /\ (is_ok (connected server) = false \/ is_ok (sftpOpened server) = false))
      \/ stoppedAt full (fst run)
  end.
Proof.
  cbn zeta. unfold downloadDirectory.
  destruct (connected server) as [[]|e1]; [|left; auto].
  destruct (sftpOpened server) as [[]|e2]; [|left; auto].
  pose proof (downloadDirRecursive_outcome remotePath localPath (tree server)) as H.
  cbn zeta in H. destruct (tree server) as [items|e3].
  - destruct (forallb complete items).
    + rewrite H. reflexivity.
    + destruct H as [Hstop Hres].
      destruct (_downloadDirRecursive remotePath localPath (Ok items) [])
        as [log promise]. cbn [fst snd] in *. subst promise. right. exact Hstop.
  - rewrite H. cbn [fst snd]. right.
    exists [], (Readdir remotePath), []. split; reflexivity.
Qed.

End DownloadProperties.

(** ** The further properties on the samples *)

Section FurtherWitnesses.
Import JsString JsObject StorageManager ClusterManager Notions Samples.

Lemma poll_pass_writes_status_only_witness :
  exists jobs',
    saves (fst (getJobStatus Samples.remoteExec Samples.JSON_parse
                  Samples.parseLedger Samples.stringifyLedger Samples.host world))
    = [jobs']
    /\ Forall2 sameButStatus ledger jobs'.
Proof.
  destruct (poll_pass_writes_status_only Samples.remoteExec Samples.JSON_parse
              Samples.parseLedger Samples.stringifyLedger Samples.host world
              jobsPath eq_refl)
    as (jobs & jobs' & Hload & _ & Hsaves & _ & Hsame).
  vm_compute in Hload. injection Hload as <-.
  exists jobs'. split; [exact Hsaves | exact Hsame].
Defined.

Lemma matchSubmitted_sound_witness :
  "4243" <> ""
  /\ allDigits "4243" = true
  /\ includes ("Submitted batch job 4243" ++ newline) "Submitted batch job 4243" = true.
Proof.
  apply (matchSubmitted_sound ("Submitted batch job 4243" ++ newline) "4243").
  reflexivity.
Defined.

Lemma matchSubmitted_reads_sbatch_witness :
  matchSubmitted ("Submitted batch job " ++ "4243" ++ newline) = Some "4243".
Proof.
  apply matchSubmitted_reads_sbatch.
  - reflexivity.
  - discriminate.
  - reflexivity.
Defined.

Lemma deleteJob_forgets_that_id_witness :
  let after :=
    fst (deleteJob (readLedger knownLedgers) printLedger initialised printedFiles
                   "2026-01-01T00-00-00-002") in
  getJob (readLedger knownLedgers) initialised after "2026-01-01T00-00-00-002"
  = Ok None
  /\ getJob (readLedger knownLedgers) initialised after "2026-01-01T00-00-00-003"
     = Ok (Some jobFinished).
Proof.
  destruct (deleteJob_forgets_that_id (readLedger knownLedgers) printLedger
              initialised printedFiles jobsPath "2026-01-01T00-00-00-002" ledger)
    as (_ & Hgone & Hothers & _).
  - reflexivity.
  - vm_compute. reflexivity.
  - vm_compute. reflexivity.
  - cbn zeta. split; [exact Hgone|].
    rewrite (Hothers "2026-01-01T00-00-00-003") by discriminate.
    vm_compute. reflexivity.
Defined.

Lemma updateJob_then_getJob_witness :
  let run :=
    updateJob (readLedger knownLedgers) printLedger initialised printedFiles
              "2026-01-01T00-00-00-002" updates in
  snd run = Ok (spread jobLost updates)
  /\ getField "status" (spread jobLost updates) = Some (JStr "CANCELLED")
  /\ getField "slurmId" (spread jobLost updates) = Some (JStr "102")
  /\ getJob (readLedger knownLedgers) initialised (fst run) "2026-01-01T00-00-00-002"
     = Ok (Some (spread jobLost updates)).
Proof.
  destruct (updateJob_then_getJob (readLedger knownLedgers) printLedger
              initialised printedFiles jobsPath "2026-01-01T00-00-00-002"
              updates ledger 1 jobLost)
    as (_ & Hrun & Hmerge & Hget & _).
  - reflexivity.
  - vm_compute. reflexivity.
  - reflexivity.
  - reflexivity.
  - reflexivity.
  - vm_compute. reflexivity.
  - cbn zeta in *. rewrite Hrun. cbn [fst snd].
    split; [reflexivity|]. split; [rewrite Hmerge; reflexivity|].
    split; [rewrite Hmerge; reflexivity | exact Hget].
Defined.


Lemma getJobDetails_reads_only_witness :
  exists details text catOk tailOk,
    snd (getJobDetails Samples.remoteExec Samples.JSON_parse Samples.parseLedger
           Samples.stringifyLedger Samples.host "2026-01-01T00-00-00-003" world)
    = Ok details
    /\ calls (fst (getJobDetails Samples.remoteExec Samples.JSON_parse
                     Samples.parseLedger Samples.stringifyLedger Samples.host
                     "2026-01-01T00-00-00-003" world))
       = [(Exec (catCommand jobFinished), catOk);
          (Exec (logsCommand jobFinished), tailOk)]
    /\ getField "logs" details = Some (JStr text)
    /\ truthy (trim text) = true.
Proof.
  destruct (getJobDetails_reads_only Samples.remoteExec Samples.JSON_parse
              Samples.parseLedger Samples.stringifyLedger Samples.host
              "2026-01-01T00-00-00-003" jobsPath ledger jobFinished world)
    as (details & text & catOk & tailOk & Hres & Hcalls & _ & _ & _ & Hlogs & Htext & _).
  - reflexivity.
  - vm_compute. reflexivity.
  - reflexivity.
  - exists details, text, catOk, tailOk. auto.
Defined.

Lemma unknown_job_is_refused_locally_witness :
  getJobDetails Samples.remoteExec Samples.JSON_parse Samples.parseLedger
    Samples.stringifyLedger Samples.host "2026-01-01T00-00-00-009" world
  = (world, Throw "Job 2026-01-01T00-00-00-009 not found")
  /\ cleanRemoteJob Samples.remoteExec Samples.parseLedger Samples.stringifyLedger
       Samples.host "2026-01-01T00-00-00-009" world
     = (world, Throw "Job 2026-01-01T00-00-00-009 not found").
Proof.
  apply (unknown_job_is_refused_locally Samples.remoteExec Samples.JSON_parse
           Samples.parseLedger Samples.stringifyLedger Samples.host
           "2026-01-01T00-00-00-009" jobsPath ledger world).
  - reflexivity.
  - vm_compute. reflexivity.
  - reflexivity.
Defined.

Lemma getCompletedJobs_of_polled_ledger_witness :
  snd (getCompletedJobs Samples.remoteExec Samples.JSON_parse
         (readLedger knownLedgers) printLedger Samples.host printedWorld)
  = Ok [ setField "statusData" (JObj snapshot)
           (setField "status" (JStr "COMPLETED") jobFinished);
         jobSettled ].
Proof.
  destruct (getCompletedJobs_of_polled_ledger Samples.remoteExec Samples.JSON_parse
              (readLedger knownLedgers) printLedger Samples.host jobsPath
              ledger polledLedger printedWorld)
    as (Hrun & _).
  - reflexivity.
  - vm_compute. reflexivity.
  - vm_compute. reflexivity.
  - vm_compute. reflexivity.
  - cbn zeta in Hrun. rewrite Hrun. reflexivity.
Defined.

Lemma poll_overwrites_unreadable_ledger_witness :
  snd (getJobStatus Samples.remoteExec Samples.JSON_parse Samples.parseLedger
         Samples.stringifyLedger Samples.host corruptedWorld) = Ok []
  /\ files (fst (getJobStatus Samples.remoteExec Samples.JSON_parse
                   Samples.parseLedger Samples.stringifyLedger Samples.host
                   corruptedWorld)) !! jobsPath
     = Some (Samples.stringifyLedger []).
Proof.
  destruct (poll_overwrites_unreadable_ledger Samples.remoteExec Samples.JSON_parse
              Samples.parseLedger Samples.stringifyLedger Samples.host
              jobsPath "<<<<<<< HEAD" corruptedWorld)
    as (Hres & _ & _ & Hfiles).
  - reflexivity.
  - vm_compute. reflexivity.
  - reflexivity.
  - split; [exact Hres|]. rewrite Hfiles. apply lookup_insert_eq.
Defined.

Lemma submitJob_rejected_recipe_after_uploads_witness :
  let after :=
    submitJob Samples.remoteExec Samples.remoteUpload Samples.parseLedger
      Samples.stringifyLedger Samples.host Samples.clusterInfo
      "/home/alice/kernel.cu" (Some ["/home/alice/data.bin"]) (cudaJob 0)
      1767225600000 1767225600000 world in
  calls (fst after)
  = [ (Exec "mkdir -p /scratch.hpc/alice/hpc_jobs/2026-01-01T00-00-00-000", true);
      (Upload "/home/alice/kernel.cu"
              "/scratch.hpc/alice/hpc_jobs/2026-01-01T00-00-00-000/kernel.cu", true);
      (Upload "/home/alice/data.bin"
              "/scratch.hpc/alice/hpc_jobs/2026-01-01T00-00-00-000/data.bin", true) ]
  /\ snd after = Throw "CUDA execution requires at least 1 GPU"
  /\ saves (fst after) = [].
Proof.
  destruct (submitJob_rejected_recipe_after_uploads Samples.remoteExec
              Samples.remoteUpload Samples.parseLedger Samples.stringifyLedger
              Samples.host Samples.clusterInfo
              "/home/alice/kernel.cu" (Some ["/home/alice/data.bin"]) (cudaJob 0)
              1767225600000 1767225600000 world jobsPath
              "CUDA execution requires at least 1 GPU")
    as (added & Hcalls & _ & _ & _ & Hsaves & Hall).
  - reflexivity.
  - vm_compute. reflexivity.
  - cbn zeta in *. vm_compute in Hcalls.
    assert (Hadded : added
              = [ (Exec "mkdir -p /scratch.hpc/alice/hpc_jobs/2026-01-01T00-00-00-000", true);
                  (Upload "/home/alice/kernel.cu"
                          "/scratch.hpc/alice/hpc_jobs/2026-01-01T00-00-00-000/kernel.cu", true);
                  (Upload "/home/alice/data.bin"
                          "/scratch.hpc/alice/hpc_jobs/2026-01-01T00-00-00-000/data.bin", true) ]).
    { symmetry. exact Hcalls. }
    destruct Hall as (_ & Hthrown).
    { rewrite Hadded. intros (c & Hin). simpl in Hin.
      destruct Hin as [H | [H | [H | []]]]; discriminate H. }
    split; [vm_compute; reflexivity|]. split; [exact Hthrown | exact Hsaves].
Defined.

Lemma submitJob_temporary_script_witness :
  let after :=
    submitJob Samples.remoteExec refusedScript Samples.parseLedger
      Samples.stringifyLedger Samples.host Samples.clusterInfo
      "/home/alice/main.c" None nativeJob 1767225600000 1767225600000 world in
  is_ok (snd after) = false
  /\ is_Some (files (fst after) !! "/tmp/job_2026-01-01T00-00-00-000.sbatch").
Proof.
  destruct (ScriptBuilder.buildScript
              (stamped nativeJob (generateJobId 1767225600000)
                       (PosixPath.basename "/home/alice/main.c")
                       (JsDate.toISOString 1767225600000) (default [] None))
              Samples.clusterInfo) as [script|e] eqn:Hbuilt.
  2: { vm_compute in Hbuilt. discriminate Hbuilt. }
  destruct (submitJob_temporary_script Samples.remoteExec refusedScript
              Samples.parseLedger Samples.stringifyLedger Samples.host
              Samples.clusterInfo "/home/alice/main.c" None nativeJob
              1767225600000 1767225600000 world jobsPath script)
    as (added & Hcalls & Hleft & _).
  - reflexivity.
  - exact Hbuilt.
  - cbn zeta in *. destruct Hleft as (Hfail & Hfiles).
    { vm_compute in Hcalls. symmetry. exact Hcalls. }
    split; [exact Hfail|]. rewrite Hfiles.
    change (pathJoin [tmpdir Samples.host; "job_" ++ generateJobId 1767225600000 ++ ".sbatch"])
      with "/tmp/job_2026-01-01T00-00-00-000.sbatch".
    rewrite lookup_insert_eq. eexists. reflexivity.
Defined.

Lemma connectWithRetry_error_names_cause_witness :
  exists k message,
    (k < 3)%nat
    /\ handshakes k = Throw message
    /\ last (ConnectionManager.events
               (fst (ConnectionManager.connectWithRetry handshakes
                       "hpc.example.org" "22" idle)))
       = Some (ConnectionManager.Handshake k)
    /\ String.prefix (or_else message "Connection failed")
                     "All configured authentication methods failed" = true.
Proof.
  apply (connectWithRetry_error_names_cause handshakes "hpc.example.org" "22" idle).
  reflexivity.
Defined.

Lemma getSafeJobPath_is_deletable_child_witness :
  SafetyManager.validateDelete Samples.clusterInfo
    "/scratch.hpc/alice/hpc_jobs/2026-01-01T00-00-00-000" = Ok true.
Proof.
  apply (getSafeJobPath_is_deletable_child Samples.clusterInfo
           "2026-01-01T00-00-00-000"
           "/scratch.hpc/alice/hpc_jobs/2026-01-01T00-00-00-000").
  vm_compute. reflexivity.
Defined.

Lemma getSafeVenvPath_is_child_witness :
  SafetyManager.validatePath Samples.clusterInfo
    "/scratch.hpc/alice/python_venvs/torch_env" = Ok true.
Proof.
  apply (getSafeVenvPath_is_child Samples.clusterInfo "torch_env"
           "/scratch.hpc/alice/python_venvs/torch_env").
  vm_compute. reflexivity.
Defined.

Lemma generateJobId_is_safe_id_witness :
  String.length (generateJobId 1767225600000) = 23%nat
  /\ allIdChars (generateJobId 1767225600000) = true
  /\ includes (generateJobId 1767225600000) "/" = false
  /\ includes (generateJobId 1767225600000) ".." = false
  /\ SafetyManager.getSafeJobPath Samples.clusterInfo (generateJobId 1767225600000)
     = obind (SafetyManager.validatePath Samples.clusterInfo
                (ConfigManager.jobsDir Samples.clusterInfo ++ "/"
                 ++ generateJobId 1767225600000))
             (fun _ => Ok (ConfigManager.jobsDir Samples.clusterInfo ++ "/"
                           ++ generateJobId 1767225600000)).
Proof.
  apply (generateJobId_is_safe_id 1767225600000 Samples.clusterInfo).
  unfold minTime, maxTime. lia.
Defined.



End FurtherWitnesses.
